(* ===== verification/_CoqProject ===== *)
-Q . S2P
Prelude.v
PyStr.v
Json.v
Template.v
TemplateSpec.v
Io.v
Resolver.v
CreateProject.v
NotionClient.v
Trace.v
Heap.v
