(* ===== verification/Prelude.v ===== *)
(** * A verification development of notion-agent-hub

    The repository is a command-line layer over a hosted page/database API.
    Its two sources are [src/scripts/create_project.py] (create one project
    page from a template) and [src/scripts/notion_client.py] (a CLI with six
    subcommands).  Both scripts share two pieces of logic, written twice:
    target resolution ([resolve_target]: a raw 32-hex-digit identifier, or
    a friendly name looked up in [notion-config.json]) and template loading
    ([load_template]).  [create_project.py] adds the template engine
    ([replace_placeholders]: substitute [{{KEY}}] tokens in every string of
    a decoded JSON document).  Everything else (argument parsing, the HTTP
    client, [json.load], printing) is library code the scripts call.

    ** Files, in dependency order

    - [Prelude] (this file): notations scope [py_scope], hint databases
      [pyhints] and [pyrw], the [string]/[list ascii] bridge, shared list
      lemmas ([app_cons_first], the element counter [copies]), the
      [rewrite_hyps] tactic.
    - [PyStr]: the Python [str] methods the code calls, as CPython computes
      them: [str.replace] and [str.count] as one left-to-right scan
      ([list_replace], [list_count]), [in] ([occursb]), [join], and
      [split] by the same scan ([split_from], [str_split]; used to read
      printed lists back).  Theorems: refinement of the scan by the
      relational specification [replaced] (leftmost, non-overlapping), the
      length law, identity on strings without the pattern, identity when
      [new = old], deletion of a one-character pattern as a [filter], and
      the round trip [list_split_join].
    - [Json]: the objects [json.load] returns ([json]: None, bool, int,
      float as [spec_float], str, list, dict as an insertion-ordered
      association list), the exceptions ([exc]), and the dict operations the
      code applies to any decoded object ([py_getitem], [py_setitem],
      [py_get], [py_pop_none], [py_contains], [py_keys]) with CPython's
      exception for each non-dict case.  Invariant [wf]: no duplicate key
      at any depth; [setitem] and [delete] preserve it.
    - [Template]: [replace_placeholders] (create_project.py 65-75) with its
      per-string loop [substitute_str] and token [placeholder].  Theorems
      (C1, C2, C10, C12, C13): the output is the unique document with
      the input's [skeleton] whose [leaves] are the input's leaves through
      [substitute_str] (a complete characterisation, through the
      extensionality lemma [json_ext]); [wf] is preserved; one key is
      exactly the specified replacement; a document without tokens (the
      empty dict in particular) is a fixed point; keys compose
      sequentially.  The spec's "Apollo" scenario is an [Example].  C36: a
      token whose key is absent stays literal (brace-free context).
    - [TemplateSpec]: spec section 4.2 read as simultaneous substitution:
      the relation [simult] (a string read from the left into tokens of
      the keys, each replaced by its value, and other characters) and the
      scan [sim] that computes it.  C9 (refinement): when the tokens are
      independent ([tokens_independent]: keys and values without braces,
      distinct keys, no value inside a later key), [substitute_str]'s
      key-by-key loop returns exactly the simultaneous result; hence the
      keys' order is then irrelevant ([substitute_str_perm]).  The project
      name [{{DATE}}] of C17 breaks independence, and there the two differ
      ([sequential_not_simultaneous]).
    - [Io]: the world a run reads ([world]: environment, the [.env] file
      [load_dotenv()] merges without overriding, files, [ROOT], today's
      date, the remote service as an oracle from request to answer) and the
      run itself as the monad [Cmd] (reader of the world, writer of the
      [event] trace, error on an [exc]), with [x <- m ;; k] notation, the
      monad laws pointwise, and the [run] tactic that drives a computation.
    - [Resolver]: the raw-identifier test [looks_like_id] and the error
      messages both copies share, and the contract of resolution as the
      class [TargetResolver] (spec section 4.1).  C8: the test is "32
      lowercase hex digits once dashes are removed" (and, as a lemma,
      dashes may sit anywhere).  C23: the "Available targets" line splits back
      into the names when none contains [", "] (and is ambiguous
      otherwise, [available_targets_ambiguous]).
    - [CreateProject]: every function of create_project.py ([get_client],
      [resolve_target], [load_template], [create_project_page], [main]).
      [resolve_target] is an instance of [TargetResolver]; theorems C3-C6
      are proved through the class.  C14: the single request
      [create_project_page] sends carries the substituted template with
      [parent] and [icon] set, [object] removed, no duplicate key.  C15,
      C16: fail-fast on the token; the banner printed before the template
      is looked up.  C17: a project named [{{DATE}}] gets the date.  C22: a
      normal run end to end.  C24, C25: a [targets] list, and an answer without [id],
      end in Python exceptions the spec does not list.
    - [NotionClient]: every function of notion_client.py, one [Cmd] per
      subcommand handler and [main] as the dispatch on the parsed
      [command].  Its [resolve_target] is also an instance of the class.
      C18-C21: token checked first for every subcommand; [create-page]
      with a template forwards it unsubstituted and keeps [object];
      [create-db] removes [object]; malformed JSON on the command line
      stops the run before any request.  C26, C27: the [query-db]
      arguments, and an empty [--filter] dropped before parsing.  C31,
      C32: the default bodies (title fallback on an absent or empty
      [--title]), [append-blocks] and [get-page] end to end.  C33, C34: a
      config that is not a dict, and a [targets] string (a substring test),
      end in Python exceptions.  C7: the two copies of [resolve_target]
      behave the same on every world.
    - [Trace]: the order of spec section 5 as an automaton over events
      ([stage], [step], [steps], [ordered]) and a weakest-precondition
      calculus on [Cmd] ([wp] with a return and an error postcondition,
      rules [wp_bind], [wp_seq], [wp_lift], [wp_fail], ..., the tactic
      [wp_auto]).  Each function of notion_client.py gets a specification
      from one stage to the next, proved once for every error
      postcondition that accepts the scripts' exits, library exceptions
      and the service's errors (Section [Specs]).  C28: every run of
      notion_client.py is ordered, and a run that returns has printed its
      answer.  C29: at most two file reads, one request, one stdout line
      (one budget lemma, [steps_budget], at three costs).  C30:
      create_project.py is not ordered (its banner precedes the template
      read).  C35: every [sys.exit] has status 1 and follows an error line.
    - [Heap]: Python objects with identity: values ([val]: immediates and
      references), list and dict objects ([obj]), the heap (a [gmap] from
      locations), allocation at a fresh location, reading a value back as
      a document ([to_json], with fuel), [rebuild] (the traversal of
      [replace_placeholders], which builds new containers), [deepcopy], the
      in-place [setitem_h] / [pop_none_h], and lines 81-92 of
      [create_project_page] ([create_project_page_h]).  C11: the heap
      [replace_placeholders] returns with fuel the depth of the tree,
      denotes the value model's result and writes no existing object.  C37:
      the heap [create_project_page] ends with the value model's body
      ([CreateProject.page_body]) and leaves the loaded template unchanged.

    ** Modelling choices

    - A Python [str] is a [string] with one [ascii] per code point: every
      character the code tests ([-], braces, hex digits) is ASCII, and
      other code points are only copied.  A dict is an association list in
      insertion order, since the request bodies keep the template's order.
    - Nothing loops: every definition of the value model is structural,
      [str.replace] by a skip counter ([replace_from]) that mirrors
      CPython's index advancing by [len(old)] after a match.  Only the heap
      model needs fuel, since a heap may hold cycles: the traversals of
      [Heap] take the depth of the object tree, and C11 / C37 prove that
      the depth of the inputs (plus two for the body, which nests the
      parent id two levels down) is enough.  [json.load] builds trees, so
      [deepcopy]'s memo (which keeps sharing) is not modelled.
    - [json.load] and [json.loads] are not modelled character by
      character: a file or argument holds its decoded document or nothing
      (a [JSONDecodeError]).  Paths are strings built as [pathlib] builds
      them ([path_join]); [..] is not normalised.
    - argparse, the HTTP client and [json.dumps] are not modelled: handlers
      receive parsed arguments, a request is an [ECall] event answered by
      the world's oracle, printing an answer is an [EStdout] event holding
      the object.

    ** Not modelled

    - argparse, the HTTP client, [json.load]/[json.dumps] and
      [load_dotenv]'s parsing of [.env] are library code: their results
      enter through the [world] (parsed arguments, the [api] oracle, decoded
      documents, the merged environment).
    - Object identity outside [create_project_page]: the handlers of
      notion_client.py build and send fresh dicts and never reuse one, so
      the value model is exact there.
    - Termination of the scripts is not a theorem of its own: every
      definition of the value model is a total structural function, so
      every run ends; only the heap traversals take fuel (C11).

    Every function and handler of the two scripts is modelled; what remains
    above is library code whose behaviour the scripts only consume. *)

From Stdlib Require Export ZArith Ascii.
From stdpp Require Export base list strings decidable sets.

(** Notations of the development live in [py_scope]. *)
Declare Scope py_scope.
Delimit Scope py_scope with py.

(** Two databases shared by every component: [pyhints] for [auto] and
    [pyrw] for the rewriting equations of the string conversions and of
    the models. *)
Create HintDb pyhints.
Create Rewrite HintDb pyrw.

(** ** Python strings as character lists

    A Python [str] is a sequence of code points.  It is modelled as a Rocq
    [string], a list of [ascii] characters, one per code point: every
    literal the code compares against ([-], [{{], [}}], hex digits) is
    ASCII.  The algorithms on strings are written once over [list A] for any
    character type with decidable equality and transported to [string]
    through [chars] / [of_chars]. *)

Abbreviation chars := String.list_ascii_of_string.
Abbreviation of_chars := String.string_of_list_ascii.

Lemma chars_of_chars (l : list ascii) : chars (of_chars l) = l.
Proof. apply String.list_ascii_of_string_of_list_ascii. Qed.

Lemma of_chars_chars (s : string) : of_chars (chars s) = s.
Proof. apply String.string_of_list_ascii_of_string. Qed.

Lemma chars_app (s1 s2 : string) : chars (s1 +:+ s2) = chars s1 ++ chars s2.
Proof. induction s1 as [|c s1 IH]; simpl; [done | by rewrite IH]. Qed.

Lemma of_chars_app (l1 l2 : list ascii) : of_chars (l1 ++ l2) = of_chars l1 +:+ of_chars l2.
Proof. induction l1 as [|c l1 IH]; simpl; [done | by rewrite IH]. Qed.

Lemma chars_length (s : string) : length (chars s) = String.length s.
Proof. induction s as [|c s IH]; simpl; [done | by rewrite IH]. Qed.

Lemma chars_inj (s1 s2 : string) : chars s1 = chars s2 -> s1 = s2.
Proof. intros H. by rewrite <- (of_chars_chars s1), H, of_chars_chars. Qed.

#[export] Hint Rewrite chars_of_chars of_chars_chars chars_app of_chars_app chars_length : pyrw.

(** ** Generic list lemmas shared by the components *)

Lemma map_ext_Forall_id {A} (f : A -> A) (l : list A) :
  Forall (fun x => f x = x) l -> map f l = l.
Proof. induction 1; simpl; congruence. Qed.

Lemma map_Forall_ext {A B} (f g : A -> B) (l : list A) :
  Forall (fun x => f x = g x) l -> map f l = map g l.
Proof. induction 1; simpl; congruence. Qed.

Lemma Forall_mp {A} (P Q : A -> Prop) (l : list A) :
  Forall (fun x => P x -> Q x) l -> Forall P l -> Forall Q l.
Proof. induction 1; inversion 1; constructor; auto. Qed.

Lemma fold_left_app_eq {A B} (f : A -> B -> A) (l1 l2 : list B) (a : A) :
  fold_left f (l1 ++ l2) a = fold_left f l2 (fold_left f l1 a).
Proof. apply fold_left_app. Qed.

#[export] Hint Rewrite @fold_left_app_eq : pyrw.

(** Two splits of a list at an element that occurs in neither prefix are
    the same split. *)
Lemma app_cons_first {A} (c : A) (x y x' y' : list A) :
  c ∉ x -> c ∉ x' -> x ++ c :: y = x' ++ c :: y' -> x = x' /\ y = y'.
Proof.
  revert x'. induction x as [|d x IH]; intros [|d' x'] Hx Hx' H; simplify_eq/=.
  - done.
  - destruct Hx'. by left.
  - destruct Hx. by left.
  - destruct (IH x') as [-> ->]; [set_solver|set_solver|done|done].
Qed.

(** The number of copies of [c] in a list. *)
Definition copies {A} `{EqDecision A} (c : A) (l : list A) : nat := length (filter (fun x => x = c) l).

Lemma copies_app {A} `{EqDecision A} (c : A) l1 l2 : copies c (l1 ++ l2) = copies c l1 + copies c l2.
Proof. unfold copies. by rewrite filter_app, length_app. Qed.

Lemma copies_cons {A} `{EqDecision A} (c d : A) l :
  copies c (d :: l) = (if decide (d = c) then 1 else 0) + copies c l.
Proof. unfold copies. rewrite filter_cons. by case_decide. Qed.

Lemma copies_zero {A} `{EqDecision A} (c : A) l : copies c l = 0 -> c ∉ l.
Proof. unfold copies. rewrite length_zero_iff_nil. intros H. by eapply filter_nil_not_elem_of. Qed.

Lemma copies_not_elem {A} `{EqDecision A} (c : A) l : c ∉ l -> copies c l = 0.
Proof.
  induction l as [|d l IH]; [done|]. rewrite copies_cons, elem_of_cons.
  intros H. case_decide; [subst; destruct H; by left|]. apply IH. tauto.
Qed.

#[export] Hint Rewrite @copies_app @copies_cons : pyrw.

(** [py_simpl] normalises conversions and unfolds the equations of the
    hint database. *)
Ltac py_simpl := repeat (autorewrite with pyrw in *; simpl in *).

(** Rewrite with every hypothesis [x = v] whose left side occurs in the
    goal: the facts that fix what a computation inspects. *)
Ltac rewrite_hyps :=
  repeat match goal with
  | H : ?x = _ |- context [?x] => progress rewrite H
  end.
