(* ===== verification/PyStr.v ===== *)
(** * PyStr: the Python [str] operations the program calls

    [str.replace(old, new)] (used by [resolve_target] to strip dashes and by
    [replace_placeholders] to substitute tokens) and [str.count(sub)] (used
    in the length law), as CPython computes them: a left-to-right scan that
    replaces the leftmost occurrence and resumes after it, so occurrences
    never overlap.  The scan is written once over [list A] and transported
    to [string].  [replaced] is the relational specification of the scan
    and [list_replace_spec] the refinement theorem between them. *)

From S2P Require Import Prelude.
From Stdlib Require Import Wf_nat.

Module PyStr.

Section Scan.
Context {A : Type} `{EqDecision A}.

(** The scan.  [skip] counts the characters of the last match that are
    still to be consumed: CPython advances its index by [len(old)] after
    a match and by one after a miss. *)
Fixpoint replace_from (old new : list A) (skip : nat) (s : list A) : list A :=
  match s with
  | [] => []
  | c :: s' =>
      match skip with
      | S k => replace_from old new k s'
      | O =>
          if decide (old `prefix_of` c :: s')
          then new ++ replace_from old new (Nat.pred (length old)) s'
          else c :: replace_from old new 0 s'
      end
  end.

(** [s.replace(old, new)]; an empty [old] inserts [new] around every
    character, as CPython does. *)
Definition list_replace (old new s : list A) : list A :=
  match old with
  | [] => new ++ concat (map (fun c => c :: new) s)
  | _ :: _ => replace_from old new 0 s
  end.

(** [s.count(sub)]: the number of non-overlapping occurrences found by the
    same scan; an empty [sub] occurs [len(s) + 1] times. *)
Fixpoint count_from (sub : list A) (skip : nat) (s : list A) : nat :=
  match s with
  | [] => 0
  | c :: s' =>
      match skip with
      | S k => count_from sub k s'
      | O =>
          if decide (sub `prefix_of` c :: s')
          then S (count_from sub (Nat.pred (length sub)) s')
          else count_from sub 0 s'
      end
  end.

Definition list_count (sub s : list A) : nat :=
  match sub with
  | [] => S (length s)
  | _ :: _ => count_from sub 0 s
  end.

(** Relational specification of a replacement pass with a non-empty
    [old]: scanning from the left, a position where [old] starts is
    replaced and skipped, any other character is kept. *)
Inductive replaced (old new : list A) : list A -> list A -> Prop :=
| rep_nil : replaced old new [] []
| rep_hit r t : replaced old new r t -> replaced old new (old ++ r) (new ++ t)
| rep_miss c r t :
    ~ old `prefix_of` c :: r -> replaced old new r t -> replaced old new (c :: r) (c :: t).

(** [old] occurs somewhere in [s] (Python's [old in s]). *)
Definition occurs (old s : list A) : Prop := exists k1 k2, s = k1 ++ old ++ k2.

(** [s.split(sep)] for a non-empty [sep], by the same scan: a match ends
    the current piece and is skipped. *)
Fixpoint split_from (sep : list A) (skip : nat) (s : list A) : list (list A) :=
  match s with
  | [] => [[]]
  | c :: s' =>
      match skip with
      | S k => split_from sep k s'
      | O =>
          if decide (sep `prefix_of` c :: s')
          then [] :: split_from sep (Nat.pred (length sep)) s'
          else match split_from sep 0 s' with
               | p :: ps => (c :: p) :: ps
               | [] => [[c]]
               end
      end
  end.

(** [sep.join(parts)] on lists. *)
Definition list_join (sep : list A) (parts : list (list A)) : list A :=
  match parts with
  | [] => []
  | p :: ps => p ++ concat (map (fun q => sep ++ q) ps)
  end.

(** Python's [sub in s], by the same left-to-right search. *)
Fixpoint occursb (old s : list A) : bool :=
  bool_decide (old `prefix_of` s) ||
  match s with [] => false | _ :: s' => occursb old s' end.

End Scan.

(** ** The [str] methods on [string] *)

(** [s.replace(old, new)]. *)
Definition str_replace (s old new : string) : string :=
  of_chars (list_replace (chars old) (chars new) (chars s)).

(** [s.count(sub)]. *)
Definition str_count (s sub : string) : nat := list_count (chars sub) (chars s).

(** [sub in s]. *)
Definition str_contains (s sub : string) : bool := occursb (chars sub) (chars s).

(** [s.split(sep)]; an empty [sep] raises [ValueError] ([None]). *)
Definition str_split (s sep : string) : option (list string) :=
  match chars sep with
  | [] => None
  | _ => Some (map of_chars (split_from (chars sep) 0 (chars s)))
  end.

(** [sep.join(parts)]. *)
Definition str_join (sep : string) (parts : list string) : string :=
  match parts with
  | [] => ""
  | p :: ps => p +:+ foldr (fun q acc => sep +:+ q +:+ acc) "" ps
  end.

(** ** Facts about the scan *)

Section ScanFacts.
Context {A : Type} `{EqDecision A}.

Lemma occursb_spec (old s : list A) : occursb old s = true <-> occurs old s.
Proof.
  induction s as [|c s IH]; simpl; rewrite orb_true_iff, bool_decide_eq_true.
  - split.
    + intros [Hp|Hf]; [|done]. apply prefix_nil_inv in Hp as ->. by exists [], [].
    + intros (k1 & k2 & Hk). left. destruct k1; [|done].
      destruct old; [apply prefix_nil|done].
  - rewrite IH. split.
    + intros [[k Hk]|(k1 & k2 & ->)]; [by exists [], k|]. by exists (c :: k1), k2.
    + intros ([|c1 k1] & k2 & Hk); [left; by exists k2|].
      simplify_eq/=. right. by exists k1, k2.
Qed.

(** *** Unfolding equations of the scan *)

Lemma replace_from_skip old new (p r : list A) :
  replace_from old new (length p) (p ++ r) = replace_from old new 0 r.
Proof. induction p; simpl; auto. Qed.

Lemma count_from_skip sub (p r : list A) :
  count_from sub (length p) (p ++ r) = count_from sub 0 r.
Proof. induction p; simpl; auto. Qed.

Section NonEmpty.
Context (old : list A) (Hne : old <> []).

Lemma list_replace_nil new : list_replace old new [] = [].
Proof. by destruct old. Qed.

Lemma list_replace_hit new r :
  list_replace old new (old ++ r) = new ++ list_replace old new r.
Proof.
  destruct old as [|c o]; [done|]. unfold list_replace. simpl.
  rewrite decide_True by (exists r; done). by rewrite replace_from_skip.
Qed.

Lemma list_replace_miss new c r :
  ~ old `prefix_of` c :: r -> list_replace old new (c :: r) = c :: list_replace old new r.
Proof.
  destruct old as [|c' o]; [done|]. intros Hn. unfold list_replace. simpl.
  by rewrite decide_False.
Qed.

Lemma list_count_nil : list_count old [] = 0.
Proof. by destruct old. Qed.

Lemma list_count_hit r : list_count old (old ++ r) = S (list_count old r).
Proof.
  destruct old as [|c o]; [done|]. unfold list_count. simpl.
  rewrite decide_True by (exists r; done). by rewrite count_from_skip.
Qed.

Lemma list_count_miss c r :
  ~ old `prefix_of` c :: r -> list_count old (c :: r) = list_count old r.
Proof.
  destruct old as [|c' o]; [done|]. intros Hn. unfold list_count. simpl.
  by rewrite decide_False.
Qed.

(** Induction following the scan: the empty string, a match of [old]
    followed by the rest, a character where [old] does not start. *)
Lemma scan_ind (P : list A -> Prop) :
  P [] ->
  (forall r, P r -> P (old ++ r)) ->
  (forall c r, ~ old `prefix_of` c :: r -> P r -> P (c :: r)) ->
  forall s, P s.
Proof.
  intros H0 Hhit Hmiss s.
  induction s as [s IH] using (induction_ltof1 _ (@length A)).
  destruct s as [|c r]; [done|].
  destruct (decide (old `prefix_of` c :: r)) as [[k Hk]|Hn].
  - rewrite Hk. apply Hhit, IH. unfold ltof. rewrite Hk, length_app.
    destruct old; [done|simpl; lia].
  - apply Hmiss; [done|]. apply IH. unfold ltof. simpl. lia.
Qed.

Lemma occurs_cons c r : occurs old r -> occurs old (c :: r).
Proof. intros (k1 & k2 & ->). by exists (c :: k1), k2. Qed.

Lemma occurs_app_l r : occurs old (old ++ r).
Proof. by exists [], r. Qed.

End NonEmpty.

Lemma occurs_nil_pat (s : list A) : occurs [] s.
Proof. by exists s, []; rewrite app_nil_r. Qed.

(** *** The scan against its specification *)

(** Refinement: with a non-empty pattern, the scan computes exactly the
    leftmost non-overlapping replacement described by [replaced]; in
    particular that relation is functional. *)
Theorem list_replace_spec (old new s t : list A) :
  old <> [] -> (list_replace old new s = t <-> replaced old new s t).
Proof.
  intros Hne. split.
  - intros <-. induction s using (scan_ind old Hne).
    + rewrite (list_replace_nil old Hne). constructor.
    + rewrite (list_replace_hit old Hne). by constructor.
    + rewrite (list_replace_miss old Hne) by done. by constructor.
  - induction 1.
    + apply (list_replace_nil old Hne).
    + rewrite (list_replace_hit old Hne). congruence.
    + rewrite (list_replace_miss old Hne) by done. congruence.
Qed.

Lemma concat_singletons (s : list A) : concat (map (fun c => [c]) s) = s.
Proof. induction s; simpl; congruence. Qed.

Lemma length_concat_cons (new s : list A) :
  length (concat (map (fun c => c :: new) s)) = length s * S (length new).
Proof. induction s; simpl; rewrite ?length_app; simpl; lia. Qed.

(** Length law of [str.replace]: every counted occurrence of [old] is
    traded for one copy of [new], with no other change in length. *)
Theorem list_replace_length (old new s : list A) :
  length (list_replace old new s) + list_count old s * length old
  = length s + list_count old s * length new.
Proof.
  destruct (decide (old = [])) as [->|Hne].
  - simpl. rewrite length_app, length_concat_cons. lia.
  - induction s using (scan_ind old Hne).
    + rewrite (list_replace_nil old Hne), (list_count_nil old Hne). simpl. lia.
    + rewrite (list_replace_hit old Hne), (list_count_hit old Hne), !length_app. nia.
    + rewrite (list_replace_miss old Hne), (list_count_miss old Hne) by done. simpl. lia.
Qed.

(** A string that does not contain the pattern is returned unchanged. *)
Theorem list_replace_absent (old new s : list A) :
  ~ occurs old s -> list_replace old new s = s.
Proof.
  intros Hno. destruct (decide (old = [])) as [->|Hne].
  { exfalso. apply Hno, occurs_nil_pat. }
  induction s using (scan_ind old Hne).
  - apply (list_replace_nil old Hne).
  - exfalso. apply Hno, occurs_app_l.
  - rewrite (list_replace_miss old Hne) by done. f_equal.
    apply IHs. intros Hocc. apply Hno, occurs_cons, Hocc.
Qed.

Lemma list_count_absent (old s : list A) :
  old <> [] -> ~ occurs old s -> list_count old s = 0.
Proof.
  intros Hne Hno. induction s using (scan_ind old Hne).
  - apply (list_count_nil old Hne).
  - exfalso. apply Hno, occurs_app_l.
  - rewrite (list_count_miss old Hne) by done.
    apply IHs. intros Hocc. apply Hno, occurs_cons, Hocc.
Qed.

(** Replacing a pattern by itself is the identity. *)
Theorem list_replace_same (old s : list A) : list_replace old old s = s.
Proof.
  destruct (decide (old = [])) as [->|Hne].
  - apply concat_singletons.
  - induction s using (scan_ind old Hne).
    + apply (list_replace_nil old Hne).
    + rewrite (list_replace_hit old Hne). congruence.
    + rewrite (list_replace_miss old Hne) by done. congruence.
Qed.

(** Deleting a one-character pattern is filtering that character out. *)
Theorem list_replace_char_delete (d : A) (s : list A) :
  list_replace [d] [] s = filter (fun c => c <> d) s.
Proof.
  induction s as [|c s IH]; [done|].
  destruct (decide (c = d)) as [->|Hcd].
  - rewrite (list_replace_hit [d] ltac:(done) [] s : list_replace [d] [] (d :: s) = _).
    rewrite filter_cons_False; auto.
  - rewrite (list_replace_miss [d]) by (done || (intros Hp; apply prefix_cons_inv_1 in Hp; congruence)).
    rewrite filter_cons_True; congruence.
Qed.

(** *** [split] against [join] *)

Lemma split_from_skip sep (p r : list A) : split_from sep (length p) (p ++ r) = split_from sep 0 r.
Proof. induction p; simpl; auto. Qed.

Lemma occurs_app_r old (l m : list A) : occurs old l -> occurs old (l ++ m).
Proof. intros (k1 & k2 & ->). exists k1, (k2 ++ m). by rewrite <- !app_assoc. Qed.

Lemma prefix_app_short (x l m : list A) : x `prefix_of` l ++ m -> length x <= length l -> x `prefix_of` l.
Proof.
  intros [z Hz] Hlen. exists (drop (length x) l).
  assert (Hx : take (length x) l = x).
  { rewrite <- (take_app_le l m) by done. rewrite Hz. apply take_app_length. }
  rewrite <- (take_drop (length x) l) at 1. by rewrite Hx.
Qed.

(** A piece without the separator is one piece. *)
Lemma split_from_absent sep (k : list A) : ~ occurs sep k -> split_from sep 0 k = [k].
Proof.
  induction k as [|c k IH]; intros Hno; [done|]. simpl.
  rewrite decide_False by (intros [z Hz]; apply Hno; by exists [], z).
  rewrite IH; [done|]. intros (k1 & k2 & ->). apply Hno. by exists (c :: k1), k2.
Qed.

(** The scan cuts at the first separator after a piece in which no
    separator starts. *)
Lemma split_from_cut sep (k r : list A) :
  sep <> [] -> ~ occurs sep (k ++ take (Nat.pred (length sep)) sep) ->
  split_from sep 0 (k ++ sep ++ r) = k :: split_from sep 0 r.
Proof.
  intros Hne. induction k as [|c k IH]; intros Hno; simpl.
  - destruct sep as [|s0 sep']; [done|]. simpl.
    rewrite decide_True by (by exists r). by rewrite split_from_skip.
  - rewrite decide_False.
    + rewrite IH; [done|]. intros Hocc. apply Hno. by apply occurs_cons.
    + intros Hp. apply Hno.
      assert (Hs : sep `prefix_of` (c :: k) ++ take (Nat.pred (length sep)) sep).
      { apply (prefix_app_short _ _ (drop (Nat.pred (length sep)) sep ++ r)).
        - rewrite <- app_assoc, (app_assoc (take _ sep)), take_drop. exact Hp.
        - destruct sep; [done|]. rewrite length_app, length_take. simpl. lia. }
      destruct Hs as [z Hz]. exists [], z. by rewrite Hz.
Qed.

(** Round trip: splitting what [join] built gives the parts back, when no
    separator starts inside a part (or straddles its end). *)
Theorem list_split_join sep (p : list A) ps :
  sep <> [] -> Forall (fun k => ~ occurs sep (k ++ take (Nat.pred (length sep)) sep)) (p :: ps) ->
  split_from sep 0 (list_join sep (p :: ps)) = p :: ps.
Proof.
  intros Hne. revert p. induction ps as [|q ps IH]; intros p Hf; inversion Hf as [|? ? Hp Hps]; subst.
  - simpl. rewrite app_nil_r. apply split_from_absent. intros Hocc. apply Hp. by apply occurs_app_r.
  - simpl. rewrite <- app_assoc. rewrite split_from_cut by done. f_equal. by apply IH.
Qed.

Lemma occurs_pair_snoc (a b : A) (l : list A) : a <> b -> occurs [a; b] (l ++ [a]) -> occurs [a; b] l.
Proof.
  intros Hab (k1 & k2 & Hk). destruct k2 as [|x k2 _] using rev_ind.
  - assert (Hk' : l ++ [a] = (k1 ++ [a]) ++ [b]) by (rewrite Hk, app_nil_r, <- app_assoc; done).
    apply app_inj_tail in Hk' as [_ ->]. done.
  - assert (Hk' : l ++ [a] = (k1 ++ [a; b] ++ k2) ++ [x]) by (rewrite Hk; by rewrite <- !app_assoc).
    apply app_inj_tail in Hk' as [-> _]. by exists k1, k2.
Qed.

End ScanFacts.

(** ** Facts about the [str] methods *)

Lemma str_replace_absent (s old new : string) :
  str_contains s old = false -> str_replace s old new = s.
Proof.
  unfold str_replace, str_contains. intros Hc.
  rewrite list_replace_absent; [apply of_chars_chars|].
  rewrite <- occursb_spec. congruence.
Qed.

Lemma str_replace_same (s old : string) : str_replace s old old = s.
Proof. unfold str_replace. rewrite list_replace_same. apply of_chars_chars. Qed.

Lemma str_replace_length (s old new : string) :
  String.length (str_replace s old new) + str_count s old * String.length old
  = String.length s + str_count s old * String.length new.
Proof.
  unfold str_replace, str_count. rewrite <- !chars_length, chars_of_chars.
  apply list_replace_length.
Qed.

Lemma chars_join_tail (sep : string) (ps : list string) :
  chars (foldr (fun q acc => sep +:+ q +:+ acc) "" ps) = concat (map (fun q => chars sep ++ q) (map chars ps)).
Proof. induction ps as [|q ps IH]; [done|]. simpl. by rewrite !chars_app, IH, app_assoc. Qed.

Lemma chars_str_join (sep p : string) (ps : list string) :
  chars (str_join sep (p :: ps)) = list_join (chars sep) (map chars (p :: ps)).
Proof. simpl. by rewrite chars_app, chars_join_tail. Qed.

End PyStr.
