(* ===== verification/Json.v ===== *)
(** * Json: the Python objects [json.load] returns, and the dict operations

    A decoded JSON document is a tree of [None], [bool], [int], [float],
    [str], [list] and [dict].  A Python [dict] keeps insertion order and
    has unique keys: it is an association list [list (string * json)] with
    the invariant [wf] (no duplicate key at any depth), which [json.load]
    establishes and every operation of the program preserves.  The
    operations the code applies to such objects ([d[k]], [d[k] = v],
    [d.get(k, dflt)], [d.pop(k, None)], [k in d], [d.keys()]) are defined
    for every kind of object, raising the exception CPython raises when the
    object is not a dict. *)

From Stdlib Require Import SpecFloat.
From S2P Require Import Prelude PyStr.

Module Json.

Unset Elimination Schemes.

(** A JSON value as decoded by [json.load]: floats are IEEE doubles,
    represented by the Standard Library's [spec_float]. *)
Inductive json : Type :=
| JNull : json
| JBool (b : bool) : json
| JInt (z : Z) : json
| JFloat (f : spec_float) : json
| JString (s : string) : json
| JArray (items : list json) : json
| JObject (fields : list (string * json)) : json.

Set Elimination Schemes.

(** Induction principle that sees through the lists of array items and of
    object fields. *)
Definition json_ind (P : json -> Prop)
    (fnull : P JNull) (fbool : forall b, P (JBool b)) (fint : forall z, P (JInt z))
    (ffloat : forall f, P (JFloat f)) (fstring : forall s, P (JString s))
    (farray : forall l, Forall P l -> P (JArray l))
    (fobject : forall f, Forall (fun kv => P kv.2) f -> P (JObject f)) :
    forall j, P j :=
  fix go j :=
    match j with
    | JNull => fnull
    | JBool b => fbool b
    | JInt z => fint z
    | JFloat f => ffloat f
    | JString s => fstring s
    | JArray l =>
        farray l ((fix items l : Forall P l :=
                     match l with
                     | [] => Forall_nil_2 _
                     | x :: l' => Forall_cons_2 _ _ _ (go x) (items l')
                     end) l)
    | JObject f =>
        fobject f ((fix fields f : Forall (fun kv => P kv.2) f :=
                      match f with
                      | [] => Forall_nil_2 _
                      | kv :: f' => Forall_cons_2 _ _ _ (go kv.2) (fields f')
                      end) f)
    end.

#[export] Instance spec_float_eq_dec : EqDecision spec_float.
Proof. solve_decision. Defined.

Fixpoint json_eq_dec (a b : json) {struct a} : Decision (a = b).
Proof.
  refine (match a, b with
    | JNull, JNull => left _
    | JBool x, JBool y => cast_if (decide (x = y))
    | JInt x, JInt y => cast_if (decide (x = y))
    | JFloat x, JFloat y => cast_if (decide (x = y))
    | JString x, JString y => cast_if (decide (x = y))
    | JArray x, JArray y => cast_if (@list_eq_dec _ json_eq_dec x y)
    | JObject x, JObject y =>
        cast_if (@list_eq_dec _ (@prod_eq_dec _ _ _ json_eq_dec) x y)
    | _, _ => right _
    end); congruence.
Defined.
#[export] Instance json_eq_decision : EqDecision json := json_eq_dec.

(** The exceptions the modelled code can raise.  [SystemExit n] is
    [sys.exit(n)]; [APIResponseError] is the remote API's rejection,
    carrying its detail. *)
Inductive exc : Type :=
| TypeError
| AttributeError
| KeyError (key : string)
| JSONDecodeError
| FileNotFoundError (path : string)
| IsADirectoryError (path : string)
| SystemExit (code : nat)
| APIResponseError (detail : json).

(** ** Python [dict] on association lists *)

Section Dict.
Context {V : Type}.

(** [d[k]] when [k] is present: the value bound to [k]. *)
Fixpoint dict_lookup (k : string) (d : list (string * V)) : option V :=
  match d with
  | [] => None
  | (k', v) :: d' => if decide (k = k') then Some v else dict_lookup k d'
  end.

(** [d[k] = v]: an existing key keeps its position, a new key goes last. *)
Fixpoint dict_setitem (k : string) (v : V) (d : list (string * V)) : list (string * V) :=
  match d with
  | [] => [(k, v)]
  | (k', v') :: d' =>
      if decide (k = k') then (k', v) :: d' else (k', v') :: dict_setitem k v d'
  end.

(** [d.pop(k, None)]: removes the entry of [k], if any. *)
Fixpoint dict_delete (k : string) (d : list (string * V)) : list (string * V) :=
  match d with
  | [] => []
  | (k', v') :: d' => if decide (k = k') then d' else (k', v') :: dict_delete k d'
  end.

Definition dict_keys (d : list (string * V)) : list string := map fst d.
End Dict.

(** ** The operations on an arbitrary decoded object *)

(** [o[k]] with a string [k]. *)
Definition py_getitem (o : json) (k : string) : exc + json :=
  match o with
  | JObject f => match dict_lookup k f with Some v => inr v | None => inl (KeyError k) end
  | _ => inl TypeError
  end.

(** [o[k] = v]. *)
Definition py_setitem (o : json) (k : string) (v : json) : exc + json :=
  match o with
  | JObject f => inr (JObject (dict_setitem k v f))
  | _ => inl TypeError
  end.

(** [o.get(k, dflt)]. *)
Definition py_get (o : json) (k : string) (dflt : json) : exc + json :=
  match o with
  | JObject f => inr (default dflt (dict_lookup k f))
  | _ => inl AttributeError
  end.

(** [o.pop(k, None)], returning the updated object: a list's [pop] takes
    at most one argument, other non-dicts have no [pop]. *)
Definition py_pop_none (o : json) (k : string) : exc + json :=
  match o with
  | JObject f => inr (JObject (dict_delete k f))
  | JArray _ => inl TypeError
  | _ => inl AttributeError
  end.

(** [name in o]: key membership for a dict, element equality for a list,
    substring for a str; other objects are not iterable. *)
Definition py_contains (o : json) (name : string) : exc + bool :=
  match o with
  | JObject f => inr (bool_decide (name ∈ dict_keys f))
  | JArray l => inr (bool_decide (JString name ∈ l))
  | JString s => inr (PyStr.str_contains s name)
  | _ => inl TypeError
  end.

(** [o.keys()]. *)
Definition py_keys (o : json) : exc + list string :=
  match o with
  | JObject f => inr (dict_keys f)
  | _ => inl AttributeError
  end.

(** ** Well-formedness: no duplicate key in any dict *)

Fixpoint wfb (j : json) : bool :=
  match j with
  | JArray l => forallb wfb l
  | JObject f => bool_decide (NoDup (map fst f)) && forallb (fun kv => wfb kv.2) f
  | _ => true
  end.

Definition wf (j : json) : Prop := wfb j = true.

(** ** Facts about the dict operations *)

Section DictFacts.
Context {V : Type}.
Implicit Types (d : list (string * V)) (k : string) (v : V).

Lemma dict_lookup_setitem_eq k v d : dict_lookup k (dict_setitem k v d) = Some v.
Proof.
  induction d as [|[k' v'] d IH]; simpl; [by rewrite decide_True|].
  case_decide; simpl; [by rewrite decide_True|]. by rewrite decide_False.
Qed.

Lemma dict_lookup_setitem_ne k k' v d :
  k <> k' -> dict_lookup k' (dict_setitem k v d) = dict_lookup k' d.
Proof.
  intros Hne. induction d as [|[k0 v0] d IH]; simpl; [by rewrite decide_False|].
  case_decide; subst; simpl; repeat case_decide; congruence.
Qed.

Lemma dict_lookup_keys k d v : dict_lookup k d = Some v -> k ∈ dict_keys d.
Proof.
  induction d as [|[k' v'] d IH]; simpl; [done|].
  case_decide; subst; intros; [left|right; auto].
Qed.

Lemma dict_keys_setitem_in k v d :
  k ∈ dict_keys d -> dict_keys (dict_setitem k v d) = dict_keys d.
Proof.
  induction d as [|[k' v'] d IH]; simpl; [by intros ?%elem_of_nil|].
  rewrite elem_of_cons. intros Hk. case_decide; simpl; [done|].
  f_equal. apply IH. naive_solver.
Qed.

Lemma dict_keys_setitem_notin k v d :
  k ∉ dict_keys d -> dict_keys (dict_setitem k v d) = dict_keys d ++ [k].
Proof.
  induction d as [|[k' v'] d IH]; simpl; [done|].
  rewrite elem_of_cons. intros Hk. rewrite decide_False by naive_solver. simpl.
  f_equal. apply IH. naive_solver.
Qed.

Lemma dict_setitem_NoDup k v d :
  NoDup (dict_keys d) -> NoDup (dict_keys (dict_setitem k v d)).
Proof.
  intros Hnd. destruct (decide (k ∈ dict_keys d)).
  - by rewrite dict_keys_setitem_in.
  - rewrite dict_keys_setitem_notin by done. apply list.NoDup_app. split; [done|].
    split; [set_solver|]. apply NoDup_singleton.
Qed.

Lemma dict_keys_delete_sub k d : dict_keys (dict_delete k d) `sublist_of` dict_keys d.
Proof.
  induction d as [|[k' v'] d IH]; simpl; [done|].
  case_decide; simpl; [by apply sublist_cons|by apply sublist_skip].
Qed.

Lemma dict_delete_NoDup k d :
  NoDup (dict_keys d) -> NoDup (dict_keys (dict_delete k d)).
Proof. intros Hnd. eapply sublist_NoDup; [done|apply dict_keys_delete_sub]. Qed.

Lemma dict_lookup_delete_eq k d :
  NoDup (dict_keys d) -> dict_lookup k (dict_delete k d) = None.
Proof.
  induction d as [|[k' v'] d IH]; simpl; [done|]. rewrite NoDup_cons. intros [Hn Hnd].
  case_decide; simpl.
  - subst. clear IH. induction d as [|[k0 v0] d IH2]; simpl in *; [done|].
    rewrite decide_False by set_solver. apply IH2; [set_solver|by inversion Hnd].
  - rewrite decide_False by done. by apply IH.
Qed.

Lemma dict_lookup_delete_ne k k' d :
  k <> k' -> dict_lookup k' (dict_delete k d) = dict_lookup k' d.
Proof.
  intros Hne. induction d as [|[k0 v0] d IH]; simpl; [done|].
  case_decide; subst; simpl; [by rewrite decide_False|]. case_decide; congruence.
Qed.
Lemma dict_lookup_map_values (g : V -> V) k d :
  dict_lookup k (map (fun kv => (kv.1, g kv.2)) d) = g <$> dict_lookup k d.
Proof. induction d as [|[k' v'] d IH]; simpl; [done|]. by case_decide. Qed.

Lemma dict_keys_map_values (g : V -> V) d :
  dict_keys (map (fun kv => (kv.1, g kv.2)) d) = dict_keys d.
Proof. unfold dict_keys. rewrite map_map. done. Qed.
End DictFacts.

Lemma wf_JObject (f : list (string * json)) :
  wf (JObject f) <-> NoDup (dict_keys f) /\ Forall (fun kv => wf kv.2) f.
Proof.
  unfold wf. simpl. rewrite andb_true_iff, bool_decide_eq_true, forallb_forall, Forall_forall.
  unfold dict_keys. setoid_rewrite list_elem_of_In. done.
Qed.

Lemma wf_JArray (l : list json) : wf (JArray l) <-> Forall wf l.
Proof.
  unfold wf. simpl. rewrite forallb_forall, Forall_forall.
  setoid_rewrite list_elem_of_In. done.
Qed.

Lemma dict_setitem_Forall {V} (P : V -> Prop) k v (d : list (string * V)) :
  P v -> Forall (fun kv => P kv.2) d -> Forall (fun kv => P kv.2) (dict_setitem k v d).
Proof.
  intros Hv. induction 1 as [|[k' v'] d Hx Hd IH]; simpl; [by repeat constructor|].
  case_decide; by constructor.
Qed.

Lemma dict_delete_Forall {V} (P : V -> Prop) k (d : list (string * V)) :
  Forall (fun kv => P kv.2) d -> Forall (fun kv => P kv.2) (dict_delete k d).
Proof.
  induction 1 as [|[k' v'] d Hx Hd IH]; simpl; [done|]. case_decide; [done|by constructor].
Qed.

(** Two dicts with the same keys in the same order and related values stay
    so under the same update. *)
Lemma dict_setitem_Forall2 {V W} (P : V -> W -> Prop) k v w (d : list (string * V)) (e : list (string * W)) :
  P v w -> Forall2 (fun kv kw => kv.1 = kw.1 /\ P kv.2 kw.2) d e ->
  Forall2 (fun kv kw => kv.1 = kw.1 /\ P kv.2 kw.2) (dict_setitem k v d) (dict_setitem k w e).
Proof.
  intros Hvw. induction 1 as [|[k1 v1] [k2 w2] d e [Hk Hp] Hde IH]; simpl in *; subst; [by repeat constructor|].
  case_decide; constructor; auto.
Qed.

Lemma dict_delete_Forall2 {V W} (P : V -> W -> Prop) k (d : list (string * V)) (e : list (string * W)) :
  Forall2 (fun kv kw => kv.1 = kw.1 /\ P kv.2 kw.2) d e ->
  Forall2 (fun kv kw => kv.1 = kw.1 /\ P kv.2 kw.2) (dict_delete k d) (dict_delete k e).
Proof.
  induction 1 as [|[k1 v1] [k2 w2] d e [Hk Hp] Hde IH]; simpl in *; subst; [done|].
  case_decide; [done|]. constructor; auto.
Qed.

End Json.
