(* ===== verification/Template.v ===== *)
(** * Template: placeholder substitution over a decoded template

    [replace_placeholders] of [src/scripts/create_project.py]: a depth-first
    traversal that rebuilds every list and dict and, on every [str] leaf,
    runs [str.replace] once per entry of the replacement dict, in the dict's
    order.  Dict keys are never substituted and other leaves are returned as
    they are.  The theorems characterise the result completely: it has the
    shape of the input ([skeleton]) and its string leaves are the input's
    leaves, each passed through [substitute_str]. *)

From S2P Require Import Prelude PyStr Json.
Import Json.

Module Template.

(** [f"{{{{{key}}}}}"], the token [{{key}}]. *)
Definition placeholder (key : string) : string := "{{" +:+ key +:+ "}}".

(** The [str] branch: [for key, value in replacements.items(): obj =
    obj.replace(f"{{{{{key}}}}}", value)].  The replacement dict is an
    association list in insertion order. *)
Definition substitute_str (replacements : list (string * string)) (obj : string) : string :=
  fold_left (fun obj kv => PyStr.str_replace obj (placeholder kv.1) kv.2) replacements obj.

Fixpoint replace_placeholders (obj : json) (replacements : list (string * string)) : json :=
  match obj with
  | JString s => JString (substitute_str replacements s)
  | JArray items => JArray (map (fun item => replace_placeholders item replacements) items)
  | JObject fields =>
      JObject (map (fun kv => (kv.1, replace_placeholders kv.2 replacements)) fields)
  | _ => obj
  end.

(** The shape of a document: every string leaf blanked. *)
Fixpoint skeleton (j : json) : json :=
  match j with
  | JString _ => JString ""
  | JArray l => JArray (map skeleton l)
  | JObject f => JObject (map (fun kv => (kv.1, skeleton kv.2)) f)
  | _ => j
  end.

(** The string leaves of a document in depth-first order. *)
Fixpoint leaves (j : json) : list string :=
  match j with
  | JString s => [s]
  | JArray l => concat (map leaves l)
  | JObject f => concat (map (fun kv => leaves kv.2) f)
  | _ => []
  end.

(** ** Facts *)

Lemma substitute_str_nil s : substitute_str [] s = s.
Proof. done. Qed.

Lemma substitute_str_app r1 r2 s :
  substitute_str (r1 ++ r2) s = substitute_str r2 (substitute_str r1 s).
Proof. apply fold_left_app. Qed.

(** A string that holds none of the tokens is left as it is. *)
Lemma substitute_str_absent r s :
  Forall (fun kv => PyStr.str_contains s (placeholder kv.1) = false) r ->
  substitute_str r s = s.
Proof.
  unfold substitute_str. induction 1 as [|kv r Hkv _ IH]; simpl; [done|].
  by rewrite PyStr.str_replace_absent.
Qed.

Lemma map_pair_ext {V} (g : V -> V) (f : list (string * V)) :
  Forall (fun kv => g kv.2 = kv.2) f -> map (fun kv => (kv.1, g kv.2)) f = f.
Proof. intros H. apply map_ext_Forall_id. eapply Forall_impl; [done|]. by intros [k v] ->. Qed.

Lemma map_id_Forall {A} (f : A -> A) (l : list A) :
  map f l = l -> Forall (fun x => f x = x) l.
Proof. induction l; simpl; intros H; constructor; congruence || (apply IHl; congruence). Qed.

Lemma concat_map_Forall {A} (g : A -> list string) (h : A -> A) (m : string -> string) (l : list A) :
  Forall (fun x => g (h x) = map m (g x)) l ->
  concat (map g (map h l)) = map m (concat (map g l)).
Proof. induction 1; simpl; [done|]. rewrite map_app. congruence. Qed.

(** ** The traversal *)

Lemma skeleton_replace j r : skeleton (replace_placeholders j r) = skeleton j.
Proof.
  induction j using json_ind; simpl; try done; f_equal; rewrite map_map.
  - by apply map_Forall_ext.
  - apply map_Forall_ext. eapply Forall_impl; [done|]. intros [k v] Hv. simpl in *. congruence.
Qed.

Lemma leaves_replace j r :
  leaves (replace_placeholders j r) = map (substitute_str r) (leaves j).
Proof.
  induction j using json_ind; simpl; try done.
  - by apply concat_map_Forall.
  - apply (concat_map_Forall (fun kv => leaves kv.2)). eapply Forall_impl; [done|]. by intros [k v].
Qed.

Lemma length_concat_Forall {A} (f g : A -> list string) (l : list A) :
  Forall (fun x => length (f x) = length (g x)) l ->
  length (concat (map f l)) = length (concat (map g l)).
Proof. induction 1; simpl; [done|]. rewrite !length_app. congruence. Qed.

(** The number of string leaves is fixed by the shape. *)
Lemma length_leaves_skeleton j : length (leaves (skeleton j)) = length (leaves j).
Proof.
  induction j using json_ind; simpl; try done; rewrite map_map.
  - by apply length_concat_Forall.
  - apply (length_concat_Forall (fun kv => leaves (skeleton kv.2)) (fun kv => leaves kv.2)).
    eapply Forall_impl; [done|]. by intros [k v].
Qed.

(** Two lists whose elements agree on shape and, concatenated, on leaves
    are equal, when each element is determined by its shape and leaves. *)
Lemma concat_ext {A B} (sk : A -> B) (lv : A -> list string) (l1 l2 : list A) :
  Forall (fun x => forall y, sk x = sk y -> lv x = lv y -> x = y) l1 ->
  (forall x y, sk x = sk y -> length (lv x) = length (lv y)) ->
  map sk l1 = map sk l2 -> concat (map lv l1) = concat (map lv l2) -> l1 = l2.
Proof.
  intros H Hlen. revert l2. induction H as [|x l1 Hx _ IH]; intros [|y l2] Hs Hc; simpl in *; try done.
  injection Hs as Hxy Hs. apply app_inj_1 in Hc as [Hl Hc]; [|by apply Hlen]. f_equal; auto.
Qed.

(** A document is determined by its shape and its string leaves. *)
Lemma json_ext j1 j2 : skeleton j1 = skeleton j2 -> leaves j1 = leaves j2 -> j1 = j2.
Proof.
  revert j2. induction j1 using json_ind; intros [] Hs Hl; simpl in *; try congruence.
  - f_equal. injection Hs as Hs. apply (concat_ext skeleton leaves); auto.
    intros x y Hxy. by rewrite <- length_leaves_skeleton, Hxy, length_leaves_skeleton.
  - f_equal. injection Hs as Hs.
    apply (concat_ext (fun kv => (kv.1, skeleton kv.2)) (fun kv => leaves kv.2)); auto.
    + eapply Forall_impl; [done|]. intros [k v] Hv [k' v'] Hkv Hl'. simpl in *.
      injection Hkv as -> Hkv. f_equal. auto.
    + intros [k v] [k' v'] Hkv. injection Hkv as _ Hkv. simpl.
      by rewrite <- length_leaves_skeleton, Hkv, length_leaves_skeleton.
Qed.

(** C1: the output of [replace_placeholders] is characterised completely:
    it is the one document that has the input's shape (same constructors,
    same dict keys in the same order, same list lengths, same non-string
    leaves; keys are never substituted) and whose string leaves, in order,
    are the input's leaves each passed through the per-string loop. *)
Theorem replace_placeholders_spec j r j' :
  j' = replace_placeholders j r <->
  skeleton j' = skeleton j /\ leaves j' = map (substitute_str r) (leaves j).
Proof.
  split.
  - intros ->. split; [apply skeleton_replace|apply leaves_replace].
  - intros [Hs Hl]. apply json_ext; [by rewrite skeleton_replace|by rewrite leaves_replace].
Qed.

(** A document is returned unchanged exactly when each of its string
    leaves is a fixed point of the substitution loop. *)
Lemma replace_fixed_iff j r :
  replace_placeholders j r = j <-> Forall (fun s => substitute_str r s = s) (leaves j).
Proof.
  split.
  - intros H. apply map_id_Forall. rewrite <- leaves_replace. by rewrite H.
  - induction j using json_ind; simpl; intros Hl; try done.
    + by inversion Hl; subst; f_equal.
    + f_equal. apply map_ext_Forall_id. rewrite Forall_concat, Forall_map in Hl.
      exact (Forall_mp _ _ _ H Hl).
    + f_equal. apply (map_pair_ext (fun v => replace_placeholders v r)).
      rewrite Forall_concat, Forall_map in Hl. exact (Forall_mp _ _ _ H Hl).
Qed.

Lemma placeholder_nonempty k : chars (placeholder k) <> [].
Proof. unfold placeholder. simpl. intros H. discriminate H. Qed.

(** C10: one entry of the replacement dict on one string is the leftmost,
    non-overlapping replacement of its token, as specified by
    [PyStr.replaced]. *)
Theorem substitute_str_single_spec k v s t :
  substitute_str [(k, v)] s = t <->
  PyStr.replaced (chars (placeholder k)) (chars v) (chars s) (chars t).
Proof.
  unfold substitute_str. cbn [fold_left fst snd]. unfold PyStr.str_replace.
  rewrite <- PyStr.list_replace_spec by apply placeholder_nonempty. split.
  - intros <-. by rewrite chars_of_chars.
  - intros ->. apply of_chars_chars.
Qed.

(** With an empty replacement dict the document is returned unchanged
    (spec section 8); a case of C12. *)
Corollary replace_placeholders_nil j : replace_placeholders j [] = j.
Proof. apply replace_fixed_iff, Forall_forall. done. Qed.

(** C12: a document in which no string leaf holds any [{{key}}] token of the
    replacement dict is returned unchanged. *)
Theorem replace_placeholders_no_tokens j r :
  Forall (fun s => Forall (fun kv => PyStr.str_contains s (placeholder kv.1) = false) r) (leaves j) ->
  replace_placeholders j r = j.
Proof.
  intros H. apply replace_fixed_iff. eapply Forall_impl; [exact H|].
  intros s. apply substitute_str_absent.
Qed.

Lemma replace_placeholders_no_tokens_witness :
  Forall (fun s => Forall (fun kv => PyStr.str_contains s (placeholder kv.1) = false)
                     [("PROJECT_NAME", "Apollo")])
    (leaves (JObject [("title", JString "Weekly sync"); ("n", JInt 3)])) /\
  replace_placeholders (JObject [("title", JString "Weekly sync"); ("n", JInt 3)])
    [("PROJECT_NAME", "Apollo")] = JObject [("title", JString "Weekly sync"); ("n", JInt 3)].
Proof.
  split; [repeat constructor|].
  apply replace_placeholders_no_tokens. repeat constructor.
Defined.

(** C13: the keys are applied one after the other: substituting with [r1 ++ r2]
    is substituting with [r1], then substituting the result with [r2]. *)
Theorem replace_placeholders_app j r1 r2 :
  replace_placeholders j (r1 ++ r2) = replace_placeholders (replace_placeholders j r1) r2.
Proof.
  induction j using json_ind; simpl; try done.
  - by rewrite substitute_str_app.
  - f_equal. rewrite map_map. by apply map_Forall_ext.
  - f_equal. rewrite map_map. apply map_Forall_ext. eapply Forall_impl; [done|].
    intros [k v] Hv. simpl in *. congruence.
Qed.

Lemma forallb_map_Forall {A} (p : A -> bool) (g : A -> A) (l : list A) :
  Forall (fun x => p (g x) = p x) l -> forallb p (map g l) = forallb p l.
Proof. induction 1; simpl; congruence. Qed.

Lemma wfb_skeleton j : wfb (skeleton j) = wfb j.
Proof.
  induction j using json_ind; simpl; try done.
  - by apply forallb_map_Forall.
  - rewrite map_map. simpl. f_equal.
    apply (forallb_map_Forall (fun kv => wfb kv.2)). eapply Forall_impl; [done|]. by intros [k v].
Qed.

(** C2: the traversal preserves the dict invariant (no duplicate key). *)
Theorem replace_placeholders_wf j r : wf (replace_placeholders j r) <-> wf j.
Proof. unfold wf. by rewrite <- wfb_skeleton, skeleton_replace, wfb_skeleton. Qed.

(** ** Tokens of absent keys *)

(** A string without brace characters. *)
Definition brace_free (s : string) : Prop :=
  Forall (fun c => c <> "{"%char /\ c <> "}"%char) (chars s).

Lemma brace_free_not_elem s : brace_free s -> ("{"%char ∉ chars s) /\ ("}"%char ∉ chars s).
Proof. unfold brace_free. rewrite Forall_forall. intros H. split; intros Hc; by destruct (H _ Hc). Qed.

Lemma chars_placeholder k : chars (placeholder k) = "{"%char :: "{"%char :: chars k ++ ["}"%char; "}"%char].
Proof. unfold placeholder. by rewrite !chars_app. Qed.

(** Between brace-free text, the only token that occurs is the one written. *)
Lemma token_occurs_only a k b k' :
  brace_free a -> brace_free k -> brace_free b ->
  PyStr.occurs (chars (placeholder k')) (chars (a +:+ placeholder k +:+ b)) -> k' = k.
Proof.
  intros Ha Hk Hb (p & q & Hs). rewrite !chars_app, !chars_placeholder in Hs.
  apply brace_free_not_elem in Ha as [Ha1 Ha2], Hk as [Hk1 Hk2], Hb as [Hb1 Hb2].
  assert (Hl := f_equal (copies "{"%char) Hs). assert (Hr := f_equal (copies "}"%char) Hs).
  py_simpl.
  rewrite (copies_not_elem _ _ Ha1), (copies_not_elem _ _ Hk1), (copies_not_elem _ _ Hb1) in Hl.
  rewrite (copies_not_elem _ _ Ha2), (copies_not_elem _ _ Hk2), (copies_not_elem _ _ Hb2) in Hr.
  change (copies _ []) with 0 in Hl, Hr.
  assert (Hp : "{"%char ∉ p) by (apply copies_zero; lia).
  assert (Hk'1 : "}"%char ∉ chars k') by (apply copies_zero; lia).
  rewrite <- !app_assoc in Hs. simpl in Hs.
  destruct (app_cons_first "{"%char _ _ _ _ Ha1 Hp Hs) as [_ Ht]. simplify_eq.
  destruct (app_cons_first "}"%char _ _ _ _ Hk2 Hk'1 Ht) as [Hkk _]. by apply chars_inj.
Qed.

(** C36: spec section 4.2: a token whose key is not in the replacement dict
    is left as it is, whatever the other keys and values, when the text
    around it and its key have no braces. *)
Theorem substitute_str_keeps_absent_token r a k b :
  brace_free a -> brace_free k -> brace_free b -> k ∉ map fst r ->
  substitute_str r (a +:+ placeholder k +:+ b) = a +:+ placeholder k +:+ b.
Proof.
  intros Ha Hk Hb Hr. apply substitute_str_absent, Forall_forall. intros [k' v] Hin. simpl.
  apply not_true_iff_false. unfold PyStr.str_contains. rewrite PyStr.occursb_spec.
  intros Hocc. apply Hr. rewrite <- (token_occurs_only a k b k' Ha Hk Hb Hocc).
  exact (list_elem_of_fmap_2 fst r (k', v) Hin).
Qed.

Lemma substitute_str_keeps_absent_token_witness :
  brace_free "" /\ brace_free "OTHER" /\ brace_free " Launch" /\ ("OTHER" ∉ map fst [("PROJECT_NAME", "Foo")]) /\
  substitute_str [("PROJECT_NAME", "Foo")] ("" +:+ placeholder "OTHER" +:+ " Launch") =
    "" +:+ placeholder "OTHER" +:+ " Launch".
Proof.
  assert (H1 : brace_free "") by constructor.
  assert (H2 : brace_free "OTHER") by (repeat constructor; discriminate).
  assert (H3 : brace_free " Launch") by (repeat constructor; discriminate).
  assert (H4 : "OTHER" ∉ map fst [("PROJECT_NAME", "Foo")]) by (apply (bool_decide_unpack _); vm_compute; exact I).
  split; [exact H1|]. split; [exact H2|]. split; [exact H3|]. split; [exact H4|].
  exact (substitute_str_keeps_absent_token _ _ _ _ H1 H2 H3 H4).
Defined.

(** ** The spec's scenarios *)

(** Spec section 8: [{{PROJECT_NAME}} Launch] becomes [Foo Launch] and the
    token of an absent key stays literal. *)
Example replace_placeholders_launch :
  replace_placeholders (JArray [JString "{{PROJECT_NAME}} Launch"; JString "{{OTHER}}"])
    [("PROJECT_NAME", "Foo")]
  = JArray [JString "Foo Launch"; JString "{{OTHER}}"].
Proof. reflexivity. Qed.

(** The spec's scenario: the title [{{PROJECT_NAME}}] nested in
    dicts and a list becomes [Apollo], the rest of the document unchanged. *)
Example replace_placeholders_apollo :
  replace_placeholders
    (JObject [("properties", JObject [("title", JObject [("title",
       JArray [JObject [("text", JObject [("content", JString "{{PROJECT_NAME}}")])]])])])])
    [("PROJECT_NAME", "Apollo")]
  = JObject [("properties", JObject [("title", JObject [("title",
       JArray [JObject [("text", JObject [("content", JString "Apollo")])]])])])].
Proof. reflexivity. Qed.

End Template.
