(* ===== verification/TemplateSpec.v ===== *)
(** * TemplateSpec: simultaneous substitution, the specification the loop refines

    Spec section 4.2 describes the result of [substitute] as "every
    occurrence of each [{{key}}] token replaced by [replacements[key]]", and
    adds that the code applies the keys one after the other, one
    left-to-right pass per key ([Template.substitute_str], lines 67-70 of
    create_project.py).  This file states the first reading as a
    specification: [simult] reads a string from the left into tokens of
    the keys and other characters and replaces each token by its value, all
    keys at once; [sim] is the same reading as an executable scan.  The
    theorem of the file is the condition under which the sequential loop
    computes exactly the simultaneous result ([tokens_independent]: keys
    and values without braces, distinct keys, and no value inside a later
    key), and its consequence that the order of the keys is then
    irrelevant.  Without the condition the two differ (C17). *)

From S2P Require Import Prelude PyStr Json Template.
From Stdlib Require Import Wf_nat.

Module TemplateSpec.

(** ** The specification *)

(** The token [{{k}}] as characters. *)
Definition tok (k : list ascii) : list ascii := "{"%char :: "{"%char :: k ++ ["}"%char; "}"%char].

(** A list of characters without braces. *)
Definition bf (l : list ascii) : Prop := Forall (fun c => c <> "{"%char /\ c <> "}"%char) l.

(** The entry of [r] whose token starts [s], the first in [r]'s order. *)
Fixpoint lookup_token (r : list (list ascii * list ascii)) (s : list ascii) : option (list ascii * list ascii) :=
  match r with
  | [] => None
  | (k, v) :: r' => if decide (tok k `prefix_of` s) then Some (k, v) else lookup_token r' s
  end.

(** All keys at once, left to right: a token of a key is replaced by its
    value and skipped, any other character is kept.  [skip] counts the
    characters of the last token still to be consumed. *)
Fixpoint sim_from (r : list (list ascii * list ascii)) (skip : nat) (s : list ascii) : list ascii :=
  match s with
  | [] => []
  | c :: s' =>
      match skip with
      | S n => sim_from r n s'
      | O =>
          match lookup_token r (c :: s') with
          | Some (k, v) => v ++ sim_from r (length k + 3) s'
          | None => c :: sim_from r 0 s'
          end
      end
  end.

Definition sim (r : list (list ascii * list ascii)) (s : list ascii) : list ascii := sim_from r 0 s.

(** The specification as a relation: [s] is cut from the left into tokens
    of keys of [r], each replaced by its value, and characters where no
    token of [r] starts, kept. *)
Inductive simult (r : list (list ascii * list ascii)) : list ascii -> list ascii -> Prop :=
| simult_nil : simult r [] []
| simult_tok k v s t : (k, v) ∈ r -> simult r s t -> simult r (tok k ++ s) (v ++ t)
| simult_chr c s t :
    (forall k v, (k, v) ∈ r -> ~ tok k `prefix_of` c :: s) -> simult r s t -> simult r (c :: s) (c :: t).

(** The code's loop on characters: one [str.replace] pass per entry. *)
Definition seq (r : list (list ascii * list ascii)) (s : list ascii) : list ascii :=
  fold_left (fun s kv => PyStr.list_replace (tok kv.1) kv.2 s) r s.

(** The condition under which no pass creates or breaks a token of a later
    key: keys and values without braces (the last value excepted), keys
    distinct, and no value occurring inside a later key. *)
Fixpoint independent (r : list (list ascii * list ascii)) : bool :=
  match r with
  | [] => true
  | (k, v) :: r' =>
      bool_decide (bf k) && bool_decide (k ∉ r'.*1) &&
      (bool_decide (r' = []) || bool_decide (bf v)) &&
      forallb (fun kv => negb (PyStr.occursb v kv.1)) r' && independent r'
  end.

(** The same on Python strings. *)
Definition chars_r (r : list (string * string)) : list (list ascii * list ascii) :=
  map (fun kv => (chars kv.1, chars kv.2)) r.

Definition simultaneous (r : list (string * string)) (s t : string) : Prop :=
  simult (chars_r r) (chars s) (chars t).

Definition tokens_independent (r : list (string * string)) : bool := independent (chars_r r).

(** Keys without braces, each once. *)
Definition keys_ok (r : list (list ascii * list ascii)) : Prop :=
  Forall (fun kv => bf kv.1) r /\ NoDup r.*1.

(** ** Tokens *)

Lemma tok_ne k : tok k <> [].
Proof. done. Qed.

Lemma chars_placeholder_tok k : chars (Template.placeholder k) = tok (chars k).
Proof. unfold Template.placeholder. by rewrite !chars_app. Qed.

Lemma bf_not_elem l : bf l -> ("{"%char ∉ l) /\ ("}"%char ∉ l).
Proof. unfold bf. rewrite Forall_forall. intros H. split; intros Hc; by destruct (H _ Hc). Qed.

(** Two tokens of brace-free keys that start the same string are the same. *)
Lemma tok_prefix_inj k k' x : bf k -> bf k' -> tok k `prefix_of` x -> tok k' `prefix_of` x -> k = k'.
Proof.
  intros Hk Hk' [a ->] [b Hb]. unfold tok in Hb. simpl in Hb. injection Hb as Hb.
  rewrite <- !app_assoc in Hb. simpl in Hb.
  apply bf_not_elem in Hk as [_ Hk], Hk' as [_ Hk'].
  by destruct (app_cons_first "}"%char _ _ _ _ Hk Hk' Hb).
Qed.

Lemma lookup_token_sound r x k v : lookup_token r x = Some (k, v) -> (k, v) ∈ r /\ tok k `prefix_of` x.
Proof.
  induction r as [|[k0 v0] r IH]; simpl; [done|]. case_decide.
  - intros [= <- <-]. split; [by left|done].
  - intros Hl. destruct (IH Hl). split; [by right|done].
Qed.

Lemma lookup_token_None r x :
  lookup_token r x = None <-> forall k v, (k, v) ∈ r -> ~ tok k `prefix_of` x.
Proof.
  induction r as [|[k0 v0] r IH]; simpl.
  - split; [|done]. intros _ k v Hin. by apply elem_of_nil in Hin.
  - case_decide as Hp; split; try done.
    + intros H. destruct (H k0 v0 (list_elem_of_here _ _) Hp).
    + rewrite IH. intros H k v [[= -> ->]|Hin]%elem_of_cons; eauto.
    + rewrite IH. intros H k v Hin. apply (H k v). by right.
Qed.

(** With distinct brace-free keys the scan's choice does not depend on
    the order of [r]. *)
Lemma lookup_token_complete r x k v :
  keys_ok r -> (k, v) ∈ r -> tok k `prefix_of` x -> lookup_token r x = Some (k, v).
Proof.
  intros [Hbf Hnd] Hin Hp. induction r as [|[k0 v0] r IH]; [by apply elem_of_nil in Hin|].
  simpl. inversion Hbf as [|? ? Hk0 Hbf']; subst. inversion Hnd as [|? ? Hk0r Hnd']; subst.
  apply elem_of_cons in Hin as [[= -> ->]|Hin].
  - by rewrite decide_True.
  - assert (Hk : bf k) by (rewrite Forall_forall in Hbf'; exact (Hbf' _ Hin)).
    case_decide as Hp0.
    + destruct Hk0r. rewrite (tok_prefix_inj k0 k x Hk0 Hk Hp0 Hp).
      apply list_elem_of_fmap. by exists (k, v).
    + by apply IH.
Qed.

(** Every token starts with a brace. *)
Lemma lookup_token_head r c x : c <> "{"%char -> lookup_token r (c :: x) = None.
Proof. intros Hc. apply lookup_token_None. intros k v _ [z Hz]. by injection Hz. Qed.

(** ** The scan [sim] *)

Lemma sim_from_skip r p s : sim_from r (length p) (p ++ s) = sim_from r 0 s.
Proof. induction p; simpl; auto. Qed.

Lemma sim_nil r : sim r [] = [].
Proof. done. Qed.

Lemma sim_hit r k v s : lookup_token r (tok k ++ s) = Some (k, v) -> sim r (tok k ++ s) = v ++ sim r s.
Proof.
  intros H. unfold sim. change (tok k ++ s) with ("{"%char :: ("{"%char :: k ++ ["}"%char; "}"%char]) ++ s) in *.
  cbn [sim_from]. rewrite H. f_equal.
  replace (length k + 3) with (length ("{"%char :: k ++ ["}"%char; "}"%char])) by (simpl; rewrite length_app; simpl; lia).
  apply sim_from_skip.
Qed.

Lemma sim_miss r c s : lookup_token r (c :: s) = None -> sim r (c :: s) = c :: sim r s.
Proof. intros H. unfold sim. cbn [sim_from]. by rewrite H. Qed.

(** Text without an opening brace is copied. *)
Lemma sim_nobrace r p s : "{"%char ∉ p -> sim r (p ++ s) = p ++ sim r s.
Proof.
  induction p as [|c p IH]; [done|]. rewrite not_elem_of_cons. intros [Hc Hp].
  simpl. rewrite sim_miss by (by apply lookup_token_head). by rewrite IH.
Qed.

Lemma sim_no_keys s : sim [] s = s.
Proof. induction s as [|c s IH]; [done|]. rewrite sim_miss by done. by rewrite IH. Qed.

(** With one key the scan is [str.replace]'s. *)
Lemma sim_single k v s : sim [(k, v)] s = PyStr.list_replace (tok k) v s.
Proof.
  induction s using (PyStr.scan_ind (tok k) (tok_ne k)).
  - by rewrite (PyStr.list_replace_nil _ (tok_ne k)).
  - rewrite (PyStr.list_replace_hit _ (tok_ne k)), (sim_hit _ _ v); [congruence|].
    simpl. by rewrite decide_True by (by eexists).
  - rewrite (PyStr.list_replace_miss _ (tok_ne k)), sim_miss by (simpl; by rewrite ?decide_False). congruence.
Qed.

(** ** The scan computes the specification *)

Lemma sim_simult r s : simult r s (sim r s).
Proof.
  induction s as [s IH] using (induction_ltof1 _ (@length ascii)). unfold ltof in IH.
  destruct s as [|c s]; [constructor|].
  destruct (lookup_token r (c :: s)) as [[k v]|] eqn:Hl.
  - destruct (lookup_token_sound _ _ _ _ Hl) as [Hin [z Hz]]. rewrite Hz in Hl |- *.
    rewrite (sim_hit _ _ _ _ Hl). constructor; [done|]. apply IH.
    rewrite Hz, length_app. unfold tok. simpl. lia.
  - rewrite (sim_miss _ _ _ Hl). constructor; [by apply lookup_token_None|]. apply IH. simpl. lia.
Qed.

Lemma simult_sim r s t : keys_ok r -> simult r s t -> sim r s = t.
Proof.
  intros Hr. induction 1 as [|k v s t Hin _ IH|c s t Hn _ IH].
  - done.
  - rewrite (sim_hit _ _ v); [congruence|]. apply lookup_token_complete; [done|done|by eexists].
  - rewrite sim_miss; [congruence|]. by apply lookup_token_None.
Qed.

(** With distinct brace-free keys [simult] is a function, computed by [sim]. *)
Lemma sim_spec r s t : keys_ok r -> simult r s t <-> sim r s = t.
Proof. intros Hr. split; [by apply simult_sim|intros <-; apply sim_simult]. Qed.

(** The specification depends on the entries of [r], not on their order. *)
Lemma simult_ext r r' s t : (forall kv, kv ∈ r <-> kv ∈ r') -> simult r s t -> simult r' s t.
Proof.
  intros Hr. induction 1 as [|k v s t Hin _ IH|c s t Hn _ IH]; constructor; try done.
  - by apply Hr.
  - intros k v Hin. apply (Hn k v), Hr, Hin.
Qed.

(** ** One [str.replace] pass against the tokens of other keys *)

(** A pass copies text in which the token's first character, [{], does
    not appear. *)
Lemma replace_nohead k v p s :
  "{"%char ∉ p -> PyStr.list_replace (tok k) v (p ++ s) = p ++ PyStr.list_replace (tok k) v s.
Proof.
  induction p as [|c p IH]; [done|]. rewrite not_elem_of_cons. intros [Hc Hp]. cbn [app].
  rewrite (PyStr.list_replace_miss _ (tok_ne k)); [by rewrite IH|].
  intros Hpre. apply prefix_cons_inv_1 in Hpre. by subst.
Qed.

(** A pass for [k1] leaves the token of another brace-free key whole. *)
Lemma replace_tok_other k1 k v s :
  bf k -> bf k1 -> k <> k1 ->
  PyStr.list_replace (tok k1) v (tok k ++ s) = tok k ++ PyStr.list_replace (tok k1) v s.
Proof.
  intros Hk Hk1 Hne. pose proof (bf_not_elem k Hk) as [Hk2 Hk3].
  change (tok k ++ s) with ("{"%char :: ("{"%char :: k ++ ["}"%char; "}"%char]) ++ s).
  rewrite (PyStr.list_replace_miss _ (tok_ne k1)).
  2:{ intros Hp. apply Hne. symmetry. eapply tok_prefix_inj; [done|done|exact Hp|by eexists]. }
  cbn [app]. rewrite (PyStr.list_replace_miss _ (tok_ne k1)).
  2:{ intros Hp. apply prefix_cons_inv_2 in Hp.
      destruct k as [|c k]; simpl in Hp; apply prefix_cons_inv_1 in Hp; [done|]. subst c. apply Hk2. by left. }
  rewrite replace_nohead; [reflexivity|].
  rewrite elem_of_app, !elem_of_cons, elem_of_nil. intros [|[|[|]]]; by try done.
Qed.

Lemma occurs_cons_any (v w : list ascii) d : PyStr.occurs v w -> PyStr.occurs v (d :: w).
Proof. intros (k1 & k2 & ->). by exists (d :: k1), k2. Qed.

(** What a pass writes cannot be read back as original text: a prefix of
    the result that does not contain the new text [v] and ends with a
    character [v] lacks is a prefix of the input. *)
Lemma prefix_back (old v s w : list ascii) (x : ascii) :
  old <> [] -> x ∉ v -> last w = Some x -> ~ PyStr.occurs v w ->
  w `prefix_of` PyStr.list_replace old v s -> w `prefix_of` s.
Proof.
  intros Hne Hx. revert w. induction s as [|r IH|c r Hn IH] using (PyStr.scan_ind old Hne); intros w Hw Hocc Hp.
  - rewrite (PyStr.list_replace_nil _ Hne) in Hp. apply prefix_nil_inv in Hp. by subst.
  - rewrite (PyStr.list_replace_hit _ Hne) in Hp. destruct Hp as [z Hz].
    destruct (app_eq_app _ _ _ _ Hz) as (l & [[-> _]|[-> _]]).
    + destruct Hx. apply elem_of_app. left. by apply last_Some_elem_of.
    + destruct Hocc. by exists [], l.
  - rewrite (PyStr.list_replace_miss _ Hne) in Hp by done.
    destruct w as [|d w]; [done|]. pose proof (prefix_cons_inv_1 _ _ _ _ Hp) as ->.
    apply prefix_cons_inv_2 in Hp. apply prefix_cons.
    destruct w as [|e w]; [apply prefix_nil|]. apply IH; [done| |done].
    intros Hocc'. by apply Hocc, occurs_cons_any.
Qed.

(** A brace-free value inside [{k}}] lies inside [k]. *)
Lemma occurs_tok_tail v k : bf v -> PyStr.occurs v ("{"%char :: k ++ ["}"%char; "}"%char]) -> PyStr.occurs v k.
Proof.
  intros Hv. destruct v as [|a v]; [intros _; apply PyStr.occurs_nil_pat|].
  pose proof (bf_not_elem _ Hv) as [Hv1 Hv2].
  intros (k1 & k2 & H). destruct k1 as [|b k1]; simpl in H; injection H as Hb H.
  { subst a. destruct Hv1. by left. }
  change (k1 ++ a :: v ++ k2) with (k1 ++ (a :: v) ++ k2) in H. rewrite app_assoc in H. destruct (app_eq_app _ _ _ _ H) as (l & [[-> _]|[Hl Hl']]).
  - exists k1, l. by rewrite <- app_assoc.
  - destruct l as [|e l]; [exists k1, []; rewrite app_nil_r in Hl; by rewrite app_nil_r, Hl|].
    simplify_eq/=. destruct Hv2. apply (last_Some_elem_of (a :: v)).
    rewrite <- (last_app_cons k1 v a), Hl, last_app_cons. by destruct l as [|? [|]]; simplify_eq/=.
Qed.

(** No token of a key that contains no [v] appears where a pass wrote [v]. *)
Lemma no_new_token k1 v1 k c s :
  bf v1 -> bf k -> ~ PyStr.occurs v1 k ->
  tok k `prefix_of` c :: PyStr.list_replace (tok k1) v1 s -> tok k `prefix_of` c :: s.
Proof.
  intros Hv1 Hk Hocc Hp. unfold tok in Hp |- *. pose proof (prefix_cons_inv_1 _ _ _ _ Hp) as <-.
  apply prefix_cons_inv_2 in Hp. apply prefix_cons.
  eapply (prefix_back (tok k1) v1 s _ "}"%char (tok_ne k1)); [apply (bf_not_elem _ Hv1)| |by intros ?%occurs_tok_tail|done].
  change ("{"%char :: k ++ ["}"%char; "}"%char]) with (("{"%char :: k) ++ ["}"%char; "}"%char]).
  by rewrite last_app.
Qed.

(** ** The loop refines the specification *)

Lemma forallb_not_occurs (v : list ascii) (r : list (list ascii * list ascii)) :
  forallb (fun kv => negb (PyStr.occursb v kv.1)) r = true -> Forall (fun kv => ~ PyStr.occurs v kv.1) r.
Proof.
  induction r as [|kv r IH]; simpl; [done|]. rewrite andb_true_iff, negb_true_iff. intros [Hkv Hr].
  constructor; [|by apply IH]. rewrite <- PyStr.occursb_spec. by rewrite Hkv.
Qed.

Lemma independent_cons_inv k v r :
  independent ((k, v) :: r) = true ->
  bf k /\ (k ∉ r.*1) /\ (r = [] \/ bf v) /\ Forall (fun kv => ~ PyStr.occurs v kv.1) r /\ independent r = true.
Proof.
  simpl. rewrite !andb_true_iff, orb_true_iff, !bool_decide_eq_true.
  intros ((((Hk & Hkr) & Hv) & Hocc) & Hr). repeat split; auto using forallb_not_occurs.
Qed.

Lemma keys_ok_independent r : independent r = true -> keys_ok r.
Proof.
  induction r as [|[k v] r IH]; [split; constructor|].
  intros (Hk & Hkr & _ & _ & Hr)%independent_cons_inv. destruct (IH Hr) as [Hbf Hnd].
  split; constructor; done.
Qed.

Lemma keys_ok_elem r k v : keys_ok r -> (k, v) ∈ r -> bf k /\ k ∈ r.*1.
Proof.
  intros [Hbf _] Hin. rewrite Forall_forall in Hbf. split; [exact (Hbf _ Hin)|].
  apply list_elem_of_fmap. by exists (k, v).
Qed.

(** One pass for the first key, then the scan for the others, is the scan
    for all of them. *)
Lemma replace_then_sim k1 v1 r s :
  independent ((k1, v1) :: r) = true ->
  sim r (PyStr.list_replace (tok k1) v1 s) = sim ((k1, v1) :: r) s.
Proof.
  intros Hi. pose proof (keys_ok_independent _ Hi) as Hko'.
  apply independent_cons_inv in Hi as (Hk1 & Hk1r & [->|Hv1] & Hocc & Hr).
  { rewrite sim_no_keys. symmetry. apply sim_single. }
  pose proof (keys_ok_independent _ Hr) as Hko. rewrite Forall_forall in Hocc.
  induction s as [s IH] using (induction_ltof1 _ (@length ascii)). unfold ltof in IH.
  destruct (decide (tok k1 `prefix_of` s)) as [[z ->]|Hn1].
  - rewrite (PyStr.list_replace_hit _ (tok_ne k1)), sim_nobrace by apply (bf_not_elem _ Hv1).
    rewrite (sim_hit _ _ v1); [|apply lookup_token_complete; [done|by left|by eexists]].
    f_equal. apply IH. rewrite length_app. unfold tok. simpl. lia.
  - destruct s as [|c s]; [by rewrite (PyStr.list_replace_nil _ (tok_ne k1))|].
    destruct (lookup_token r (c :: s)) as [[k v]|] eqn:Hl.
    + destruct (lookup_token_sound _ _ _ _ Hl) as [Hin [z Hz]].
      destruct (keys_ok_elem _ _ _ Hko Hin) as [Hk Hkr].
      rewrite Hz, replace_tok_other by (done || by intros ->).
      rewrite (sim_hit _ _ v); [|apply lookup_token_complete; [done|done|by eexists]].
      rewrite (sim_hit _ _ v); [|apply lookup_token_complete; [done|by right|by eexists]].
      f_equal. apply IH. rewrite Hz, length_app. unfold tok. simpl. lia.
    + rewrite (PyStr.list_replace_miss _ (tok_ne k1)) by done.
      rewrite sim_miss.
      2:{ apply lookup_token_None. intros k v Hin Hp.
          destruct (keys_ok_elem _ _ _ Hko Hin) as [Hk _].
          apply (proj1 (lookup_token_None _ _) Hl k v Hin).
          exact (no_new_token k1 v1 k c s Hv1 Hk (Hocc _ Hin) Hp). }
      rewrite sim_miss by (cbn [lookup_token]; by rewrite decide_False).
      f_equal. apply IH. simpl. lia.
Qed.

(** The code's loop on characters is the simultaneous scan. *)
Lemma seq_sim r s : independent r = true -> seq r s = sim r s.
Proof.
  unfold seq. revert s. induction r as [|[k v] r IH]; intros s Hi; cbn [fold_left fst snd].
  - by rewrite sim_no_keys.
  - rewrite IH; [by apply replace_then_sim|]. by apply independent_cons_inv in Hi as (_ & _ & _ & _ & ?).
Qed.

Lemma chars_substitute_str r s : chars (Template.substitute_str r s) = seq (chars_r r) (chars s).
Proof.
  unfold Template.substitute_str, seq, chars_r. revert s.
  induction r as [|[k v] r IH]; intros s; [done|]. cbn [fold_left map fst snd]. rewrite IH. f_equal.
  unfold PyStr.str_replace. by rewrite chars_of_chars, chars_placeholder_tok.
Qed.

(** C9: spec section 4.2 read as simultaneous substitution: when the
    replacement dict's tokens are independent (keys and values without
    braces, the last value excepted, distinct keys, no value occurring in
    a later key), a string [t] is the result of replacing, all at once and
    from the left, every [{{key}}] token by its value exactly when [t] is
    what the code's key-by-key loop [substitute_str] returns.  So the
    sequential passes neither create nor destroy a token of a later key. *)
Theorem substitute_str_simultaneous r s t :
  tokens_independent r = true -> (simultaneous r s t <-> t = Template.substitute_str r s).
Proof.
  intros Hi. unfold simultaneous.
  rewrite (sim_spec _ _ _ (keys_ok_independent _ Hi)), <- seq_sim by exact Hi.
  rewrite <- chars_substitute_str. split; [intros H; by apply chars_inj|by intros ->].
Qed.

Lemma substitute_str_simultaneous_witness :
  tokens_independent [("PROJECT_NAME", "Apollo"); ("DATE", "2026-11-09")] = true /\
  (simultaneous [("PROJECT_NAME", "Apollo"); ("DATE", "2026-11-09")]
     "{{PROJECT_NAME}} kick-off {{DATE}}" "Apollo kick-off 2026-11-09" <->
   "Apollo kick-off 2026-11-09" =
     Template.substitute_str [("PROJECT_NAME", "Apollo"); ("DATE", "2026-11-09")] "{{PROJECT_NAME}} kick-off {{DATE}}").
Proof.
  assert (H : tokens_independent [("PROJECT_NAME", "Apollo"); ("DATE", "2026-11-09")] = true) by (vm_compute; reflexivity).
  split; [exact H|]. by apply substitute_str_simultaneous.
Defined.

(** With independent tokens the order of the keys does not matter,
    although the code applies them in the dict's order. *)
Corollary substitute_str_perm r r' s :
  tokens_independent r = true -> tokens_independent r' = true -> r ≡ₚ r' ->
  Template.substitute_str r s = Template.substitute_str r' s.
Proof.
  intros Hi Hi' Hp. apply chars_inj. rewrite !chars_substitute_str, !seq_sim by done.
  symmetry. apply simult_sim; [by apply keys_ok_independent|]. apply (simult_ext (chars_r r)); [|apply sim_simult].
  intros kv. unfold chars_r. by rewrite Hp.
Qed.

(** The condition excludes the project name [{{DATE}}] of C17, and there
    the loop and the specification differ: the loop substitutes the date
    into the name, the simultaneous reading keeps the name as given. *)
Example independent_excludes_date_name :
  tokens_independent [("PROJECT_NAME", "{{DATE}}"); ("DATE", "2026-11-09")] = false.
Proof. vm_compute. reflexivity. Qed.

Example sequential_not_simultaneous :
  Template.substitute_str [("PROJECT_NAME", "{{DATE}}"); ("DATE", "2026-11-09")] "{{PROJECT_NAME}}" = "2026-11-09" /\
  simultaneous [("PROJECT_NAME", "{{DATE}}"); ("DATE", "2026-11-09")] "{{PROJECT_NAME}}" "{{DATE}}".
Proof.
  split; [vm_compute; reflexivity|].
  assert (Hk : keys_ok (chars_r [("PROJECT_NAME", "{{DATE}}"); ("DATE", "2026-11-09")]))
    by (split; apply (bool_decide_unpack _); vm_compute; reflexivity).
  unfold simultaneous. rewrite (sim_spec _ _ _ Hk). vm_compute. reflexivity.
Qed.

End TemplateSpec.
