(* ===== verification/Io.v ===== *)
(** * Io: the world the scripts read and the trace of what they do

    Both scripts are single synchronous runs: they read the process
    environment (after [load_dotenv()] has merged the [.env] file into it
    without overriding), test and read files, call the remote API through
    [notion_client.Client] and print.  A run is modelled as a computation in
    [Cmd]: it reads a fixed [world] and produces the list of I/O [event]s it
    performed, in order, together with its result or the exception that
    ended it.  Files are never written, so the world does not change during
    a run; the remote service is an oracle [api] from the request to its
    answer.  [json.load]/[json.loads] are not modelled character by
    character: a file holds either a decoded document or text that does not
    parse. *)

From S2P Require Import Prelude Json.
From stdpp Require Import gmap.
Import Json.

Module Io.

(** A filesystem entry: a directory, or a file whose text decodes to a JSON
    document ([Some j]) or does not ([None]). *)
Inductive fentry := FDir | FFile (contents : option json).

(** The requests the scripts send through [notion_client.Client]. *)
Inductive api_call :=
| PagesCreate (kwargs : list (string * json))
| DatabasesCreate (kwargs : list (string * json))
| PagesUpdate (page_id properties : json)
| DatabasesQuery (kwargs : list (string * json))
| BlocksChildrenAppend (block_id children : json)
| PagesRetrieve (page_id : json).

Record world := {
  environ : gmap string string;      (** [os.environ] at start-up *)
  dotenv : gmap string string;       (** the [.env] file [load_dotenv()] finds *)
  files : gmap string fentry;        (** path -> entry *)
  root : string;                     (** [Path(__file__).resolve().parent.parent] *)
  today : string;                    (** [date.today().isoformat()] *)
  api : string -> api_call -> exc + json  (** answer to a request sent with a token *)
}.

(** A piece of a printed line: literal text, [str(o)] of an object
    interpolated by an f-string, or [json.dumps(o, indent=2, default=str)]. *)
Inductive seg := SText (s : string) | SStr (o : json) | SDump (o : json).

Inductive event :=
| EGetEnv (name : string)
| EExists (path : string)
| EOpen (path : string)
| EStderr (line : string)
| EStdout (line : list seg)
| ECall (token : string) (call : api_call).

(** ** The monad: read the world, append to the trace, stop at an exception *)

Definition Cmd (A : Type) : Type := world -> list event * (exc + A).

Definition ret {A} (a : A) : Cmd A := fun _ => ([], inr a).

Definition bind {A B} (m : Cmd A) (k : A -> Cmd B) : Cmd B :=
  fun w =>
    match m w with
    | (t1, inl e) => (t1, inl e)
    | (t1, inr a) => let '(t2, r) := k a w in (t1 ++ t2, r)
    end.

Notation "x <- m ;; k" := (bind m (fun x => k))
  (at level 100, m at next level, k at level 200, right associativity) : py_scope.
Open Scope py_scope.

(** Read the world without I/O (module constants such as [ROOT], the
    clock). *)
Definition ask : Cmd world := fun w => ([], inr w).

Definition raise {A} (e : exc) : Cmd A := fun _ => ([], inl e).

(** Lift the result of a pure operation that may raise. *)
Definition lift {A} (r : exc + A) : Cmd A := fun _ => ([], r).

Definition emit (e : event) : Cmd unit := fun _ => ([e], inr tt).

Definition eprint (line : string) : Cmd unit := emit (EStderr line).
Definition print (line : list seg) : Cmd unit := emit (EStdout line).

(** The value of a variable after [load_dotenv()]: a variable already in
    the environment wins over the [.env] file. *)
Definition env_value (w : world) (name : string) : option string :=
  union (environ w) (dotenv w) !! name.

(** [os.environ.get(name)]. *)
Definition getenv (name : string) : Cmd (option string) :=
  fun w => ([EGetEnv name], inr (env_value w name)).

(** [path.exists()]. *)
Definition path_exists (path : string) : Cmd bool :=
  fun w => ([EExists path], inr (bool_decide (is_Some (files w !! path)))).

(** [with open(path) as f: return json.load(f)]. *)
Definition load_json_file (path : string) : Cmd json :=
  fun w =>
    ([EOpen path],
     match files w !! path with
     | Some (FFile (Some j)) => inr j
     | Some (FFile None) => inl JSONDecodeError
     | Some FDir => inl (IsADirectoryError path)
     | None => inl (FileNotFoundError path)
     end).

(** A request through the client created with [token]. *)
Definition call (token : string) (c : api_call) : Cmd json :=
  fun w => ([ECall token c], api w token c).

(** [dir / name] with [pathlib]: an absolute [name] replaces [dir]; [..]
    components are kept as they are. *)
Definition path_join (dir name : string) : string :=
  match name with
  | String "/" _ => name
  | _ => dir +:+ "/" +:+ name
  end.

(** [**body]: keyword arguments need a mapping. *)
Definition as_kwargs (o : json) : exc + list (string * json) :=
  match o with
  | JObject f => inr f
  | _ => inl TypeError
  end.

(** The exit status of a run: [sys.exit(n)] gives [n], an uncaught
    exception gives 1, a normal return gives 0. *)
Definition exit_status {A} (r : exc + A) : nat :=
  match r with
  | inr _ => 0
  | inl (SystemExit n) => n
  | inl _ => 1
  end.

(** ** Monad laws, pointwise in the world *)

Lemma bind_assoc {A B C} (m : Cmd A) (k1 : A -> Cmd B) (k2 : B -> Cmd C) w :
  bind (bind m k1) k2 w = bind m (fun a => bind (k1 a) k2) w.
Proof.
  unfold bind. destruct (m w) as [t1 [e|a]]; [done|].
  destruct (k1 a w) as [t2 [e|b]]; [done|]. destruct (k2 b w) as [t3 r]. by rewrite app_assoc.
Qed.

Lemma bind_err {A B} (m : Cmd A) (k : A -> Cmd B) w t e :
  m w = (t, inl e) -> bind m k w = (t, inl e).
Proof. intros H. unfold bind. by rewrite H. Qed.

Lemma bind_ext {A B} (m : Cmd A) (k k' : A -> Cmd B) w :
  (forall a, k a w = k' a w) -> bind m k w = bind m k' w.
Proof. intros H. unfold bind. destruct (m w) as [t [e|a]]; [done|]. by rewrite H. Qed.

Lemma bind_ret {A B} (a : A) (k : A -> Cmd B) w : bind (ret a) k w = k a w.
Proof. unfold bind, ret. simpl. by destruct (k a w). Qed.

Lemma bind_ask {B} (k : world -> Cmd B) w : bind ask k w = k w w.
Proof. unfold bind, ask. simpl. by destruct (k w w). Qed.

Lemma bind_raise {A B} (e : exc) (k : A -> Cmd B) w : bind (raise e) k w = raise e w.
Proof. done. Qed.

Lemma bind_if {A B} (b : bool) (m1 m2 : Cmd A) (k : A -> Cmd B) w :
  bind (if b then m1 else m2) k w = if b then bind m1 k w else bind m2 k w.
Proof. by destruct b. Qed.

(** The trace of a sequence whose first part returns. *)
Lemma bind_trace {A B} (m : Cmd A) (k : A -> Cmd B) w t a :
  m w = (t, inr a) -> (bind m k w).1 = t ++ (k a w).1.
Proof. intros H. unfold bind. rewrite H. by destruct (k a w). Qed.

(** An [eprint] followed by an exception ends the run whatever follows. *)
Lemma bind_fail {A B} (s : string) (e : exc) (k : A -> Cmd B) w :
  bind (bind (eprint s) (fun _ => raise e)) k w = bind (eprint s) (fun _ => raise e) w.
Proof. done. Qed.

(** [run] drives a computation of the models forward: unfold the monad,
    reduce, rewrite with the hypotheses that fix what the computation
    inspects (a file entry, a dict lookup, a test), until nothing changes. *)
Ltac cmd_unfold :=
  cbv beta iota delta [bind ret raise lift emit eprint print ask getenv path_exists
                       load_json_file call].
Ltac run := repeat (progress (cmd_unfold; rewrite_hyps; cbn -[env_value]; rewrite_hyps)).

End Io.
