(* ===== verification/Resolver.v ===== *)
(** * Resolver: what [resolve_target] promises

    Both scripts carry the same [resolve_target] (create_project.py lines
    39-53, notion_client.py lines 47-59).  This file holds what they
    share: the raw-identifier test of their first two lines, the location
    of [notion-config.json], the error messages, and the contract of target
    resolution as the class [TargetResolver].  The scripts' commands are
    proved against the class; each script's [resolve_target] is an instance
    of it. *)

From S2P Require Import Prelude PyStr Json Io.
From stdpp Require Import gmap.
Import Json Io.

Module Resolver.

(** [c in "0123456789abcdef"] for a one-character string [c]. *)
Definition is_hex_char (c : ascii) : bool :=
  PyStr.str_contains "0123456789abcdef" (String c EmptyString).

(** [cleaned = name.replace("-", "")] and
    [len(cleaned) == 32 and all(c in "0123456789abcdef" for c in cleaned)]. *)
Definition looks_like_id (name : string) : bool :=
  let cleaned := PyStr.str_replace name "-" "" in
  bool_decide (String.length cleaned = 32) && forallb is_hex_char (chars cleaned).

(** The characters of [cleaned]: those of [name] other than dashes. *)
Definition cleaned_chars (name : string) : list ascii := filter (fun c => c <> "-"%char) (chars name).

(** [CONFIG_PATH = ROOT / "notion-config.json"]. *)
Definition config_path (w : world) : string := path_join (root w) "notion-config.json".

#[global] Arguments config_path : simpl never.

Definition config_not_found_msg (w : world) : string :=
  "Error: Config not found at " +:+ config_path w.

Definition target_not_found_msg (name : string) : string :=
  "Error: Target '" +:+ name +:+ "' not found in notion-config.json".

Definition available_targets_msg (keys : list string) : string :=
  "Available targets: " +:+ PyStr.str_join ", " keys.

(** The contract of target resolution, from the spec (section 4.1): a raw
    identifier is returned as it is without any I/O; otherwise the config
    must exist, a known name yields [targets[name]["id"]] after one
    existence test and one read, and an unknown name ends the run with
    status 1 after listing the known names. *)
Class TargetResolver (resolve : string -> Cmd json) : Prop := {
  resolve_raw_id w name :
    looks_like_id name = true -> resolve name w = ([], inr (JString name));
  resolve_no_config w name :
    looks_like_id name = false -> files w !! config_path w = None ->
    resolve name w = ([EExists (config_path w); EStderr (config_not_found_msg w)],
                      inl (SystemExit 1));
  resolve_known w name cfg t e :
    looks_like_id name = false ->
    files w !! config_path w = Some (FFile (Some (JObject cfg))) ->
    dict_lookup "targets" cfg = Some (JObject t) -> dict_lookup name t = Some e ->
    resolve name w = ([EExists (config_path w); EOpen (config_path w)], py_getitem e "id");
  resolve_unknown w name cfg t :
    looks_like_id name = false ->
    files w !! config_path w = Some (FFile (Some (JObject cfg))) ->
    default (JObject []) (dict_lookup "targets" cfg) = JObject t -> name ∉ dict_keys t ->
    resolve name w = ([EExists (config_path w); EOpen (config_path w);
                       EStderr (target_not_found_msg name);
                       EStderr (available_targets_msg (dict_keys t))], inl (SystemExit 1))
}.

(** ** The raw-identifier test *)

Lemma occurs_singleton {A} `{EqDecision A} (x : A) (l : list A) :
  PyStr.occurs [x] l <-> x ∈ l.
Proof.
  split.
  - intros (k1 & k2 & ->). set_solver.
  - intros (k1 & k2 & ->)%list_elem_of_split. by exists k1, k2.
Qed.

Lemma is_hex_char_spec c : is_hex_char c = true <-> c ∈ chars "0123456789abcdef".
Proof. unfold is_hex_char, PyStr.str_contains. rewrite PyStr.occursb_spec. apply occurs_singleton. Qed.

Lemma chars_cleaned name : chars (PyStr.str_replace name "-" "") = cleaned_chars name.
Proof.
  unfold PyStr.str_replace, cleaned_chars. rewrite chars_of_chars.
  apply PyStr.list_replace_char_delete.
Qed.

(** [looks_like_id] depends on the dash-free characters only. *)
Lemma looks_like_id_cleaned name :
  looks_like_id name =
  bool_decide (length (cleaned_chars name) = 32) && forallb is_hex_char (cleaned_chars name).
Proof. unfold looks_like_id. by rewrite <- chars_length, chars_cleaned. Qed.

(** C8: a name is taken as a raw identifier exactly when, dashes removed, it is
    32 characters long and each is a lowercase hexadecimal digit. *)
Theorem looks_like_id_spec name :
  looks_like_id name = true <->
  length (cleaned_chars name) = 32 /\
  Forall (fun c => c ∈ chars "0123456789abcdef") (cleaned_chars name).
Proof.
  rewrite looks_like_id_cleaned, andb_true_iff, bool_decide_eq_true, forallb_forall, Forall_forall.
  setoid_rewrite <- is_hex_char_spec. setoid_rewrite list_elem_of_In. done.
Qed.

Lemma cleaned_chars_dash s1 s2 :
  cleaned_chars (s1 +:+ "-" +:+ s2) = cleaned_chars (s1 +:+ s2).
Proof.
  unfold cleaned_chars. rewrite !chars_app, !filter_app. simpl.
  done.
Qed.

(** Dashes may be placed anywhere: inserting one never changes the test. *)
Theorem looks_like_id_dash s1 s2 :
  looks_like_id (s1 +:+ "-" +:+ s2) = looks_like_id (s1 +:+ s2).
Proof. by rewrite !looks_like_id_cleaned, cleaned_chars_dash. Qed.

(** The spec's scenario: a 32-digit identifier written with dashes in the
    UUID layout is recognised as a raw identifier. *)
Example looks_like_id_uuid : looks_like_id "a1b2c3d4-e5f6-7890-abcd-ef1234567890" = true.
Proof. reflexivity. Qed.

Example looks_like_id_friendly : looks_like_id "project-db" = false.
Proof. reflexivity. Qed.

Example looks_like_id_upper : looks_like_id "A1B2C3D4E5F67890ABCDEF1234567890" = false.
Proof. reflexivity. Qed.

(** ** The list of available targets *)

Lemma no_separator_in_name k :
  PyStr.str_contains k ", " = false ->
  ~ PyStr.occurs (chars ", ") (chars k ++ take (Nat.pred (length (chars ", "))) (chars ", ")).
Proof.
  intros Hk Hocc. apply PyStr.occurs_pair_snoc in Hocc; [|done].
  apply PyStr.occursb_spec in Hocc. unfold PyStr.str_contains in Hk.
  change (chars ", ") with [","; " "]%char in Hk. congruence.
Qed.

(** C23: the list of targets the unknown-target error prints can be read
    back: splitting it on [", "] gives the config's names in order, when
    there is at least one and none contains [", "] (spec section 4.1: the
    error enumerates all known names). *)
Theorem available_targets_roundtrip ks :
  ks <> [] -> Forall (fun k => PyStr.str_contains k ", " = false) ks ->
  exists s, available_targets_msg ks = "Available targets: " +:+ s /\ PyStr.str_split s ", " = Some ks.
Proof.
  intros Hne Hf. exists (PyStr.str_join ", " ks). split; [done|].
  destruct ks as [|k ks]; [done|]. unfold PyStr.str_split. cbn [chars].
  change ["," ; " "]%char with (chars ", "). rewrite PyStr.chars_str_join.
  change (map chars (k :: ks)) with (chars k :: map chars ks). rewrite PyStr.list_split_join.
  - f_equal. simpl. rewrite of_chars_chars. f_equal. clear.
    induction ks as [|k' ks IH]; simpl; [done|]. by rewrite of_chars_chars, IH.
  - discriminate.
  - change (chars k :: map chars ks) with (map chars (k :: ks)).
    apply Forall_fmap. eapply Forall_impl; [exact Hf|]. apply no_separator_in_name.
Qed.

Lemma available_targets_roundtrip_witness :
  ["project-db"; "docs"] <> [] /\
  Forall (fun k => PyStr.str_contains k ", " = false) ["project-db"; "docs"] /\
  exists s, available_targets_msg ["project-db"; "docs"] = "Available targets: " +:+ s /\
    PyStr.str_split s ", " = Some ["project-db"; "docs"].
Proof.
  assert (H : Forall (fun k => PyStr.str_contains k ", " = false) ["project-db"; "docs"])
    by (repeat constructor).
  split; [discriminate|]. split; [exact H|]. apply available_targets_roundtrip; [discriminate|exact H].
Defined.

(** Names that contain the separator make the list ambiguous: two configs
    with different names print the same line. *)
Example available_targets_ambiguous :
  available_targets_msg ["docs, notes"] = available_targets_msg ["docs"; "notes"].
Proof. reflexivity. Qed.

End Resolver.
