(* ===== verification/CreateProject.v ===== *)
(** * CreateProject: src/scripts/create_project.py

    The script that creates a project page: [get_client] checks the token,
    [resolve_target] maps [--parent] to an identifier, [load_template]
    reads [templates/<name>.json], and [create_project_page] substitutes
    [{{PROJECT_NAME}}] and [{{DATE}}], sets [parent] and [icon], drops
    [object] and sends [pages.create] (the body built by [page_body]).
    [main] chains them and prints. *)

From S2P Require Import Prelude PyStr Json Template Io Resolver.
From stdpp Require Import gmap.
Import Json Template Io Resolver.

Module CreateProject.

Definition token_missing_msg : string := "Error: NOTION_API_TOKEN is not set. See .env.example.".

(** [get_client()]: the client is identified with its token. *)
Definition get_client : Cmd string :=
  token <- getenv "NOTION_API_TOKEN" ;;
  match token with
  | Some t => if bool_decide (t = "") then (_ <- eprint token_missing_msg ;; raise (SystemExit 1))
              else ret t
  | None => _ <- eprint token_missing_msg ;; raise (SystemExit 1)
  end.

(** [resolve_target(name)]. *)
Definition resolve_target (name : string) : Cmd json :=
  if looks_like_id name then ret (JString name) else
  w <- ask ;;
  ex <- path_exists (config_path w) ;;
  if negb ex then (_ <- eprint (config_not_found_msg w) ;; raise (SystemExit 1)) else
  config <- load_json_file (config_path w) ;;
  targets <- lift (py_get config "targets" (JObject [])) ;;
  present <- lift (py_contains targets name) ;;
  if negb present then
    (_ <- eprint (target_not_found_msg name) ;;
     keys <- lift (py_keys targets) ;;
     _ <- eprint (available_targets_msg keys) ;;
     raise (SystemExit 1))
  else
    entry <- lift (py_getitem targets name) ;;
    lift (py_getitem entry "id").

(** [TEMPLATES_DIR = ROOT / "templates"]. *)
Definition templates_dir (w : world) : string := path_join (root w) "templates".

(** [TEMPLATES_DIR / f"{name}.json"]. *)
Definition template_path (w : world) (name : string) : string :=
  path_join (templates_dir w) (name +:+ ".json").

#[global] Arguments template_path : simpl never.

Definition template_not_found_msg (w : world) (name : string) : string :=
  "Error: Template '" +:+ name +:+ "' not found at " +:+ template_path w name.

(** [load_template(name)]. *)
Definition load_template (name : string) : Cmd json :=
  w <- ask ;;
  ex <- path_exists (template_path w name) ;;
  if negb ex then (_ <- eprint (template_not_found_msg w name) ;; raise (SystemExit 1))
  else load_json_file (template_path w name).

(** The replacement dict of [create_project_page]. *)
Definition replacements (project_name today : string) : list (string * string) :=
  [("PROJECT_NAME", project_name); ("DATE", today)].

(** The body [create_project_page] builds from the loaded template: the
    substituted copy with [parent] and [icon] set and [object] removed.
    [copy.deepcopy] is the identity on values; [Heap] shows the same body
    comes out of the object graph, with the template left unchanged. *)
Definition page_body (template : json) (replacements : list (string * string))
    (parent_id : json) (icon : string) : exc + json :=
  match py_setitem (replace_placeholders template replacements) "parent" (JObject [("page_id", parent_id)]) with
  | inl e => inl e
  | inr body =>
      match py_setitem body "icon" (JObject [("type", JString "emoji"); ("emoji", JString icon)]) with
      | inl e => inl e
      | inr body => py_pop_none body "object"
      end
  end.

(** [create_project_page(client, parent_id, project_name, template_name, icon)]. *)
Definition create_project_page (client : string) (parent_id : json)
    (project_name template_name icon : string) : Cmd json :=
  template <- load_template template_name ;;
  w <- ask ;;
  body <- lift (page_body template (replacements project_name (today w)) parent_id icon) ;;
  kwargs <- lift (as_kwargs body) ;;
  call client (PagesCreate kwargs).

(** The parsed command line: [name], [--parent], [--template], [--icon]. *)
Record args := { a_name : string; a_parent : string; a_template : string; a_icon : string }.

(** [main()] after [parser.parse_args()]. *)
Definition main (a : args) : Cmd json :=
  client <- get_client ;;
  parent_id <- resolve_target (a_parent a) ;;
  _ <- print [SText "Creating project page: "; SText (a_name a)] ;;
  _ <- print [SText "  Parent: "; SText (a_parent a); SText " ("; SStr parent_id; SText ")"] ;;
  _ <- print [SText "  Template: "; SText (a_template a)] ;;
  _ <- print [SText "  Icon: "; SText (a_icon a)] ;;
  _ <- print [] ;;
  result <- create_project_page client parent_id (a_name a) (a_template a) (a_icon a) ;;
  page_id <- lift (py_getitem result "id") ;;
  url <- lift (py_get result "url" (JString "")) ;;
  _ <- print [SText "Project page created!"] ;;
  _ <- print [SText "  ID:  "; SStr page_id] ;;
  _ <- print [SText "  URL: "; SStr url] ;;
  ret result.

(** ** Definitions used by the statements *)

(** The five lines [main] prints before it creates the page. *)
Definition banner (a : args) (parent_id : json) : list event :=
  [EStdout [SText "Creating project page: "; SText (a_name a)];
   EStdout [SText "  Parent: "; SText (a_parent a); SText " ("; SStr parent_id; SText ")"];
   EStdout [SText "  Template: "; SText (a_template a)];
   EStdout [SText "  Icon: "; SText (a_icon a)];
   EStdout []].

(** ** A fixture: a checkout with a config, one template and a service
    that accepts every request *)

Definition demo_template : json :=
  JObject [("object", JString "page");
           ("properties", JObject [("title", JObject [("title",
              JArray [JObject [("text", JObject [("content", JString "{{PROJECT_NAME}}")])]])])]);
           ("children", JArray [JString "Kick-off on {{DATE}}"])].

Definition demo_world : world := {|
  environ := {[ "NOTION_API_TOKEN" := "secret-token" ]};
  dotenv := ∅;
  files := {[ "/repo/notion-config.json" :=
                FFile (Some (JObject [("targets", JObject [("project-db", JObject [("id", JString "xyz")])])]));
              "/repo/templates/project-page.json" := FFile (Some demo_template) ]};
  root := "/repo";
  today := "2026-11-09";
  api := fun _ _ => inr (JObject [("id", JString "page-1"); ("url", JString "https://example.invalid/page-1")])
|}.

(** The same checkout with another filesystem and environment. *)
Definition with_files (w : world) (env : gmap string string) (fs : gmap string fentry) : world :=
  {| environ := env; dotenv := dotenv w; files := fs; root := root w; today := today w; api := api w |}.

Definition demo_world_bare : world := with_files demo_world ∅ ∅.

Definition demo_world_no_targets : world :=
  with_files demo_world (environ demo_world)
    {[ "/repo/notion-config.json" := FFile (Some (JObject [("targets", JObject [])])) ]}.

Definition demo_world_list_targets : world :=
  with_files demo_world (environ demo_world)
    {[ "/repo/notion-config.json" := FFile (Some (JObject [("targets", JArray [JString "project-db"])])) ]}.

(** A service that creates the page but answers without an [id]. *)
Definition demo_world_no_id : world :=
  {| environ := environ demo_world; dotenv := dotenv demo_world; files := files demo_world;
     root := root demo_world; today := today demo_world;
     api := fun _ _ => inr (JObject [("object", JString "page")]) |}.

Definition demo_args : args :=
  {| a_name := "Apollo"; a_parent := "a1b2c3d4-e5f6-7890-abcd-ef1234567890";
     a_template := "project-page"; a_icon := "x" |}.

(** ** [resolve_target] meets the resolver contract *)

#[export] Instance create_project_resolver : TargetResolver resolve_target.
Proof.
  split.
  - intros w name H. unfold resolve_target. by rewrite H.
  - intros w name H Hf. unfold resolve_target. rewrite H. cbn. by rewrite Hf.
  - intros w name cfg t e H Hf Ht He. unfold resolve_target.
    assert (Hin : bool_decide (name ∈ dict_keys t) = true).
    { apply bool_decide_eq_true_2. by eapply dict_lookup_keys. }
    run. by destruct (py_getitem e "id").
  - intros w name cfg t H Hf Ht Hn. unfold resolve_target.
    assert (Hin : bool_decide (name ∈ dict_keys t) = false) by (by apply bool_decide_eq_false_2).
    run. destruct (dict_lookup "targets" cfg) as [tg|]; simpl in Ht; subst; run; done.
Qed.

(** ** Resolution, proved through the contract *)

(** C3: a name that passes the raw-identifier test is returned unchanged,
    dashes included, without reading the config or anything else. *)
Theorem resolve_target_raw w name :
  looks_like_id name = true -> resolve_target name w = ([], inr (JString name)).
Proof. apply resolve_raw_id. Qed.

Lemma resolve_target_raw_witness :
  looks_like_id "a1b2c3d4-e5f6-7890-abcd-ef1234567890" = true /\
  resolve_target "a1b2c3d4-e5f6-7890-abcd-ef1234567890" demo_world_bare =
    ([], inr (JString "a1b2c3d4-e5f6-7890-abcd-ef1234567890")).
Proof. split; [reflexivity|]. apply resolve_target_raw. reflexivity. Defined.


(** C4: a name present in the [targets] dict of the config yields the
    [id] field of its entry, after one existence test and one read. *)
Theorem resolve_target_known w name cfg t e :
  looks_like_id name = false ->
  files w !! config_path w = Some (FFile (Some (JObject cfg))) ->
  dict_lookup "targets" cfg = Some (JObject t) -> dict_lookup name t = Some e ->
  resolve_target name w = ([EExists (config_path w); EOpen (config_path w)], py_getitem e "id").
Proof. apply resolve_known. Qed.

Lemma resolve_target_known_witness :
  looks_like_id "project-db" = false /\
  files demo_world !! config_path demo_world =
    Some (FFile (Some (JObject [("targets", JObject [("project-db", JObject [("id", JString "xyz")])])]))) /\
  resolve_target "project-db" demo_world =
    ([EExists (config_path demo_world); EOpen (config_path demo_world)],
     py_getitem (JObject [("id", JString "xyz")]) "id").
Proof.
  split; [reflexivity|]. split; [reflexivity|].
  apply (resolve_target_known demo_world "project-db"
           [("targets", JObject [("project-db", JObject [("id", JString "xyz")])])]
           [("project-db", JObject [("id", JString "xyz")])]); reflexivity.
Defined.


(** C5: an unknown name ends the run with status 1 after printing the two
    error lines, the second listing every known name (none when the config
    has no [targets]). *)
Theorem resolve_target_unknown w name cfg t :
  looks_like_id name = false ->
  files w !! config_path w = Some (FFile (Some (JObject cfg))) ->
  default (JObject []) (dict_lookup "targets" cfg) = JObject t -> name ∉ dict_keys t ->
  resolve_target name w =
    ([EExists (config_path w); EOpen (config_path w); EStderr (target_not_found_msg name);
      EStderr (available_targets_msg (dict_keys t))], inl (SystemExit 1)).
Proof. apply resolve_unknown. Qed.

Lemma resolve_target_unknown_witness :
  looks_like_id "missing-target" = false /\
  resolve_target "missing-target" demo_world_no_targets =
    ([EExists (config_path demo_world_no_targets); EOpen (config_path demo_world_no_targets);
      EStderr (target_not_found_msg "missing-target");
      EStderr (available_targets_msg (dict_keys (@nil (string * json))))], inl (SystemExit 1)).
Proof.
  split; [reflexivity|].
  apply (resolve_target_unknown demo_world_no_targets "missing-target" [("targets", JObject [])] []);
    [reflexivity|reflexivity|reflexivity|apply (bool_decide_unpack _); vm_compute; exact I].
Defined.


(** C6: without a config file, a name that is not a raw identifier ends
    the run with status 1 after one existence test. *)
Theorem resolve_target_no_config w name :
  looks_like_id name = false -> files w !! config_path w = None ->
  resolve_target name w =
    ([EExists (config_path w); EStderr (config_not_found_msg w)], inl (SystemExit 1)).
Proof. apply resolve_no_config. Qed.

Lemma resolve_target_no_config_witness :
  looks_like_id "project-db" = false /\ files demo_world_bare !! config_path demo_world_bare = None /\
  resolve_target "project-db" demo_world_bare =
    ([EExists (config_path demo_world_bare); EStderr (config_not_found_msg demo_world_bare)],
     inl (SystemExit 1)).
Proof. split; [reflexivity|]. split; [reflexivity|]. apply resolve_target_no_config; reflexivity. Defined.


(** ** The request [create_project_page] sends *)

Lemma string_neq_parent_icon : "parent" <> "icon" /\ "object" <> "parent" /\ "object" <> "icon".
Proof. repeat split; discriminate. Qed.

(** C14: from a template whose top level is a dict, [create_project_page]
    reads the template once and sends exactly one [pages.create] whose
    keyword arguments are the substituted template with [parent] and [icon]
    set and [object] removed, with no duplicate key. *)
Theorem create_project_page_request w client pid name tname icon f :
  files w !! template_path w tname = Some (FFile (Some (JObject f))) ->
  NoDup (dict_keys f) ->
  exists kwargs,
    create_project_page client pid name tname icon w =
      ([EExists (template_path w tname); EOpen (template_path w tname);
        ECall client (PagesCreate kwargs)], api w client (PagesCreate kwargs)) /\
    dict_lookup "parent" kwargs = Some (JObject [("page_id", pid)]) /\
    dict_lookup "icon" kwargs = Some (JObject [("type", JString "emoji"); ("emoji", JString icon)]) /\
    dict_lookup "object" kwargs = None /\
    (forall k, k <> "parent" -> k <> "icon" -> k <> "object" ->
       dict_lookup k kwargs =
       (fun v => replace_placeholders v (replacements name (today w))) <$> dict_lookup k f) /\
    NoDup (dict_keys kwargs).
Proof.
  intros Hf Hnd. destruct string_neq_parent_icon as (Hpi & Hop & Hoi).
  set (g := fun v => replace_placeholders v (replacements name (today w))).
  set (b0 := map (fun kv => (kv.1, g kv.2)) f).
  set (b2 := dict_setitem "icon" (JObject [("type", JString "emoji"); ("emoji", JString icon)])
               (dict_setitem "parent" (JObject [("page_id", pid)]) b0)).
  assert (Hnd2 : NoDup (dict_keys b2)).
  { apply dict_setitem_NoDup, dict_setitem_NoDup. subst b0. by rewrite dict_keys_map_values. }
  exists (dict_delete "object" b2). split; [|split; [|split; [|split; [|split]]]].
  - unfold create_project_page, page_body, load_template. run. done.
  - rewrite dict_lookup_delete_ne by done. subst b2.
    rewrite dict_lookup_setitem_ne by done. apply dict_lookup_setitem_eq.
  - rewrite dict_lookup_delete_ne by done. apply dict_lookup_setitem_eq.
  - by apply dict_lookup_delete_eq.
  - intros k Hkp Hki Hko. rewrite dict_lookup_delete_ne by congruence. subst b2.
    rewrite !dict_lookup_setitem_ne by congruence. apply dict_lookup_map_values.
  - by apply dict_delete_NoDup.
Qed.

Lemma create_project_page_request_witness :
  NoDup (dict_keys (match demo_template with JObject f => f | _ => [] end)) /\
  exists kwargs,
    create_project_page "secret-token" (JString "xyz") "Apollo" "project-page" "x" demo_world =
      ([EExists (template_path demo_world "project-page"); EOpen (template_path demo_world "project-page");
        ECall "secret-token" (PagesCreate kwargs)], api demo_world "secret-token" (PagesCreate kwargs)) /\
    dict_lookup "parent" kwargs = Some (JObject [("page_id", JString "xyz")]) /\
    dict_lookup "icon" kwargs = Some (JObject [("type", JString "emoji"); ("emoji", JString "x")]) /\
    dict_lookup "object" kwargs = None /\
    (forall k, k <> "parent" -> k <> "icon" -> k <> "object" ->
       dict_lookup k kwargs =
       (fun v => replace_placeholders v (replacements "Apollo" (today demo_world))) <$>
         dict_lookup k (match demo_template with JObject f => f | _ => [] end)) /\
    NoDup (dict_keys kwargs).
Proof.
  split; [apply (bool_decide_unpack _); vm_compute; exact I|].
  apply create_project_page_request; [reflexivity|apply (bool_decide_unpack _); vm_compute; exact I].
Defined.


(** ** [main] *)

(** C15: without a usable token (absent, or empty) [main] stops with status
    1 before any file is touched or anything is sent. *)
Theorem main_no_token a w :
  default "" (env_value w "NOTION_API_TOKEN") = "" ->
  main a w = ([EGetEnv "NOTION_API_TOKEN"; EStderr token_missing_msg], inl (SystemExit 1)).
Proof.
  intros H. unfold main, get_client.
  destruct (env_value w "NOTION_API_TOKEN") as [t|] eqn:E;
    simpl in H; [subst|]; run; done.
Qed.

Lemma main_no_token_witness :
  default "" (env_value demo_world_bare "NOTION_API_TOKEN") = "" /\
  main demo_args demo_world_bare =
    ([EGetEnv "NOTION_API_TOKEN"; EStderr token_missing_msg], inl (SystemExit 1)).
Proof. split; [reflexivity|]. apply main_no_token. reflexivity. Defined.


(** C16: [main] prints its banner on stdout before it looks for the
    template, so a missing template ends the run with status 1 after the
    banner was printed. *)
Theorem main_template_missing a w t :
  env_value w "NOTION_API_TOKEN" = Some t -> t <> "" -> looks_like_id (a_parent a) = true ->
  files w !! template_path w (a_template a) = None ->
  main a w =
    ([EGetEnv "NOTION_API_TOKEN"] ++ banner a (JString (a_parent a)) ++
     [EExists (template_path w (a_template a));
      EStderr (template_not_found_msg w (a_template a))], inl (SystemExit 1)).
Proof.
  intros Ht Hne Hraw Hf.
  assert (Hr := resolve_raw_id w _ Hraw).
  assert (Hb : bool_decide (t = "") = false) by (by apply bool_decide_eq_false_2).
  unfold main, get_client, create_project_page, page_body, load_template. run. done.
Qed.

Lemma main_template_missing_witness :
  let a := {| a_name := "Apollo"; a_parent := "a1b2c3d4e5f67890abcdef1234567890";
              a_template := "no-such-template"; a_icon := "x" |} in
  env_value demo_world "NOTION_API_TOKEN" = Some "secret-token" /\
  files demo_world !! template_path demo_world (a_template a) = None /\
  main a demo_world =
    ([EGetEnv "NOTION_API_TOKEN"] ++ banner a (JString (a_parent a)) ++
     [EExists (template_path demo_world (a_template a));
      EStderr (template_not_found_msg demo_world (a_template a))], inl (SystemExit 1)).
Proof.
  intros a. split; [reflexivity|]. split; [reflexivity|].
  apply (main_template_missing a demo_world "secret-token");
    [reflexivity|discriminate|reflexivity|reflexivity].
Defined.


(** C17: the second pass re-scans what the first pass inserted: a project
    named [{{DATE}}] gets the date, not its name, wherever the template says
    [{{PROJECT_NAME}}]. *)
Theorem substitute_date_in_name d :
  substitute_str (replacements "{{DATE}}" d) "{{PROJECT_NAME}}" = d.
Proof.
  unfold substitute_str, replacements. simpl.
  change (PyStr.str_replace "{{PROJECT_NAME}}" (placeholder "PROJECT_NAME") "{{DATE}}")
    with "{{DATE}}".
  unfold PyStr.str_replace.
  change (chars (placeholder "DATE")) with (chars "{{DATE}}").
  rewrite <- (app_nil_r (chars "{{DATE}}")) at 2.
  rewrite (PyStr.list_replace_hit (chars "{{DATE}}") ltac:(cbn; congruence)).
  rewrite (PyStr.list_replace_nil (chars "{{DATE}}") ltac:(cbn; congruence)).
  by rewrite app_nil_r, of_chars_chars.
Qed.

(** C22: a run with a usable token, a raw parent identifier, a dict
    template and a service that accepts the page ends normally: the trace is
    the token check, the banner, the template read, one [pages.create], and
    the three closing lines; the result is the service's answer. *)
Theorem main_success a w t f res pid :
  env_value w "NOTION_API_TOKEN" = Some t -> t <> "" -> looks_like_id (a_parent a) = true ->
  files w !! template_path w (a_template a) = Some (FFile (Some (JObject f))) ->
  (forall c, api w t c = inr (JObject res)) -> dict_lookup "id" res = Some pid ->
  exists kwargs,
    main a w =
      ([EGetEnv "NOTION_API_TOKEN"] ++ banner a (JString (a_parent a)) ++
       [EExists (template_path w (a_template a)); EOpen (template_path w (a_template a));
        ECall t (PagesCreate kwargs);
        EStdout [SText "Project page created!"];
        EStdout [SText "  ID:  "; SStr pid];
        EStdout [SText "  URL: "; SStr (default (JString "") (dict_lookup "url" res))]],
       inr (JObject res)).
Proof.
  intros Ht Hne Hraw Hf Hapi Hid.
  assert (Hr := resolve_raw_id w _ Hraw).
  assert (Hb : bool_decide (t = "") = false) by (by apply bool_decide_eq_false_2).
  unfold main, get_client, create_project_page, page_body, load_template. run.
  rewrite Hapi. cbn. rewrite Hid. cbn. eexists. reflexivity.
Qed.

Lemma main_success_witness :
  env_value demo_world "NOTION_API_TOKEN" = Some "secret-token" /\
  exists kwargs,
    main demo_args demo_world =
      ([EGetEnv "NOTION_API_TOKEN"] ++ banner demo_args (JString (a_parent demo_args)) ++
       [EExists (template_path demo_world (a_template demo_args));
        EOpen (template_path demo_world (a_template demo_args));
        ECall "secret-token" (PagesCreate kwargs);
        EStdout [SText "Project page created!"];
        EStdout [SText "  ID:  "; SStr (JString "page-1")];
        EStdout [SText "  URL: "; SStr (default (JString "")
                   (dict_lookup "url" [("id", JString "page-1"); ("url", JString "https://example.invalid/page-1")]))]],
       inr (JObject [("id", JString "page-1"); ("url", JString "https://example.invalid/page-1")])).
Proof.
  split; [reflexivity|].
  apply (main_success demo_args demo_world "secret-token"
           (match demo_template with JObject f => f | _ => [] end));
    [reflexivity|discriminate|reflexivity|reflexivity|reflexivity|reflexivity].
Defined.

(** ** A malformed config *)

(** C24: a [targets] entry that is a list instead of a dict is not
    reported as the spec's errors: a listed name raises [TypeError] on
    [targets[name]], an unlisted one prints the first error line and then
    raises [AttributeError] on [targets.keys()]. *)
Theorem resolve_target_targets_list w name cfg l :
  looks_like_id name = false ->
  files w !! config_path w = Some (FFile (Some (JObject cfg))) ->
  dict_lookup "targets" cfg = Some (JArray l) ->
  resolve_target name w =
    if bool_decide (JString name ∈ l)
    then ([EExists (config_path w); EOpen (config_path w)], inl TypeError)
    else ([EExists (config_path w); EOpen (config_path w); EStderr (target_not_found_msg name)],
          inl AttributeError).
Proof.
  intros Hid Hf Ht. unfold resolve_target. run.
  by destruct (bool_decide (JString name ∈ l)).
Qed.

Lemma resolve_target_targets_list_witness :
  files demo_world_list_targets !! config_path demo_world_list_targets =
    Some (FFile (Some (JObject [("targets", JArray [JString "project-db"])]))) /\
  resolve_target "project-db" demo_world_list_targets =
    if bool_decide (JString "project-db" ∈ [JString "project-db"])
    then ([EExists (config_path demo_world_list_targets); EOpen (config_path demo_world_list_targets)],
          inl TypeError)
    else ([EExists (config_path demo_world_list_targets); EOpen (config_path demo_world_list_targets);
           EStderr (target_not_found_msg "project-db")], inl AttributeError).
Proof.
  split; [reflexivity|].
  apply (resolve_target_targets_list _ _ [("targets", JArray [JString "project-db"])]); reflexivity.
Defined.

(** C25: when the service answers [pages.create] with an object that has
    no [id], [main] fails with [KeyError] after the page was created: the
    request is in the trace, the run ends with status 1. *)
Theorem main_created_without_id a w t res :
  env_value w "NOTION_API_TOKEN" = Some t -> t <> "" -> looks_like_id (a_parent a) = true ->
  (forall c, api w t c = inr (JObject res)) -> dict_lookup "id" res = None ->
  (exists f, files w !! template_path w (a_template a) = Some (FFile (Some (JObject f)))) ->
  exists tr c, main a w = (tr, inl (KeyError "id")) /\ (ECall t c ∈ tr) /\ exit_status (A:=json) (inl (KeyError "id")) = 1.
Proof.
  intros Ht Hne Hraw Hapi Hid [f Hf].
  assert (Hr := resolve_raw_id w _ Hraw).
  assert (Hb : bool_decide (t = "") = false) by (by apply bool_decide_eq_false_2).
  unfold main, get_client, create_project_page, page_body, load_template. run.
  rewrite Hapi. cbn. rewrite Hid. cbn.
  eexists _, _. split; [reflexivity|]. split; [|done].
  apply list_elem_of_In. simpl. repeat (first [left; reflexivity | right]).
Qed.

Lemma main_created_without_id_witness :
  env_value demo_world_no_id "NOTION_API_TOKEN" = Some "secret-token" /\
  exists tr c, main demo_args demo_world_no_id = (tr, inl (KeyError "id")) /\ (ECall "secret-token" c ∈ tr) /\
    exit_status (A:=json) (inl (KeyError "id")) = 1.
Proof.
  split; [reflexivity|].
  apply (main_created_without_id demo_args demo_world_no_id "secret-token" [("object", JString "page")]);
    [reflexivity|discriminate|reflexivity|reflexivity|reflexivity|eexists; reflexivity].
Defined.

End CreateProject.
