(* ===== verification/NotionClient.v ===== *)
(** * NotionClient: src/scripts/notion_client.py

    The general CLI: [get_client], [load_config], its own copy of
    [resolve_target], [load_template], and one handler per subcommand
    ([create-page], [create-db], [update-page], [query-db], [append-blocks],
    [get-page]).  Each handler checks the token, resolves [--target], builds
    the request (from a template, from literal JSON given on the command
    line, or from a default body), sends one request and prints its answer
    with [json.dumps].  [main] dispatches on the parsed subcommand;
    argparse itself is not modelled: a handler receives its parsed
    arguments. *)

From S2P Require Import Prelude PyStr Json Io Resolver CreateProject.
From stdpp Require Import gmap.
Import Json Io Resolver.

Module NotionClient.

Definition token_missing_msg : string := "Error: NOTION_API_TOKEN is not set. See .env.example.".

(** [get_client()]. *)
Definition get_client : Cmd string :=
  token <- getenv "NOTION_API_TOKEN" ;;
  match token with
  | Some t => if bool_decide (t = "") then (_ <- eprint token_missing_msg ;; raise (SystemExit 1))
              else ret t
  | None => _ <- eprint token_missing_msg ;; raise (SystemExit 1)
  end.

(** [load_config()]. *)
Definition load_config : Cmd json :=
  w <- ask ;;
  ex <- path_exists (config_path w) ;;
  if negb ex then (_ <- eprint (config_not_found_msg w) ;; raise (SystemExit 1))
  else load_json_file (config_path w).

(** [resolve_target(name)]. *)
Definition resolve_target (name : string) : Cmd json :=
  if looks_like_id name then ret (JString name) else
  config <- load_config ;;
  targets <- lift (py_get config "targets" (JObject [])) ;;
  present <- lift (py_contains targets name) ;;
  if negb present then
    (_ <- eprint (target_not_found_msg name) ;;
     keys <- lift (py_keys targets) ;;
     _ <- eprint (available_targets_msg keys) ;;
     raise (SystemExit 1))
  else
    entry <- lift (py_getitem targets name) ;;
    lift (py_getitem entry "id").

(** [TEMPLATES_DIR = ROOT / "templates"]. *)
Definition templates_dir (w : world) : string := path_join (root w) "templates".

(** [TEMPLATES_DIR / f"{name}.json"]. *)
Definition template_path (w : world) (name : string) : string :=
  path_join (templates_dir w) (name +:+ ".json").

#[global] Arguments template_path : simpl never.

Definition template_not_found_msg (w : world) (name : string) : string :=
  "Error: Template '" +:+ name +:+ "' not found at " +:+ template_path w name.

(** [load_template(name)]. *)
Definition load_template (name : string) : Cmd json :=
  w <- ask ;;
  ex <- path_exists (template_path w name) ;;
  if negb ex then (_ <- eprint (template_not_found_msg w name) ;; raise (SystemExit 1))
  else load_json_file (template_path w name).

(** A command-line argument holding JSON text, with what [json.loads]
    makes of it. *)
Record jarg := { jtext : string; jparsed : option json }.

(** [json.loads(arg)]. *)
Definition json_loads (a : jarg) : exc + json :=
  match jparsed a with Some j => inr j | None => inl JSONDecodeError end.

(** Truthiness of an optional string argument: [None] and [""] are false. *)
Definition truthy (o : option string) : option string :=
  match o with Some s => if bool_decide (s = "") then None else Some s | None => None end.

(** [args.title or dflt]. *)
Definition title_or (title : option string) (dflt : string) : string :=
  default dflt (truthy title).

(** The body [cmd_create_page] builds without a template. *)
Definition default_page_body (title : option string) : json :=
  JObject [("properties", JObject [("title", JObject [("title",
             JArray [JObject [("type", JString "text");
                              ("text", JObject [("content", JString (title_or title "Untitled"))])]])])]);
           ("children", JArray [])].

(** The body [cmd_create_db] builds without a template. *)
Definition default_db_body (title : option string) : json :=
  JObject [("title", JArray [JObject [("type", JString "text");
             ("text", JObject [("content", JString (title_or title "Untitled Database"))])]]);
           ("properties", JObject [("Name", JObject [("title", JObject [])])])].

(** [print(json.dumps(result, indent=2, default=str))]. *)
Definition print_result (result : json) : Cmd unit := print [SDump result].

Definition cmd_create_page (target : string) (template title : option string) : Cmd unit :=
  client <- get_client ;;
  parent_id <- resolve_target target ;;
  body <- (match truthy template with
           | Some t => load_template t
           | None => ret (default_page_body title)
           end) ;;
  body <- lift (py_setitem body "parent" (JObject [("page_id", parent_id)])) ;;
  kwargs <- lift (as_kwargs body) ;;
  result <- call client (PagesCreate kwargs) ;;
  print_result result.

Definition cmd_create_db (target : string) (template title : option string) : Cmd unit :=
  client <- get_client ;;
  parent_id <- resolve_target target ;;
  body <- (match truthy template with
           | Some t => load_template t
           | None => ret (default_db_body title)
           end) ;;
  body <- lift (py_setitem body "parent" (JObject [("page_id", parent_id)])) ;;
  body <- lift (py_pop_none body "object") ;;
  kwargs <- lift (as_kwargs body) ;;
  result <- call client (DatabasesCreate kwargs) ;;
  print_result result.

Definition cmd_update_page (target : string) (properties : jarg) : Cmd unit :=
  client <- get_client ;;
  page_id <- resolve_target target ;;
  props <- lift (json_loads properties) ;;
  result <- call client (PagesUpdate page_id props) ;;
  print_result result.

(** [if args.filter:] tests the text, then [json.loads] parses it. *)
Definition set_if_given (kwargs : list (string * json)) (k : string) (a : option jarg)
    : exc + list (string * json) :=
  match a with
  | Some x => if bool_decide (jtext x = "") then inr kwargs
              else match json_loads x with
                   | inr j => inr (dict_setitem k j kwargs)
                   | inl e => inl e
                   end
  | None => inr kwargs
  end.

Definition cmd_query_db (target : string) (filter sorts : option jarg) : Cmd unit :=
  client <- get_client ;;
  db_id <- resolve_target target ;;
  kwargs <- lift (set_if_given [("database_id", db_id)] "filter" filter) ;;
  kwargs <- lift (set_if_given kwargs "sorts" sorts) ;;
  result <- call client (DatabasesQuery kwargs) ;;
  print_result result.

Definition cmd_append_blocks (target : string) (blocks : jarg) : Cmd unit :=
  client <- get_client ;;
  page_id <- resolve_target target ;;
  children <- lift (json_loads blocks) ;;
  result <- call client (BlocksChildrenAppend page_id children) ;;
  print_result result.

Definition cmd_get_page (target : string) : Cmd unit :=
  client <- get_client ;;
  page_id <- resolve_target target ;;
  page <- call client (PagesRetrieve page_id) ;;
  print_result page.

(** The parsed command line: one constructor per subcommand, with its
    flags ([None] when a flag is absent). *)
Inductive command :=
| CreatePage (target : string) (template title : option string)
| CreateDb (target : string) (template title : option string)
| UpdatePage (target : string) (properties : jarg)
| QueryDb (target : string) (filter sorts : option jarg)
| AppendBlocks (target : string) (blocks : jarg)
| GetPage (target : string).

(** [args.func(args)]. *)
Definition main (c : command) : Cmd unit :=
  match c with
  | CreatePage t tm ti => cmd_create_page t tm ti
  | CreateDb t tm ti => cmd_create_db t tm ti
  | UpdatePage t p => cmd_update_page t p
  | QueryDb t f s => cmd_query_db t f s
  | AppendBlocks t b => cmd_append_blocks t b
  | GetPage t => cmd_get_page t
  end.

(** ** Definitions used by the statements *)

(** The end of every handler: one request, then its answer printed, or the
    exception the client raises. *)
Definition request_then_print (pre : list event) (token : string) (c : api_call) (w : world)
    : list event * (exc + unit) :=
  match api w token c with
  | inl e => (pre ++ [ECall token c], inl e)
  | inr r => (pre ++ [ECall token c; EStdout [SDump r]], inr tt)
  end.

(** A fixture: a checkout with one page template and no config. *)
Definition page_template : json :=
  JObject [("object", JString "page");
           ("properties", JObject [("title", JString "{{PROJECT_NAME}}")])].

Definition nc_world : world := {|
  environ := {[ "NOTION_API_TOKEN" := "secret-token" ]};
  dotenv := ∅;
  files := {[ "/repo/templates/page.json" := FFile (Some page_template) ]};
  root := "/repo";
  today := "2026-11-09";
  api := fun _ _ => inr (JObject [("object", JString "page"); ("id", JString "p1")])
|}.

Definition nc_world_no_token : world :=
  {| environ := ∅; dotenv := ∅; files := files nc_world; root := root nc_world;
     today := today nc_world; api := api nc_world |}.

Definition raw_target : string := "a1b2c3d4e5f67890abcdef1234567890".

(** ** [resolve_target] meets the resolver contract *)

#[export] Instance notion_client_resolver : TargetResolver resolve_target.
Proof.
  split.
  - intros w name H. unfold resolve_target. by rewrite H.
  - intros w name H Hf. unfold resolve_target, load_config. run. done.
  - intros w name cfg t e H Hf Ht He. unfold resolve_target, load_config.
    assert (Hin : bool_decide (name ∈ dict_keys t) = true).
    { apply bool_decide_eq_true_2. by eapply dict_lookup_keys. }
    run. by destruct (py_getitem e "id").
  - intros w name cfg t H Hf Ht Hn. unfold resolve_target, load_config.
    assert (Hin : bool_decide (name ∈ dict_keys t) = false) by (by apply bool_decide_eq_false_2).
    run. destruct (dict_lookup "targets" cfg) as [tg|]; simpl in Ht; subst; run; done.
Qed.

(** ** The handlers *)

Lemma get_client_no_token w :
  default "" (env_value w "NOTION_API_TOKEN") = "" ->
  get_client w = ([EGetEnv "NOTION_API_TOKEN"; EStderr token_missing_msg], inl (SystemExit 1)).
Proof.
  intros H. unfold get_client. destruct (env_value w "NOTION_API_TOKEN") as [t|] eqn:E;
    simpl in H; [subst|]; run; done.
Qed.

Lemma get_client_token w t :
  env_value w "NOTION_API_TOKEN" = Some t -> t <> "" -> get_client w = ([EGetEnv "NOTION_API_TOKEN"], inr t).
Proof.
  intros H Hne. assert (Hb : bool_decide (t = "") = false) by (by apply bool_decide_eq_false_2).
  unfold get_client. run. done.
Qed.

(** C18: every subcommand checks the token first: without a usable one the
    run stops with status 1 before any file is read or request sent. *)
Theorem dispatch_no_token c w :
  default "" (env_value w "NOTION_API_TOKEN") = "" ->
  main c w = ([EGetEnv "NOTION_API_TOKEN"; EStderr token_missing_msg], inl (SystemExit 1)).
Proof.
  intros H. destruct c; cbn [main];
    unfold cmd_create_page, cmd_create_db, cmd_update_page, cmd_query_db, cmd_append_blocks, cmd_get_page;
    apply bind_err, get_client_no_token, H.
Qed.

Lemma dispatch_no_token_witness :
  default "" (env_value nc_world_no_token "NOTION_API_TOKEN") = "" /\
  main (GetPage "project-db") nc_world_no_token =
    ([EGetEnv "NOTION_API_TOKEN"; EStderr token_missing_msg], inl (SystemExit 1)).
Proof. split; [reflexivity|]. apply dispatch_no_token. reflexivity. Defined.

(** C19: [create-page] with a template sends the template as it is read,
    only [parent] set: placeholders are not substituted and an [object]
    field is forwarded. *)
Theorem cmd_create_page_template w target tm title t f :
  env_value w "NOTION_API_TOKEN" = Some t -> t <> "" -> looks_like_id target = true ->
  tm <> "" -> files w !! template_path w tm = Some (FFile (Some (JObject f))) ->
  cmd_create_page target (Some tm) title w =
    request_then_print [EGetEnv "NOTION_API_TOKEN"; EExists (template_path w tm); EOpen (template_path w tm)]
      t (PagesCreate (dict_setitem "parent" (JObject [("page_id", JString target)]) f)) w.
Proof.
  intros Ht Hne Hraw Htm Hf.
  assert (Hc := get_client_token w t Ht Hne). assert (Hr := resolve_raw_id w _ Hraw).
  assert (Hb : bool_decide (tm = "") = false) by (by apply bool_decide_eq_false_2).
  unfold cmd_create_page, load_template, truthy, request_then_print, print_result. run.
  by destruct (api w t _).
Qed.

Lemma cmd_create_page_template_witness :
  env_value nc_world "NOTION_API_TOKEN" = Some "secret-token" /\
  looks_like_id raw_target = true /\
  files nc_world !! template_path nc_world "page" =
    Some (FFile (Some (JObject [("object", JString "page");
                                ("properties", JObject [("title", JString "{{PROJECT_NAME}}")])]))) /\
  cmd_create_page raw_target (Some "page") None nc_world =
    request_then_print [EGetEnv "NOTION_API_TOKEN"; EExists (template_path nc_world "page");
                        EOpen (template_path nc_world "page")]
      "secret-token"
      (PagesCreate (dict_setitem "parent" (JObject [("page_id", JString raw_target)])
                      [("object", JString "page");
                       ("properties", JObject [("title", JString "{{PROJECT_NAME}}")])])) nc_world.
Proof.
  split; [reflexivity|]. split; [reflexivity|]. split; [reflexivity|].
  apply cmd_create_page_template; [reflexivity|discriminate|reflexivity|discriminate|reflexivity].
Defined.

(** C20: [create-db] with a template sends it with [parent] set and
    [object] removed. *)
Theorem cmd_create_db_template w target tm title t f :
  env_value w "NOTION_API_TOKEN" = Some t -> t <> "" -> looks_like_id target = true ->
  tm <> "" -> files w !! template_path w tm = Some (FFile (Some (JObject f))) ->
  cmd_create_db target (Some tm) title w =
    request_then_print [EGetEnv "NOTION_API_TOKEN"; EExists (template_path w tm); EOpen (template_path w tm)]
      t (DatabasesCreate (dict_delete "object" (dict_setitem "parent" (JObject [("page_id", JString target)]) f))) w.
Proof.
  intros Ht Hne Hraw Htm Hf.
  assert (Hc := get_client_token w t Ht Hne). assert (Hr := resolve_raw_id w _ Hraw).
  assert (Hb : bool_decide (tm = "") = false) by (by apply bool_decide_eq_false_2).
  unfold cmd_create_db, load_template, truthy, request_then_print, print_result. run.
  by destruct (api w t _).
Qed.

Lemma cmd_create_db_template_witness :
  env_value nc_world "NOTION_API_TOKEN" = Some "secret-token" /\
  cmd_create_db raw_target (Some "page") None nc_world =
    request_then_print [EGetEnv "NOTION_API_TOKEN"; EExists (template_path nc_world "page");
                        EOpen (template_path nc_world "page")]
      "secret-token"
      (DatabasesCreate (dict_delete "object" (dict_setitem "parent" (JObject [("page_id", JString raw_target)])
                      [("object", JString "page");
                       ("properties", JObject [("title", JString "{{PROJECT_NAME}}")])]))) nc_world.
Proof.
  split; [reflexivity|].
  apply cmd_create_db_template; [reflexivity|discriminate|reflexivity|discriminate|reflexivity].
Defined.

(** C21: [update-page] with properties that do not parse stops with the
    decoding error before any request is sent. *)
Theorem cmd_update_page_malformed w target p t :
  env_value w "NOTION_API_TOKEN" = Some t -> t <> "" -> looks_like_id target = true ->
  jparsed p = None ->
  cmd_update_page target p w = ([EGetEnv "NOTION_API_TOKEN"], inl JSONDecodeError).
Proof.
  intros Ht Hne Hraw Hp.
  assert (Hc := get_client_token w t Ht Hne). assert (Hr := resolve_raw_id w _ Hraw).
  unfold cmd_update_page, json_loads. run. done.
Qed.

Lemma cmd_update_page_malformed_witness :
  env_value nc_world "NOTION_API_TOKEN" = Some "secret-token" /\
  cmd_update_page raw_target {| jtext := "{not json"; jparsed := None |} nc_world =
    ([EGetEnv "NOTION_API_TOKEN"], inl JSONDecodeError).
Proof.
  split; [reflexivity|].
  apply (cmd_update_page_malformed _ _ _ "secret-token"); [reflexivity|discriminate|reflexivity|reflexivity].
Defined.

(** ** [query-db] *)

(** C26: [query-db] with a filter and sorts given as valid JSON sends one
    query whose keyword arguments are [database_id], [filter], [sorts], in
    this order. *)
Theorem cmd_query_db_request w target t fx sx jf js :
  env_value w "NOTION_API_TOKEN" = Some t -> t <> "" -> looks_like_id target = true ->
  jtext fx <> "" -> jparsed fx = Some jf -> jtext sx <> "" -> jparsed sx = Some js ->
  cmd_query_db target (Some fx) (Some sx) w =
    request_then_print [EGetEnv "NOTION_API_TOKEN"] t
      (DatabasesQuery [("database_id", JString target); ("filter", jf); ("sorts", js)]) w.
Proof.
  intros Ht Hne Hraw Hf Hjf Hs Hjs.
  assert (Hc := get_client_token w t Ht Hne). assert (Hr := resolve_raw_id w _ Hraw).
  assert (Hbf : bool_decide (jtext fx = "") = false) by (by apply bool_decide_eq_false_2).
  assert (Hbs : bool_decide (jtext sx = "") = false) by (by apply bool_decide_eq_false_2).
  unfold cmd_query_db, set_if_given, json_loads, request_then_print, print_result. run.
  by destruct (api w t _).
Qed.

Lemma cmd_query_db_request_witness :
  env_value nc_world "NOTION_API_TOKEN" = Some "secret-token" /\
  cmd_query_db raw_target (Some {| jtext := "{}"; jparsed := Some (JObject []) |})
    (Some {| jtext := "[]"; jparsed := Some (JArray []) |}) nc_world =
    request_then_print [EGetEnv "NOTION_API_TOKEN"] "secret-token"
      (DatabasesQuery [("database_id", JString raw_target); ("filter", JObject []); ("sorts", JArray [])])
      nc_world.
Proof.
  split; [reflexivity|].
  apply cmd_query_db_request; [reflexivity|discriminate|reflexivity|discriminate|reflexivity|discriminate|reflexivity].
Defined.

(** C27: an empty [--filter] is skipped by the truthiness test before any
    parsing: the query is sent without a filter, although [""] is not JSON. *)
Theorem cmd_query_db_empty_filter w target t p :
  env_value w "NOTION_API_TOKEN" = Some t -> t <> "" -> looks_like_id target = true ->
  cmd_query_db target (Some {| jtext := ""; jparsed := p |}) None w =
    request_then_print [EGetEnv "NOTION_API_TOKEN"] t
      (DatabasesQuery [("database_id", JString target)]) w.
Proof.
  intros Ht Hne Hraw.
  assert (Hc := get_client_token w t Ht Hne). assert (Hr := resolve_raw_id w _ Hraw).
  assert (Hb : bool_decide ("" = "") = true) by (by apply bool_decide_eq_true_2).
  unfold cmd_query_db, set_if_given, request_then_print, print_result. run.
  by destruct (api w t _).
Qed.

Lemma cmd_query_db_empty_filter_witness :
  env_value nc_world "NOTION_API_TOKEN" = Some "secret-token" /\
  cmd_query_db raw_target (Some {| jtext := ""; jparsed := None |}) None nc_world =
    request_then_print [EGetEnv "NOTION_API_TOKEN"] "secret-token"
      (DatabasesQuery [("database_id", JString raw_target)]) nc_world.
Proof.
  split; [reflexivity|]. apply cmd_query_db_empty_filter; [reflexivity|discriminate|reflexivity].
Defined.

(** ** Default bodies, [append-blocks] and [get-page] *)

(** C31: without a template (none given, or an empty one), [create-page]
    and [create-db] send their literal default bodies with [parent] added
    last, the title falling back to ["Untitled"] / ["Untitled Database"]
    when [--title] is absent or empty. *)
Theorem cmd_create_default_bodies w target tm title t :
  env_value w "NOTION_API_TOKEN" = Some t -> t <> "" -> looks_like_id target = true ->
  truthy tm = None ->
  cmd_create_page target tm title w =
    request_then_print [EGetEnv "NOTION_API_TOKEN"] t
      (PagesCreate [("properties", JObject [("title", JObject [("title",
                      JArray [JObject [("type", JString "text");
                        ("text", JObject [("content", JString (title_or title "Untitled"))])]])])]);
                    ("children", JArray []);
                    ("parent", JObject [("page_id", JString target)])]) w /\
  cmd_create_db target tm title w =
    request_then_print [EGetEnv "NOTION_API_TOKEN"] t
      (DatabasesCreate [("title", JArray [JObject [("type", JString "text");
                          ("text", JObject [("content", JString (title_or title "Untitled Database"))])]]);
                        ("properties", JObject [("Name", JObject [("title", JObject [])])]);
                        ("parent", JObject [("page_id", JString target)])]) w.
Proof.
  intros Ht Hne Hraw Htm.
  assert (Hc := get_client_token w t Ht Hne). assert (Hr := resolve_raw_id w _ Hraw).
  unfold cmd_create_page, cmd_create_db, request_then_print, print_result.
  split; run; by destruct (api w t _).
Qed.

Lemma cmd_create_default_bodies_witness :
  env_value nc_world "NOTION_API_TOKEN" = Some "secret-token" /\
  truthy (Some "") = None /\ title_or (Some "") "Untitled" = "Untitled" /\
  (cmd_create_page raw_target (Some "") (Some "") nc_world =
    request_then_print [EGetEnv "NOTION_API_TOKEN"] "secret-token"
      (PagesCreate [("properties", JObject [("title", JObject [("title",
                      JArray [JObject [("type", JString "text");
                        ("text", JObject [("content", JString (title_or (Some "") "Untitled"))])]])])]);
                    ("children", JArray []);
                    ("parent", JObject [("page_id", JString raw_target)])]) nc_world /\
  cmd_create_db raw_target (Some "") (Some "") nc_world =
    request_then_print [EGetEnv "NOTION_API_TOKEN"] "secret-token"
      (DatabasesCreate [("title", JArray [JObject [("type", JString "text");
                          ("text", JObject [("content", JString (title_or (Some "") "Untitled Database"))])]]);
                        ("properties", JObject [("Name", JObject [("title", JObject [])])]);
                        ("parent", JObject [("page_id", JString raw_target)])]) nc_world).
Proof.
  split; [reflexivity|]. split; [reflexivity|]. split; [reflexivity|].
  apply cmd_create_default_bodies; [reflexivity|discriminate|reflexivity|reflexivity].
Defined.

(** C32: [append-blocks] with blocks that parse sends one
    [blocks.children.append] to the resolved page with the parsed blocks,
    and [get-page] one [pages.retrieve]; each prints the answer. *)
Theorem cmd_append_get_request w target blocks children t :
  env_value w "NOTION_API_TOKEN" = Some t -> t <> "" -> looks_like_id target = true ->
  jparsed blocks = Some children ->
  cmd_append_blocks target blocks w =
    request_then_print [EGetEnv "NOTION_API_TOKEN"] t (BlocksChildrenAppend (JString target) children) w /\
  cmd_get_page target w =
    request_then_print [EGetEnv "NOTION_API_TOKEN"] t (PagesRetrieve (JString target)) w.
Proof.
  intros Ht Hne Hraw Hb.
  assert (Hc := get_client_token w t Ht Hne). assert (Hr := resolve_raw_id w _ Hraw).
  unfold cmd_append_blocks, cmd_get_page, json_loads, request_then_print, print_result.
  split; run; by destruct (api w t _).
Qed.

Lemma cmd_append_get_request_witness :
  env_value nc_world "NOTION_API_TOKEN" = Some "secret-token" /\
  cmd_append_blocks raw_target {| jtext := "[]"; jparsed := Some (JArray []) |} nc_world =
    request_then_print [EGetEnv "NOTION_API_TOKEN"] "secret-token"
      (BlocksChildrenAppend (JString raw_target) (JArray [])) nc_world /\
  cmd_get_page raw_target nc_world =
    request_then_print [EGetEnv "NOTION_API_TOKEN"] "secret-token" (PagesRetrieve (JString raw_target)) nc_world.
Proof.
  split; [reflexivity|].
  apply (cmd_append_get_request _ _ _ _ "secret-token"); [reflexivity|discriminate|reflexivity|reflexivity].
Defined.

(** ** Malformed configurations *)

(** C33: a config file whose document is not a dict (a list, a string, a
    number) makes [config.get("targets", {})] raise [AttributeError] right
    after the read, instead of one of the spec's errors. *)
Theorem resolve_target_config_not_dict w name cfg :
  looks_like_id name = false ->
  files w !! config_path w = Some (FFile (Some cfg)) -> (forall f, cfg <> JObject f) ->
  resolve_target name w = ([EExists (config_path w); EOpen (config_path w)], inl AttributeError).
Proof.
  intros Hid Hf Hnd. unfold resolve_target, load_config. run.
  destruct cfg as [| | | | | |f]; try done. by destruct (Hnd f).
Qed.

Lemma resolve_target_config_not_dict_witness :
  let w := {| environ := ∅; dotenv := ∅; root := "/repo"; today := "2026-11-09"; api := api nc_world;
              files := {[ "/repo/notion-config.json" := FFile (Some (JArray [])) ]} |} in
  looks_like_id "project-db" = false /\
  resolve_target "project-db" w = ([EExists (config_path w); EOpen (config_path w)], inl AttributeError).
Proof.
  intros w. split; [reflexivity|].
  apply (resolve_target_config_not_dict w _ (JArray [])); [reflexivity|reflexivity|discriminate].
Defined.

(** C34: a [targets] entry that is a string turns [name in targets] into a
    substring test: a name inside the string raises [TypeError] on
    [targets[name]], any other prints the first error line and raises
    [AttributeError] on [targets.keys()], so the list of available targets
    is never printed. *)
Theorem resolve_target_targets_str w name f s :
  looks_like_id name = false ->
  files w !! config_path w = Some (FFile (Some (JObject f))) ->
  dict_lookup "targets" f = Some (JString s) ->
  resolve_target name w =
    if PyStr.str_contains s name
    then ([EExists (config_path w); EOpen (config_path w)], inl TypeError)
    else ([EExists (config_path w); EOpen (config_path w); EStderr (target_not_found_msg name)],
          inl AttributeError).
Proof.
  intros Hid Hf Ht. unfold resolve_target, load_config. run.
  by destruct (PyStr.str_contains s name).
Qed.

Lemma resolve_target_targets_str_witness :
  let w := {| environ := ∅; dotenv := ∅; root := "/repo"; today := "2026-11-09"; api := api nc_world;
              files := {[ "/repo/notion-config.json" :=
                            FFile (Some (JObject [("targets", JString "project-db, docs")])) ]} |} in
  looks_like_id "docs" = false /\ PyStr.str_contains "project-db, docs" "docs" = true /\
  resolve_target "docs" w = ([EExists (config_path w); EOpen (config_path w)], inl TypeError).
Proof.
  intros w. split; [reflexivity|]. split; [reflexivity|].
  apply (resolve_target_targets_str w "docs" [("targets", JString "project-db, docs")] "project-db, docs");
    reflexivity.
Defined.

(** ** The two copies of [resolve_target] *)

(** C7: the two copies of [resolve_target] (notion_client.py through
    [load_config], create_project.py inline) produce the same trace and the
    same result on every world and every name. *)
Theorem resolve_target_same (name : string) (w : world) :
  NotionClient.resolve_target name w = CreateProject.resolve_target name w.
Proof.
  unfold NotionClient.resolve_target, CreateProject.resolve_target, NotionClient.load_config.
  destruct (looks_like_id name); [done|].
  rewrite (bind_assoc ask), !bind_ask, (bind_assoc (path_exists _)).
  apply bind_ext. by intros [|].
Qed.

End NotionClient.
