(* ===== verification/Trace.v ===== *)
(** * Trace: the order of the I/O a run performs

    Spec section 5 promises that an invocation performs at most one
    configuration read, one template read, one network request and one
    stdout write, in that order.  This file states that order as a finite
    automaton over the [event]s of [Io] ([step], [steps]) and proves it of
    every run of notion_client.py with a weakest-precondition calculus on
    [Cmd] ([wp], the rules [wp_bind], [wp_ret], ... in the style of a Hoare
    state monad): each function of [NotionClient] gets a specification from
    one stage of the automaton to the next, and the handlers compose them.
    The counting bounds follow from one budget lemma ([steps_budget]) taken
    at three cost functions.  create_project.py does not follow the order:
    its banner is written before the template is read. *)

From S2P Require Import Prelude PyStr Json Io Resolver CreateProject NotionClient.
From stdpp Require Import gmap.
Import Json Io Resolver.
Import (hints) CreateProject NotionClient.

Module Trace.

(** The stages of a run, in the order spec section 5 gives: before the
    token is read, after it, after the config is tested and read, after a
    template file is tested ([TplExists] remembers its path) and read,
    after the request, after the answer is printed; [Failed] once an error
    line has been written, after which only error lines may follow. *)
Inductive stage :=
| Start | Token | CfgExists | CfgRead | TplExists (path : string) | TplRead
| Called | Printed | Failed.

(** One event from one stage; [cfg] is the configuration path. *)
Definition step (cfg : string) (s : stage) (e : event) : option stage :=
  match s, e with
  | Start, EGetEnv n => if bool_decide (n = "NOTION_API_TOKEN") then Some Token else None
  | Token, EExists p => Some (if bool_decide (p = cfg) then CfgExists else TplExists p)
  | CfgExists, EOpen p => if bool_decide (p = cfg) then Some CfgRead else None
  | CfgRead, EExists p => Some (TplExists p)
  | TplExists p, EOpen q => if bool_decide (q = p) then Some TplRead else None
  | (Token | CfgRead | TplRead), ECall _ _ => Some Called
  | Called, EStdout _ => Some Printed
  | Start, EStderr _ => None
  | _, EStderr _ => Some Failed
  | _, _ => None
  end.

Fixpoint steps (cfg : string) (s : stage) (t : list event) : option stage :=
  match t with
  | [] => Some s
  | e :: t' => match step cfg s e with Some s' => steps cfg s' t' | None => None end
  end.

(** A trace in the order of spec section 5. *)
Definition ordered (w : world) (t : list event) : Prop :=
  is_Some (steps (config_path w) Start t).

(** The weakest precondition of [m] for [Q] and [E] at stage [s] in world
    [w]: the trace [m] writes is accepted from [s] and, when [m] returns [a],
    [Q] holds of [a] and the stage reached; when it raises [e], [E] holds of
    [e] and that stage. *)
Definition wp {A} (w : world) (E : exc -> stage -> Prop) (m : Cmd A) (Q : A -> stage -> Prop)
    (s : stage) : Prop :=
  let '(t, r) := m w in
  match steps (config_path w) s t with
  | Some s' => match r with inr a => Q a s' | inl e => E e s' end
  | None => False
  end.

(** [sys.exit(n)], as opposed to an exception raised by a call. *)
Definition is_exit (e : exc) : bool := match e with SystemExit _ => true | _ => false end.

(** The error postcondition of spec section 7: an exit has status 1 and is
    taken after an error line. *)
Definition reported (e : exc) (s : stage) : Prop :=
  match e with SystemExit n => n = 1 /\ s = Failed | _ => True end.

(** The stages a resolution may end in, and those a request may leave. *)
Definition resolved (s : stage) : Prop := s = Token \/ s = CfgRead.
Definition ready (s : stage) : Prop := resolved s \/ s = TplRead.

(** Event counters and the budget of each stage for them. *)
Definition is_open (e : event) : nat := match e with EOpen _ => 1 | _ => 0 end.
Definition is_request (e : event) : nat := match e with ECall _ _ => 1 | _ => 0 end.
Definition is_stdout (e : event) : nat := match e with EStdout _ => 1 | _ => 0 end.

Definition open_budget (s : stage) : nat :=
  match s with
  | Start | Token | CfgExists => 2
  | CfgRead | TplExists _ => 1
  | _ => 0
  end.

Definition request_budget (s : stage) : nat :=
  match s with Called | Printed | Failed => 0 | _ => 1 end.

Definition stdout_budget (s : stage) : nat :=
  match s with Printed | Failed => 0 | _ => 1 end.

Definition count (cost : event -> nat) (t : list event) : nat := sum_list_with cost t.

(** ** The automaton *)

Lemma steps_app cfg s t1 t2 :
  steps cfg s (t1 ++ t2) = match steps cfg s t1 with Some s' => steps cfg s' t2 | None => None end.
Proof.
  revert s. induction t1 as [|e t1 IH]; intros s; simpl; [done|].
  destruct (step cfg s e); [apply IH | done].
Qed.

#[export] Hint Rewrite steps_app : pyrw.

(** Each event costs at most what its step takes off a budget: then a whole
    accepted trace costs at most the budget of its first stage. *)
Section Budget.
Context (cfg : string) (cost : event -> nat) (budget : stage -> nat).
Hypothesis step_budget : forall s e s', step cfg s e = Some s' -> cost e + budget s' <= budget s.

Lemma steps_budget s t s' : steps cfg s t = Some s' -> count cost t + budget s' <= budget s.
Proof.
  unfold count. revert s. induction t as [|e t IH]; intros s; simpl.
  - intros [= ->]. lia.
  - destruct (step cfg s e) as [s1|] eqn:E; [|done].
    intros H. specialize (IH _ H). specialize (step_budget _ _ _ E). lia.
Qed.
End Budget.

(** The case analysis of one [step]. *)
Ltac step_cases :=
  intros s e s'; destruct s, e; cbn [step]; repeat case_bool_decide; intros; simplify_eq; cbn; lia.

Lemma open_step cfg : forall s e s', step cfg s e = Some s' -> is_open e + open_budget s' <= open_budget s.
Proof. step_cases. Qed.

Lemma request_step cfg : forall s e s', step cfg s e = Some s' -> is_request e + request_budget s' <= request_budget s.
Proof. step_cases. Qed.

Lemma stdout_step cfg : forall s e s', step cfg s e = Some s' -> is_stdout e + stdout_budget s' <= stdout_budget s.
Proof. step_cases. Qed.

(** ** The rules of [wp] *)

Section Rules.
Context (w : world) (E : exc -> stage -> Prop).
Implicit Types (s : stage).

Lemma wp_mono {A} (m : Cmd A) (Q Q' : A -> stage -> Prop) s :
  (forall a s', Q a s' -> Q' a s') -> wp w E m Q s -> wp w E m Q' s.
Proof.
  unfold wp. intros HQ. destruct (m w) as [t [e|a]]; destruct (steps _ s t); auto.
Qed.

Lemma wp_bind {A B} (m : Cmd A) (k : A -> Cmd B) (Q : B -> stage -> Prop) s :
  wp w E m (fun a s' => wp w E (k a) Q s') s -> wp w E (bind m k) Q s.
Proof.
  unfold wp, bind. destruct (m w) as [t1 [e|a]]; [done|].
  destruct (k a w) as [t2 r]. rewrite steps_app. by destruct (steps _ s t1).
Qed.

(** Sequencing through the specification of the first computation. *)
Lemma wp_seq {A B} (m : Cmd A) (k : A -> Cmd B) (P : A -> stage -> Prop) (Q : B -> stage -> Prop) s :
  wp w E m P s -> (forall a s', P a s' -> wp w E (k a) Q s') -> wp w E (bind m k) Q s.
Proof. intros Hm Hk. apply wp_bind. by eapply wp_mono. Qed.

Lemma wp_ret {A} (a : A) (Q : A -> stage -> Prop) s : Q a s -> wp w E (ret a) Q s.
Proof. done. Qed.

Lemma wp_raise {A} e (Q : A -> stage -> Prop) s : E e s -> wp w E (raise e) Q s.
Proof. done. Qed.

Lemma wp_lift {A} (r : exc + A) (Q : A -> stage -> Prop) s :
  (forall a, r = inr a -> Q a s) -> (forall e, r = inl e -> E e s) -> wp w E (lift r) Q s.
Proof. unfold wp, lift. destruct r; simpl; auto. Qed.

Lemma wp_ask (Q : world -> stage -> Prop) s : Q w s -> wp w E ask Q s.
Proof. done. Qed.

Lemma wp_emit e (Q : unit -> stage -> Prop) s s' :
  step (config_path w) s e = Some s' -> Q tt s' -> wp w E (emit e) Q s.
Proof. unfold wp, emit. simpl. by intros ->. Qed.

(** An error line followed by an exception, from any stage but [Start]. *)
Lemma wp_fail {A} line e (Q : A -> stage -> Prop) s :
  s <> Start -> E e Failed -> wp w E (_ <- eprint line ;; raise e) Q s.
Proof. intros Hs HE. apply wp_bind. eapply wp_emit; [|by apply wp_raise]. by destruct s. Qed.

Lemma wp_getenv name (Q : option string -> stage -> Prop) s s' :
  step (config_path w) s (EGetEnv name) = Some s' -> (forall v, Q v s') -> wp w E (getenv name) Q s.
Proof. unfold wp, getenv. simpl. intros -> HQ. apply HQ. Qed.

Lemma wp_path_exists p (Q : bool -> stage -> Prop) s s' :
  step (config_path w) s (EExists p) = Some s' -> (forall b, Q b s') -> wp w E (path_exists p) Q s.
Proof. unfold wp, path_exists. simpl. intros -> HQ. apply HQ. Qed.

Lemma wp_load_json_file p (Q : json -> stage -> Prop) s s' :
  step (config_path w) s (EOpen p) = Some s' -> (forall j, Q j s') ->
  (forall e, is_exit e = false -> E e s') -> wp w E (load_json_file p) Q s.
Proof.
  unfold wp, load_json_file. simpl. intros -> HQ HE.
  destruct (files w !! p) as [[|[j|]]|]; auto.
Qed.

Lemma wp_call token c (Q : json -> stage -> Prop) s s' :
  step (config_path w) s (ECall token c) = Some s' -> (forall j, Q j s') ->
  (forall e, api w token c = inl e -> E e s') -> wp w E (call token c) Q s.
Proof. unfold wp, call. simpl. intros -> HQ HE. destruct (api w token c) eqn:?; auto. Qed.

End Rules.

(** [wp_auto] applies the rule of the head of the computation until a
    postcondition, a stage test, an error postcondition or a world fact is
    left. *)
Ltac step_solve :=
  cbn [step]; repeat (rewrite bool_decide_true by congruence); reflexivity.

Ltac wp_auto :=
  repeat (intros; cbv beta in *; subst; lazymatch goal with
  | |- wp _ _ _ _ (if bool_decide ?P then _ else _) =>
      first [rewrite (bool_decide_true P) by congruence | case_bool_decide]
  | |- wp _ _ (bind (eprint _) (fun _ => raise _)) _ _ => apply wp_fail; [discriminate|]
  | |- wp _ _ (bind _ _) _ _ => apply wp_bind
  | |- wp _ _ (ret _) _ _ => apply wp_ret
  | |- wp _ _ (raise _) _ _ => apply wp_raise
  | |- wp _ _ (lift _) _ _ => apply wp_lift
  | |- wp _ _ ask _ _ => apply wp_ask
  | |- wp _ _ (eprint _) _ _ => eapply wp_emit; [step_solve|]
  | |- wp _ _ (print _) _ _ => eapply wp_emit; [step_solve|]
  | |- wp _ _ (getenv _) _ _ => eapply wp_getenv; [step_solve|]
  | |- wp _ _ (path_exists _) _ _ => eapply wp_path_exists; [step_solve|]
  | |- wp _ _ (load_json_file _) _ _ => eapply wp_load_json_file; [step_solve|..]
  | |- wp _ _ (call _ _) _ _ => eapply wp_call; [step_solve|..]
  | |- wp _ _ (if ?b then _ else _) _ _ => destruct b
  | |- wp _ _ (match ?x with _ => _ end) _ _ => destruct x
  end); intros; cbv beta in *; subst; try done.

(** The dict operations and [json.loads] raise Python exceptions, never an
    exit: [not_exit] reads that off the definitions. *)
Ltac not_exit :=
  match goal with
  | H : _ = inl ?e |- is_exit ?e = false =>
      revert H; unfold py_getitem, py_get, py_contains, py_keys, py_setitem, py_pop_none, as_kwargs,
        NotionClient.json_loads, NotionClient.set_if_given;
      repeat case_match; intros; unfold NotionClient.json_loads in *;
      repeat case_match; simplify_eq; done
  end.

(** ** Specifications of the functions of notion_client.py *)

Section Specs.
Context (w : world) (E : exc -> stage -> Prop).
(** The error postcondition accepts the exits the scripts take, any
    exception of a library call, and whatever the service raises. *)
Hypothesis E_exit : E (SystemExit 1) Failed.
Hypothesis E_exc : forall e s, is_exit e = false -> E e s.
Hypothesis E_api : forall t c e s, api w t c = inl e -> E e s.

(** The error goals [wp_auto] leaves. *)
Ltac close_E :=
  intros; first
    [ apply E_exit
    | eapply E_api; eassumption
    | apply E_exc; assumption
    | apply E_exc; not_exit ].

Lemma get_client_wp : wp w E NotionClient.get_client (fun _ s => s = Token) Start.
Proof. unfold NotionClient.get_client. wp_auto; close_E. Qed.

Lemma load_config_wp : wp w E NotionClient.load_config (fun _ s => s = CfgRead) Token.
Proof. unfold NotionClient.load_config. wp_auto; close_E. Qed.

Lemma resolve_target_wp name : wp w E (NotionClient.resolve_target name) (fun _ s => resolved s) Token.
Proof.
  unfold NotionClient.resolve_target. destruct (looks_like_id name).
  - wp_auto. by left.
  - eapply wp_seq; [apply load_config_wp|]. wp_auto; try close_E. by right.
Qed.

Lemma load_template_wp name s :
  resolved s -> wp w E (NotionClient.load_template name) (fun _ s' => ready s') s.
Proof. unfold NotionClient.load_template, ready, resolved. intros [-> | ->]; wp_auto; auto; close_E. Qed.

(** The end of every handler, from any stage a request may leave. *)
Lemma call_print_wp token c s :
  ready s -> wp w E (result <- call token c ;; NotionClient.print_result result) (fun _ s' => s' = Printed) s.
Proof. unfold NotionClient.print_result. intros [[-> | ->] | ->]; wp_auto; close_E. Qed.

(** Every handler: token, then target, then its own steps. *)
Ltac handler_wp :=
  eapply wp_seq; [apply get_client_wp|]; intros ? ? ->;
  eapply wp_seq; [apply resolve_target_wp|]; intros ? ? ?;
  try (eapply wp_seq with (P := fun _ s' => ready s');
       [match goal with |- wp _ _ (match ?x with _ => _ end) _ _ => destruct x end;
        [by apply load_template_wp | apply wp_ret; by left] |]; intros ? ? ?);
  repeat (apply wp_bind; apply wp_lift; [intros ? _; cbv beta | close_E]);
  apply call_print_wp; unfold ready; auto.

Lemma main_wp c : wp w E (NotionClient.main c) (fun _ s => s = Printed) Start.
Proof.
  destruct c; cbn [NotionClient.main];
    unfold NotionClient.cmd_create_page, NotionClient.cmd_create_db, NotionClient.cmd_update_page,
      NotionClient.cmd_query_db, NotionClient.cmd_append_blocks, NotionClient.cmd_get_page;
    handler_wp.
Qed.

End Specs.

(** What [wp] at [Start] says of the run. *)
Lemma wp_start {A} w E (m : Cmd A) Q :
  wp w E m Q Start ->
  exists s', steps (config_path w) Start (m w).1 = Some s' /\
    (forall a, (m w).2 = inr a -> Q a s') /\ (forall e, (m w).2 = inl e -> E e s').
Proof.
  unfold wp. destruct (m w) as [t r]; simpl. destruct (steps _ _ t) as [s'|]; [|done].
  intros HQ. exists s'. split; [done|]. split; intros ? ->; done.
Qed.

(** [wp_start] for the runs of notion_client.py with no error postcondition. *)
Lemma main_steps c w :
  exists s', steps (config_path w) Start (NotionClient.main c w).1 = Some s' /\
    (forall a, (NotionClient.main c w).2 = inr a -> s' = Printed).
Proof.
  destruct (wp_start w (fun _ _ => True) _ _ (main_wp w _ I (fun _ _ _ => I) (fun _ _ _ _ _ => I) c))
    as (s' & Hs & HQ & _).
  eauto.
Qed.

Lemma steps_None_app cfg s t1 t2 : steps cfg s t1 = None -> steps cfg s (t1 ++ t2) = None.
Proof. rewrite steps_app. by intros ->. Qed.

(** [Failed] is entered by an error line only. *)
Lemma steps_Failed cfg s t :
  s <> Failed -> steps cfg s t = Some Failed -> exists t' l, t = t' ++ [EStderr l].
Proof.
  revert s. induction t as [|e t IH] using rev_ind; intros s Hs; [by intros [= ->]|].
  rewrite steps_app. destruct (steps cfg s t) as [s1|] eqn:E1; [|done]. simpl.
  destruct (step cfg s1 e) eqn:E2; [|done]. intros [= ->].
  destruct s1, e; cbn in E2; repeat case_bool_decide; simplify_eq; eauto.
Qed.

Lemma create_project_get_client_token w t :
  env_value w "NOTION_API_TOKEN" = Some t -> t <> "" ->
  CreateProject.get_client w = ([EGetEnv "NOTION_API_TOKEN"], inr t).
Proof.
  intros H Hne. assert (Hb : bool_decide (t = "") = false) by (by apply bool_decide_eq_false_2).
  unfold CreateProject.get_client. run. done.
Qed.

(** ** The order of the runs *)

(** C28: every run of notion_client.py, whatever the subcommand and the
    world, performs its I/O in the order of spec section 5: the token, then
    at most one config test and read, then at most one template test and
    read, then at most one request, then at most one stdout write, and
    error lines only at the end; a run that returns has sent its request and
    printed the answer. *)
Theorem main_trace_order c w :
  ordered w (NotionClient.main c w).1 /\
  ((NotionClient.main c w).2 = inr tt ->
   steps (config_path w) Start (NotionClient.main c w).1 = Some Printed).
Proof.
  destruct (main_steps c w) as (s' & Hs & HQ). split; [unfold ordered; by rewrite Hs|].
  intros Hr. by rewrite Hs, (HQ _ Hr).
Qed.

(** C29: every run of notion_client.py opens at most two files, sends at
    most one request and writes at most one line on stdout. *)
Theorem main_io_counts c w :
  count is_open (NotionClient.main c w).1 <= 2 /\
  count is_request (NotionClient.main c w).1 <= 1 /\
  count is_stdout (NotionClient.main c w).1 <= 1.
Proof.
  destruct (main_steps c w) as (s' & Hs & _).
  pose proof (steps_budget _ _ _ (open_step _) _ _ _ Hs).
  pose proof (steps_budget _ _ _ (request_step _) _ _ _ Hs).
  pose proof (steps_budget _ _ _ (stdout_step _) _ _ _ Hs).
  cbn in *. lia.
Qed.

(** C30: create_project.py does not follow the order of spec section 5:
    once the token is set and the parent is a raw identifier, its trace
    writes the banner on stdout before any template read, whatever follows. *)
Theorem create_project_unordered (a : CreateProject.args) w t :
  env_value w "NOTION_API_TOKEN" = Some t -> t <> "" -> looks_like_id (CreateProject.a_parent a) = true ->
  ~ ordered w (CreateProject.main a w).1.
Proof.
  intros Ht Hne Hraw. unfold ordered, CreateProject.main.
  rewrite (bind_trace _ _ _ _ _ (create_project_get_client_token w t Ht Hne)).
  rewrite (bind_trace _ _ _ _ _ (resolve_raw_id w _ Hraw)).
  rewrite (bind_trace _ _ _ _ _ (eq_refl : print _ w = ([EStdout _], inr tt))).
  rewrite app_nil_l, app_assoc, steps_None_app; [by intros []|reflexivity].
Qed.

Lemma create_project_unordered_witness :
  env_value CreateProject.demo_world "NOTION_API_TOKEN" = Some "secret-token" /\
  looks_like_id (CreateProject.a_parent CreateProject.demo_args) = true /\
  ~ ordered CreateProject.demo_world (CreateProject.main CreateProject.demo_args CreateProject.demo_world).1.
Proof.
  split; [reflexivity|]. split; [reflexivity|].
  apply (create_project_unordered _ _ "secret-token"); [reflexivity|discriminate|reflexivity].
Defined.

(** ** Exits *)

(** C35: spec section 7 for notion_client.py: a failing run never exits
    with status 0, and a run that stops through [sys.exit] does so right
    after an error line on stderr.  Any other failure is an exception raised
    by a library call (decoding, a dict operation on malformed data) or by
    the service; the hypothesis says the service raises no [SystemExit]. *)
Theorem main_exit_reported c w :
  (forall t cl e, api w t cl = inl e -> is_exit e = false) ->
  forall e, (NotionClient.main c w).2 = inl e ->
  exit_status (A:=unit) (inl e) <> 0 /\
  (is_exit e = true -> exists t l, (NotionClient.main c w).1 = t ++ [EStderr l]).
Proof.
  intros Hapi e He.
  assert (HE : forall e s, is_exit e = false -> reported e s) by (intros [] ? H; simpl in *; congruence || done).
  destruct (wp_start w reported _ _ (main_wp w reported (conj eq_refl eq_refl) HE
              (fun t cl e s H => HE e s (Hapi t cl e H)) c)) as (s' & Hs & _ & HR).
  specialize (HR e He). destruct e; simpl in *; try done.
  destruct HR as [-> ->]. split; [done|]. intros _. apply (steps_Failed (config_path w) Start); [discriminate | exact Hs].
Qed.

Lemma main_exit_reported_witness :
  (forall t cl e, api NotionClient.nc_world_no_token t cl = inl e -> is_exit e = false) /\
  (NotionClient.main (NotionClient.GetPage NotionClient.raw_target) NotionClient.nc_world_no_token).2 = inl (SystemExit 1) /\
  exit_status (A:=unit) (inl (SystemExit 1)) <> 0 /\
  (is_exit (SystemExit 1) = true ->
   exists t l, (NotionClient.main (NotionClient.GetPage NotionClient.raw_target) NotionClient.nc_world_no_token).1 = t ++ [EStderr l]).
Proof.
  assert (H : forall t cl e, api NotionClient.nc_world_no_token t cl = inl e -> is_exit e = false) by (intros ? ? ? [=]).
  split; [exact H|]. split; [reflexivity|].
  exact (main_exit_reported (NotionClient.GetPage NotionClient.raw_target) NotionClient.nc_world_no_token H (SystemExit 1) eq_refl).
Defined.

End Trace.
