(* ===== verification/Heap.v ===== *)
(** * Heap: Python objects with identity, for [create_project_page]

    The other files treat a decoded document as a value.  Python does not:
    [json.load] builds dicts and lists that are mutable objects, [body =
    copy.deepcopy(template)] makes new ones, [replace_placeholders] builds
    new containers, and [body["parent"] = ...], [body["icon"] = ...],
    [body.pop("object", None)] mutate the dict [body] names in place.  This
    file models the objects as a heap (locations to list and dict objects,
    strings and scalars as immediate values), the operations of
    create_project.py lines 78-92 on it, and proves that (1) the body read
    back from the heap is the value [CreateProject.page_body] computes, and
    (2) the template read from the file is left unchanged: spec section 3
    ("substitution never mutates the original loaded template") and the
    testable property "substitute never mutates its input argument".
    Traversals take fuel, the depth of the object graph; the theorems give
    the fuel that is enough. *)

From Stdlib Require Import SpecFloat.
From S2P Require Import Prelude PyStr Json Template CreateProject.
From stdpp Require Import gmap.
Import Json.

Module Heap.

Abbreviation loc := positive.

(** A Python value: an immediate ([None], a bool, a number, a str, which
    are immutable) or a reference to a container object. *)
Inductive val :=
| VNone | VBool (b : bool) | VInt (z : Z) | VFloat (f : spec_float) | VStr (s : string)
| VRef (l : loc).

(** A container object: a list, or a dict in insertion order. *)
Inductive obj := OList (items : list val) | ODict (fields : list (string * val)).

Abbreviation heap := (gmap loc obj).

(** A new object at a location the heap does not use. *)
Definition alloc (o : obj) (h : heap) : loc * heap :=
  let l := fresh (dom h) in (l, <[l := o]> h).

(** The document a value denotes, reading at most [n] levels of objects. *)
Fixpoint to_json (n : nat) (h : heap) (v : val) {struct n} : option json :=
  match v with
  | VNone => Some JNull
  | VBool b => Some (JBool b)
  | VInt z => Some (JInt z)
  | VFloat f => Some (JFloat f)
  | VStr s => Some (JString s)
  | VRef l =>
      match n with
      | 0 => None
      | S n' =>
          match h !! l with
          | Some (OList vs) => JArray <$> mapM (to_json n' h) vs
          | Some (ODict kvs) => JObject <$> mapM (fun kv => pair kv.1 <$> to_json n' h kv.2) kvs
          | None => None
          end
      end
  end.

(** A map over a list that threads the heap, left to right. *)
Fixpoint map_heap {A B} (g : heap -> A -> option (B * heap)) (h : heap) (l : list A)
    : option (list B * heap) :=
  match l with
  | [] => Some ([], h)
  | x :: l' =>
      match g h x with
      | Some (y, h1) =>
          match map_heap g h1 l' with
          | Some (ys, h2) => Some (y :: ys, h2)
          | None => None
          end
      | None => None
      end
  end.

(** The traversal of [replace_placeholders] (lines 65-75) on objects: a
    str goes through [f]; a list and a dict are rebuilt as new objects
    (the list and dict comprehensions), their items in order; any other
    value is returned as it is. *)
Fixpoint rebuild (f : string -> string) (n : nat) (h : heap) (v : val) {struct n} : option (val * heap) :=
  match v with
  | VStr s => Some (VStr (f s), h)
  | VRef l =>
      match n with
      | 0 => None
      | S n' =>
          match h !! l with
          | Some (OList vs) =>
              match map_heap (rebuild f n') h vs with
              | Some (vs', h1) => let '(l', h2) := alloc (OList vs') h1 in Some (VRef l', h2)
              | None => None
              end
          | Some (ODict kvs) =>
              match map_heap (fun h kv => match rebuild f n' h kv.2 with
                                          | Some (v', h') => Some ((kv.1, v'), h')
                                          | None => None
                                          end) h kvs with
              | Some (kvs', h1) => let '(l', h2) := alloc (ODict kvs') h1 in Some (VRef l', h2)
              | None => None
              end
          | None => None
          end
      end
  | _ => Some (v, h)
  end.

(** [replace_placeholders(obj, replacements)]. *)
Definition replace_placeholders_h (replacements : list (string * string)) : nat -> heap -> val -> option (val * heap) :=
  rebuild (Template.substitute_str replacements).

(** [copy.deepcopy(obj)] on a tree of objects (what [json.load] returns):
    every container is copied, immutable values are shared. *)
Definition deepcopy : nat -> heap -> val -> option (val * heap) := rebuild (fun s => s).

(** [obj[k] = x]: a dict is updated in place; any other object or value
    raises [TypeError]. *)
Definition setitem_h (h : heap) (o : val) (k : string) (x : val) : exc + heap :=
  match o with
  | VRef l =>
      match h !! l with
      | Some (ODict kvs) => inr (<[l := ODict (dict_setitem k x kvs)]> h)
      | _ => inl TypeError
      end
  | _ => inl TypeError
  end.

(** [obj.pop(k, None)]: a dict loses [k] in place; a list's [pop] takes one
    argument ([TypeError]); other values have no [pop] ([AttributeError]). *)
Definition pop_none_h (h : heap) (o : val) (k : string) : exc + heap :=
  match o with
  | VRef l =>
      match h !! l with
      | Some (ODict kvs) => inr (<[l := ODict (dict_delete k kvs)]> h)
      | Some (OList _) => inl TypeError
      | None => inl AttributeError
      end
  | _ => inl AttributeError
  end.

(** Lines 81-92 of [create_project_page]: copy, substitute, set [parent]
    and [icon], pop [object]; the result is the body as [**body] reads it
    when [pages.create] is called, and the heap after the call's
    arguments are built. *)
Definition create_project_page_h (n : nat) (h : heap) (template parent_id : val)
    (project_name today icon : string) : option (exc + (json * heap)) :=
  match deepcopy n h template with
  | None => None
  | Some (body, h) =>
      match replace_placeholders_h (CreateProject.replacements project_name today) n h body with
      | None => None
      | Some (body, h) =>
          let '(pd, h) := alloc (ODict [("page_id", parent_id)]) h in
          match setitem_h h body "parent" (VRef pd) with
          | inl e => Some (inl e)
          | inr h =>
              let '(ic, h) := alloc (ODict [("type", VStr "emoji"); ("emoji", VStr icon)]) h in
              match setitem_h h body "icon" (VRef ic) with
              | inl e => Some (inl e)
              | inr h =>
                  match pop_none_h h body "object" with
                  | inl e => Some (inl e)
                  | inr h => match to_json n h body with
                             | Some j => Some (inr (j, h))
                             | None => None
                             end
                  end
              end
          end
      end
  end.

(** The document transformation [rebuild f] performs: [f] on every string,
    the rest as it is. *)
Fixpoint map_strings (f : string -> string) (j : json) : json :=
  match j with
  | JString s => JString (f s)
  | JArray l => JArray (map (map_strings f) l)
  | JObject kvs => JObject (map (fun kv => (kv.1, map_strings f kv.2)) kvs)
  | _ => j
  end.

(** ** The heap grows *)

Lemma alloc_fresh o h : h !! (alloc o h).1 = None.
Proof. unfold alloc. simpl. apply not_elem_of_dom, is_fresh. Qed.

Lemma alloc_subseteq o h : h ⊆ (alloc o h).2.
Proof. apply insert_subseteq, (alloc_fresh o). Qed.

Lemma alloc_lookup o h : (alloc o h).2 !! (alloc o h).1 = Some o.
Proof. unfold alloc. simpl. apply lookup_insert_eq. Qed.

(** Reading a document back is stable under a larger heap and more fuel. *)
Lemma to_json_weaken n h h' v j : h ⊆ h' -> to_json n h v = Some j -> to_json n h' v = Some j.
Proof.
  intros Hh. revert v j. induction n as [|n IH]; intros [] j; simpl; try done.
  destruct (h !! l) as [[vs|kvs]|] eqn:Hl; [| |done]; rewrite (lookup_weaken _ _ _ _ Hl Hh).
  - destruct (mapM _ vs) as [js|] eqn:Hm; [|done]. intros [= <-].
    erewrite mapM_Some_2; [done|]. eapply Forall2_impl; [by apply mapM_Some_1|]. auto.
  - destruct (mapM _ kvs) as [js|] eqn:Hm; [|done]. intros [= <-].
    erewrite mapM_Some_2; [done|]. eapply Forall2_impl; [by apply mapM_Some_1|].
    intros [k v] kj. simpl. destruct (to_json n h v) eqn:Hv; [|done]. by rewrite (IH _ _ Hv).
Qed.

Lemma to_json_ref n h l :
  to_json (S n) h (VRef l) =
  match h !! l with
  | Some (OList vs) => JArray <$> mapM (to_json n h) vs
  | Some (ODict kvs) => JObject <$> mapM (fun kv => pair kv.1 <$> to_json n h kv.2) kvs
  | None => None
  end.
Proof. done. Qed.

Lemma to_json_S n h v j : to_json n h v = Some j -> to_json (S n) h v = Some j.
Proof.
  revert v j. induction n as [|n IH]; intros [] j; try done. rewrite !to_json_ref.
  destruct (h !! l) as [[vs|kvs]|]; [| |done].
  - destruct (mapM _ vs) as [js|] eqn:Hm; [|done]. intros [= <-].
    erewrite mapM_Some_2; [done|]. eapply Forall2_impl; [by apply mapM_Some_1|]. auto.
  - destruct (mapM _ kvs) as [js|] eqn:Hm; [|done]. intros [= <-].
    erewrite mapM_Some_2; [done|]. eapply Forall2_impl; [by apply mapM_Some_1|].
    intros [k v] kj. cbn [fst snd]. destruct (to_json n h v) eqn:Hv; [|done]. by rewrite (IH _ _ Hv).
Qed.

(** A dict object reads back field by field. *)
Lemma to_json_dict n h l kvs kjs :
  h !! l = Some (ODict kvs) ->
  Forall2 (fun kv kj => kv.1 = kj.1 /\ to_json n h kv.2 = Some kj.2) kvs kjs ->
  to_json (S n) h (VRef l) = Some (JObject kjs).
Proof.
  intros Hl Hf. simpl. rewrite Hl. erewrite mapM_Some_2; [done|].
  eapply Forall2_impl; [done|]. intros [k v] [k' j] [-> Hv]. simpl in *. by rewrite Hv.
Qed.

Lemma to_json_dict_inv n h l kvs kj :
  h !! l = Some (ODict kvs) -> to_json (S n) h (VRef l) = Some kj ->
  exists kjs, kj = JObject kjs /\ Forall2 (fun kv kj => kv.1 = kj.1 /\ to_json n h kv.2 = Some kj.2) kvs kjs.
Proof.
  simpl. intros ->. destruct (mapM _ kvs) as [kjs|] eqn:Hm; [|done]. intros [= <-].
  exists kjs. split; [done|]. eapply Forall2_impl; [by apply mapM_Some_1|].
  intros [k v] [k' j]. simpl. destruct (to_json n h v); by intros [= <- <-].
Qed.

(** ** Maps that thread the heap *)

Section MapHeap.
Context {A B C : Type} (g : heap -> A -> option (B * heap)).
Context (R : heap -> A -> C -> Prop) (S : heap -> B -> C -> Prop).
Hypothesis S_weaken : forall h h' y c, h ⊆ h' -> S h y c -> S h' y c.
Hypothesis R_weaken : forall h h' x c, h ⊆ h' -> R h x c -> R h' x c.
Hypothesis g_spec : forall h x c, R h x c -> exists y h', g h x = Some (y, h') /\ h ⊆ h' /\ S h' y c.

Lemma map_heap_spec h xs cs :
  Forall2 (R h) xs cs -> exists ys h', map_heap g h xs = Some (ys, h') /\ h ⊆ h' /\ Forall2 (S h') ys cs.
Proof.
  revert h cs. induction xs as [|x xs IH]; intros h cs Hf; inversion Hf as [|? c ? cs' Hx Hxs]; subst.
  - by exists [], h.
  - destruct (g_spec _ _ _ Hx) as (y & h1 & Hg & Hh1 & Hy).
    destruct (IH h1 cs') as (ys & h2 & Hm & Hh2 & Hys).
    { eapply Forall2_impl; [done|]. eauto. }
    exists (y :: ys), h2. simpl. rewrite Hg, Hm. split; [done|]. split; [by etrans|].
    constructor; eauto.
Qed.
End MapHeap.

Lemma to_json_list n h l vs js :
  h !! l = Some (OList vs) -> Forall2 (fun v j => to_json n h v = Some j) vs js ->
  to_json (S n) h (VRef l) = Some (JArray js).
Proof. intros Hl Hf. rewrite to_json_ref, Hl. by erewrite mapM_Some_2. Qed.

Lemma Forall2_map_r {X Y} (P : X -> Y -> Prop) (g : Y -> Y) xs ys :
  Forall2 (fun x y => P x (g y)) xs ys -> Forall2 P xs (map g ys).
Proof. induction 1; simpl; constructor; auto. Qed.

(** ** [rebuild]: new objects denoting the transformed document *)

Section Rebuild.
Context (f : string -> string) (n : nat).
Hypothesis IHn : forall h v j, to_json n h v = Some j ->
  exists v' h', rebuild f n h v = Some (v', h') /\ h ⊆ h' /\ to_json n h' v' = Some (map_strings f j).

Lemma rebuild_list h l vs js :
  h !! l = Some (OList vs) -> Forall2 (fun v j => to_json n h v = Some j) vs js ->
  exists vs' h1, h ⊆ h1 /\
    rebuild f (S n) h (VRef l) = Some (VRef (alloc (OList vs') h1).1, (alloc (OList vs') h1).2) /\
    Forall2 (fun v j => to_json n h1 v = Some (map_strings f j)) vs' js.
Proof.
  intros Hl Hf.
  destruct (map_heap_spec (rebuild f n) (fun h v j => to_json n h v = Some j)
              (fun h v j => to_json n h v = Some (map_strings f j)))
    with (h := h) (xs := vs) (cs := js) as (vs' & h1 & Hm & Hh1 & Hvs); eauto using to_json_weaken.
  exists vs', h1. split; [done|]. split; [|done]. simpl. by rewrite Hl, Hm.
Qed.

Lemma rebuild_dict h l kvs kjs :
  h !! l = Some (ODict kvs) ->
  Forall2 (fun kv kj => kv.1 = kj.1 /\ to_json n h kv.2 = Some kj.2) kvs kjs ->
  exists kvs' h1, h ⊆ h1 /\
    rebuild f (S n) h (VRef l) = Some (VRef (alloc (ODict kvs') h1).1, (alloc (ODict kvs') h1).2) /\
    Forall2 (fun kv kj => kv.1 = kj.1 /\ to_json n h1 kv.2 = Some (map_strings f kj.2)) kvs' kjs.
Proof.
  intros Hl Hf.
  destruct (map_heap_spec
              (fun (h : heap) (kv : string * val) =>
                 match rebuild f n h kv.2 with Some (v', h') => Some ((kv.1, v'), h') | None => None end)
              (fun h (kv : string * val) (kj : string * json) => kv.1 = kj.1 /\ to_json n h kv.2 = Some kj.2)
              (fun h (kv : string * val) (kj : string * json) => kv.1 = kj.1 /\ to_json n h kv.2 = Some (map_strings f kj.2)))
    with (h := h) (xs := kvs) (cs := kjs) as (kvs' & h1 & Hm & Hh1 & Hkvs).
  - intros ? ? ? ? ? [? ?]. eauto using to_json_weaken.
  - intros ? ? ? ? ? [? ?]. eauto using to_json_weaken.
  - intros h0 [k v] [k' j] [Hk Hv]. destruct (IHn _ _ _ Hv) as (v' & h' & Hr & Hh & Hv').
    exists (k, v'), h'. simpl in *. by rewrite Hr.
  - done.
  - exists kvs', h1. split; [done|]. split; [|done]. simpl. by rewrite Hl, Hm.
Qed.
End Rebuild.

Lemma rebuild_spec f n h v j :
  to_json n h v = Some j ->
  exists v' h', rebuild f n h v = Some (v', h') /\ h ⊆ h' /\ to_json n h' v' = Some (map_strings f j).
Proof.
  revert h v j. induction n as [|n IH]; intros h [] j; try (intros [= <-]; by eexists _, _).
  rewrite to_json_ref. destruct (h !! l) as [[vs|kvs]|] eqn:Hl; [| |done].
  - destruct (mapM _ vs) as [js|] eqn:Hm; [|done]. intros [= <-].
    destruct (rebuild_list f n IH h l vs js Hl (mapM_Some_1 _ _ _ Hm)) as (vs' & h1 & Hh1 & -> & Hvs).
    eexists _, _. split; [done|]. split; [etrans; [apply Hh1|apply alloc_subseteq]|].
    apply to_json_list with vs'; [apply alloc_lookup|]. apply Forall2_map_r.
    eapply Forall2_impl; [done|]. intros ? ?. apply to_json_weaken, alloc_subseteq.
  - destruct (mapM _ kvs) as [kjs|] eqn:Hm; [|done]. intros [= <-].
    assert (Hf : Forall2 (fun kv kj => kv.1 = kj.1 /\ to_json n h kv.2 = Some kj.2) kvs kjs).
    { eapply Forall2_impl; [by apply mapM_Some_1|]. intros [k v] [k' j']. simpl.
      destruct (to_json n h v); by intros [= <- <-]. }
    destruct (rebuild_dict f n IH h l kvs kjs Hl Hf) as (kvs' & h1 & Hh1 & -> & Hkvs).
    eexists _, _. split; [done|]. split; [etrans; [apply Hh1|apply alloc_subseteq]|].
    apply to_json_dict with kvs'; [apply alloc_lookup|].
    apply Forall2_map_r. eapply Forall2_impl; [done|]. intros [k v] [k' j'] [Hk Hv]. simpl in *.
    split; [done|]. by eapply to_json_weaken; [apply alloc_subseteq|].
Qed.

(** ** The document transformations *)

Lemma map_strings_id j : map_strings (fun s => s) j = j.
Proof.
  induction j using json_ind; simpl; try done; f_equal.
  - by apply map_ext_Forall_id.
  - by apply Template.map_pair_ext.
Qed.

Lemma map_strings_replace r j : map_strings (Template.substitute_str r) j = Template.replace_placeholders j r.
Proof.
  induction j using json_ind; simpl; try done; f_equal.
  - by apply map_Forall_ext.
  - apply map_Forall_ext. eapply Forall_impl; [done|]. intros [k v] Hv. simpl in *. congruence.
Qed.

Lemma map_strings_JObject g j f : map_strings g j = JObject f -> exists f', j = JObject f'.
Proof. destruct j; simpl; try done. by eexists. Qed.

(** ** Reading objects back *)

Lemma to_json_JObject_inv n h v kjs :
  to_json (S n) h v = Some (JObject kjs) ->
  exists l kvs, v = VRef l /\ h !! l = Some (ODict kvs) /\
    Forall2 (fun kv kj => kv.1 = kj.1 /\ to_json n h kv.2 = Some kj.2) kvs kjs.
Proof.
  destruct v; try done. intros Hj. pose proof Hj as Hj'. rewrite to_json_ref in Hj.
  destruct (h !! l) as [[vs|kvs]|] eqn:Hl; [| |done].
  - by destruct (mapM _ vs).
  - destruct (to_json_dict_inv _ _ _ _ _ Hl Hj') as (kjs' & [= <-] & Hf). by exists l, kvs.
Qed.

(** Item assignment on anything but a dict raises [TypeError]. *)
Lemma setitem_h_nondict n h v j k x :
  to_json n h v = Some j -> (forall f, j <> JObject f) -> setitem_h h v k x = inl TypeError.
Proof.
  intros Hj Hnd. destruct v; try done. destruct n as [|n]; [done|]. unfold setitem_h.
  rewrite to_json_ref in Hj. destruct (h !! l) as [[vs|kvs]|] eqn:Hl; [done| |done].
  destruct (mapM _ kvs); [|done]. injection Hj as <-. by destruct (Hnd _ eq_refl).
Qed.

Lemma alloc_spec o h l h' : alloc o h = (l, h') -> h !! l = None /\ h' = <[l := o]> h.
Proof. intros E. pose proof (alloc_fresh o h) as H. unfold alloc in *. by injection E as <- <-. Qed.

(** ** [create_project_page] on objects *)

Section Page.
Context (n : nat) (h0 : heap) (tv pv : val) (t pj : json) (name today icon : string).
Hypothesis Ht : to_json n h0 tv = Some t.
Hypothesis Hp : to_json n h0 pv = Some pj.

Let g := Template.substitute_str (CreateProject.replacements name today).

(** The copy reads back as the template. *)
Lemma page_copy :
  exists b0 hd, deepcopy (S (S n)) h0 tv = Some (b0, hd) /\ h0 ⊆ hd /\ to_json (S (S n)) hd b0 = Some t.
Proof.
  destruct (rebuild_spec (fun s => s) _ _ _ _ (to_json_S _ _ _ _ (to_json_S _ _ _ _ Ht)))
    as (b0 & hd & Hd & Hhd & Hb0).
  rewrite map_strings_id in Hb0. by exists b0, hd.
Qed.

(** A template that is not a dict: [body["parent"] = ...] raises
    [TypeError], as [page_body] does. *)
Lemma page_nondict :
  (forall f, t <> JObject f) ->
  create_project_page_h (S (S n)) h0 tv pv name today icon = Some (inl TypeError) /\
  CreateProject.page_body t (CreateProject.replacements name today) pj icon = inl TypeError.
Proof.
  intros Hnd. destruct page_copy as (b0 & hd & Hd & _ & Hb0).
  destruct (rebuild_spec g _ _ _ _ Hb0) as (b1 & hr & Hr & _ & Hb1).
  assert (Hnd' : forall f, map_strings g t <> JObject f).
  { intros f Hf. destruct (map_strings_JObject _ _ _ Hf) as [f' ->]. by destruct (Hnd f'). }
  split.
  - unfold create_project_page_h, replace_placeholders_h. rewrite Hd. fold g. rewrite Hr.
    destruct (alloc _ hr) as [pd hp] eqn:Ep. apply alloc_spec in Ep as [Hpd ->].
    erewrite setitem_h_nondict; [done| |done]. eapply to_json_weaken; [|done]. by apply insert_subseteq.
  - unfold CreateProject.page_body. unfold g in Hnd'. rewrite map_strings_replace in Hnd'.
    destruct (Template.replace_placeholders t _) as [| | | | | |f] eqn:E; try done. by destruct (Hnd' f).
Qed.
(** A dict template: the object [body] names ends with the fields
    [page_body] computes, and no object of the template is written. *)
Lemma page_dict f :
  t = JObject f ->
  exists body h, create_project_page_h (S (S n)) h0 tv pv name today icon = Some (inr (body, h)) /\
    CreateProject.page_body t (CreateProject.replacements name today) pj icon = inr body /\ h0 ⊆ h.
Proof.
  intros Htf. destruct page_copy as (b0 & hd & Hd & Hhd & Hb0). rewrite Htf in Hb0 |- *.
  destruct (to_json_JObject_inv _ _ _ _ Hb0) as (l & kvs & -> & Hl & Hkvs).
  destruct (rebuild_dict g (S n) (rebuild_spec g (S n)) hd l kvs f Hl Hkvs) as (kvs' & h1 & Hh1 & Hr & Hkvs').
  unfold create_project_page_h, replace_placeholders_h. rewrite Hd. fold g. rewrite Hr.
  destruct (alloc (ODict kvs') h1) as [lb hr] eqn:Eb. apply alloc_spec in Eb as [Hlb ->]. cbn [fst snd].
  destruct (alloc (ODict [("page_id", pv)]) _) as [pd hp] eqn:Ep. apply alloc_spec in Ep as [Hpd ->].
  assert (Hpb : pd <> lb) by (intros ->; by rewrite lookup_insert_eq in Hpd).
  rewrite lookup_insert_ne in Hpd by done.
  unfold setitem_h. rewrite lookup_insert_ne, lookup_insert_eq by done.
  destruct (alloc (ODict [("type", VStr "emoji"); ("emoji", VStr icon)]) _) as [ic hi] eqn:Ei.
  apply alloc_spec in Ei as [Hic ->].
  assert (Hib : ic <> lb) by (intros ->; by rewrite lookup_insert_eq in Hic).
  rewrite lookup_insert_ne in Hic by done.
  assert (Hip : ic <> pd) by (intros ->; by rewrite lookup_insert_eq in Hic).
  rewrite !lookup_insert_ne in Hic by done.
  rewrite lookup_insert_ne, lookup_insert_eq by done.
  unfold pop_none_h. rewrite lookup_insert_eq.
  match goal with |- context [to_json _ ?H (VRef lb)] => set (hF := H) end.
  assert (Hh1F : h1 ⊆ hF) by (subst hF; by repeat (apply insert_subseteq_r; [done|])).
  assert (Hh0F : h0 ⊆ hF) by (etrans; [exact Hhd|]; by etrans).
  assert (Hpar : to_json (S n) hF (VRef pd) = Some (JObject [("page_id", pj)])).
  { apply to_json_dict with [("page_id", pv)].
    - subst hF. rewrite !lookup_insert_ne by congruence. apply lookup_insert_eq.
    - repeat constructor. by eapply to_json_weaken. }
  assert (Hico : to_json (S n) hF (VRef ic) =
                 Some (JObject [("type", JString "emoji"); ("emoji", JString icon)])).
  { apply to_json_dict with [("type", VStr "emoji"); ("emoji", VStr icon)].
    - subst hF. rewrite !lookup_insert_ne by congruence. apply lookup_insert_eq.
    - repeat (constructor; [split; [reflexivity|by destruct n]|]). constructor. }
  assert (Hbody : Forall2 (fun kv kj => kv.1 = kj.1 /\ to_json (S n) hF kv.2 = Some kj.2) kvs'
                    (map (fun kv => (kv.1, Template.replace_placeholders kv.2 (CreateProject.replacements name today))) f)).
  { apply Forall2_map_r. eapply Forall2_impl; [exact Hkvs'|]. intros [k v] [k' j] [Hk Hv]. cbn [fst snd] in *.
    split; [done|]. rewrite <- map_strings_replace. eapply to_json_weaken; [exact Hh1F|exact Hv]. }
  assert (Hlb' : hF !! lb = Some (ODict (dict_delete "object"
                  (dict_setitem "icon" (VRef ic) (dict_setitem "parent" (VRef pd) kvs'))))).
  { subst hF. apply lookup_insert_eq. }
  pose (P := fun v j => to_json (S n) hF v = Some j).
  rewrite (to_json_dict _ _ _ _ _ Hlb'
             (dict_delete_Forall2 P "object" _ _ (dict_setitem_Forall2 P "icon" _ _ _ _ Hico
                                                   (dict_setitem_Forall2 P "parent" _ _ _ _ Hpar Hbody)))).
  eexists _, _. split; [reflexivity|]. by split.
Qed.

End Page.

(** C37: spec section 3 and 8 for [create_project_page] (lines 81-92), on
    Python objects: copying, substituting and updating the body ends with
    the body [CreateProject.page_body] computes (or the same exception when
    the template is not a dict), and the loaded template is not mutated:
    the heap only grows around it and it reads back as it was.  Reading the
    inputs with fuel [n] makes fuel [n + 2] enough for the whole function. *)
Theorem create_project_page_h_spec n h0 tv pv t pj name today icon :
  to_json n h0 tv = Some t -> to_json n h0 pv = Some pj ->
  exists r, create_project_page_h (S (S n)) h0 tv pv name today icon = Some r /\
  match r with
  | inl e => CreateProject.page_body t (CreateProject.replacements name today) pj icon = inl e
  | inr (body, h) =>
      CreateProject.page_body t (CreateProject.replacements name today) pj icon = inr body /\
      h0 ⊆ h /\ to_json n h tv = Some t
  end.
Proof.
  intros Ht Hp. destruct t as [| | | | | |f] eqn:Et;
    try (exists (inl TypeError); apply (page_nondict n h0 tv pv _ pj name today icon Ht); by intros ? ?).
  destruct (page_dict n h0 tv pv _ pj name today icon Ht Hp f eq_refl) as (body & h & Hr & Hb & Hh).
  exists (inr (body, h)). split; [done|]. split; [done|]. split; [done|]. by eapply to_json_weaken.
Qed.

(** A loaded template [{"object": "page", "title": "{{PROJECT_NAME}}"}] at
    location 1. *)
Definition demo_heap : heap :=
  {[ 1%positive := ODict [("object", VStr "page"); ("title", VStr "{{PROJECT_NAME}}")] ]}.

Lemma create_project_page_h_spec_witness :
  to_json 1 demo_heap (VRef 1) =
    Some (JObject [("object", JString "page"); ("title", JString "{{PROJECT_NAME}}")]) /\
  to_json 1 demo_heap (VStr "xyz") = Some (JString "xyz") /\
  exists r, create_project_page_h 3 demo_heap (VRef 1) (VStr "xyz") "Apollo" "2026-11-09" "x" = Some r /\
  match r with
  | inl e => CreateProject.page_body (JObject [("object", JString "page"); ("title", JString "{{PROJECT_NAME}}")])
               (CreateProject.replacements "Apollo" "2026-11-09") (JString "xyz") "x" = inl e
  | inr (body, h) =>
      CreateProject.page_body (JObject [("object", JString "page"); ("title", JString "{{PROJECT_NAME}}")])
        (CreateProject.replacements "Apollo" "2026-11-09") (JString "xyz") "x" = inr body /\
      demo_heap ⊆ h /\
      to_json 1 h (VRef 1) = Some (JObject [("object", JString "page"); ("title", JString "{{PROJECT_NAME}}")])
  end.
Proof.
  split; [reflexivity|]. split; [reflexivity|].
  apply (create_project_page_h_spec 1); reflexivity.
Defined.

(** C11: [replace_placeholders] on Python objects returns on every object
    tree (fuel the tree's depth is enough), its result denotes the
    substituted document of the value model, and it writes no existing
    object: the heap after the call contains the heap before, so the input
    document is not mutated (spec section 8). *)
Theorem replace_placeholders_h_spec r n h v j :
  to_json n h v = Some j ->
  exists v' h', replace_placeholders_h r n h v = Some (v', h') /\ h ⊆ h' /\
    to_json n h' v' = Some (Template.replace_placeholders j r).
Proof.
  intros Hj. destruct (rebuild_spec (Template.substitute_str r) _ _ _ _ Hj) as (v' & h' & Hr & Hh & Hv).
  rewrite map_strings_replace in Hv. by exists v', h'.
Qed.

Lemma replace_placeholders_h_spec_witness :
  to_json 1 demo_heap (VRef 1) =
    Some (JObject [("object", JString "page"); ("title", JString "{{PROJECT_NAME}}")]) /\
  exists v' h', replace_placeholders_h [("PROJECT_NAME", "Apollo")] 1 demo_heap (VRef 1) = Some (v', h') /\
    demo_heap ⊆ h' /\
    to_json 1 h' v' = Some (Template.replace_placeholders
                              (JObject [("object", JString "page"); ("title", JString "{{PROJECT_NAME}}")])
                              [("PROJECT_NAME", "Apollo")]).
Proof. split; [reflexivity|]. by apply replace_placeholders_h_spec. Defined.

End Heap.
